(** * DAS maritime-surveillance Monte Carlo simulator

    A shallow embedding of [monte_carlo_simulator/das_monte_carlo.py]:
    the per-trial monthly engine ([run_single_simulation]), the driver
    ([run_monte_carlo]) and the aggregator ([analyze_results], with
    numpy's statistics behind an interface); then the predicates and the
    concrete runs the
    properties speak of; then the properties, each with the run it is
    checked on.

    Numbers are modelled as the interpreter has them: Python [int] is [Z],
    Python [float] is a binary64 value ([PrimFloat.float]), with the
    conversions between the two written out.  Python exceptions are the
    [Raise] branch of [result].  The process-wide generator behind
    [np.random] is an explicit state threaded through every draw. *)

From Stdlib Require Import ZArith List String Bool Lia Floats.
Import ListNotations.
Set Warnings "-inexact-float".
Local Open Scope Z_scope.

(** ** Exceptions and fallible values *)

Inductive exn : Type :=
| ValueError
| OverflowError
| ZeroDivisionError
| TypeError
| KeyError
| IndexError
| NotImplementedError.

Inductive result (A : Type) : Type :=
| Ok (a : A)
| Raise (e : exn).
Arguments Ok {A} a.
Arguments Raise {A} e.

Definition rbind {A B : Type} (r : result A) (k : A -> result B) : result B :=
  match r with
  | Ok a => k a
  | Raise e => Raise e
  end.

(** ** Python numbers *)

Module Py.

(** [math.isfinite]: neither an infinity nor a NaN. *)
Definition isfinite (x : float) : bool :=
  match Prim2SF x with
  | S754_zero _ | S754_finite _ _ _ => true
  | S754_infinity _ | S754_nan => false
  end.

(** [int(x)] on a float: truncation toward zero; an infinity raises
    OverflowError and a NaN raises ValueError. *)
Definition int (x : float) : result Z :=
  match Prim2SF x with
  | S754_zero _ => Ok 0
  | S754_finite s m e => Ok (cond_Zopp s (Z.shiftl (Zpos m) e))
  | S754_infinity _ => Raise OverflowError
  | S754_nan => Raise ValueError
  end.

(** The implicit [int -> float] conversion of mixed arithmetic: the
    nearest binary64 value (ties to even), OverflowError when that is
    out of range. *)
Definition float_of_int (z : Z) : result float :=
  let f := SF2Prim (binary_normalize prec emax z 0 false) in
  if isfinite f then Ok f else Raise OverflowError.

(** [min(a, b)] and [max(a, b)] on floats keep the first argument unless
    the second compares strictly better, so a NaN second argument is
    dropped. *)
Definition min (a b : float) : float := if PrimFloat.ltb b a then b else a.
Definition max (a b : float) : float := if PrimFloat.ltb a b then b else a.

(** [x / y] on floats raises ZeroDivisionError on a zero divisor. *)
Definition truediv (x y : float) : result float :=
  if PrimFloat.eqb y 0 then Raise ZeroDivisionError else Ok (x / y)%float.

(** [a / b] on ints (true division): the exact quotient rounded once to
    the nearest binary64 value, ties to even, whatever the size of the
    operands; ZeroDivisionError on a zero divisor, OverflowError when the
    rounded quotient is out of range.  As in the interpreter, operands of
    magnitude at most 2^53 are binary64 values themselves and are divided
    as floats, which rounds their exact quotient once.  Otherwise the
    quotient is computed on the magnitudes, scaled so that it has at
    least 55 bits, with the remainder kept as one sticky bit below it:
    rounding that integer once is rounding the exact quotient. *)
Definition int_truediv (a b : Z) : result float :=
  if b =? 0 then Raise ZeroDivisionError
  else if (Z.abs a <=? 9007199254740992) && (Z.abs b <=? 9007199254740992)
  then rbind (float_of_int a) (fun fa =>
       rbind (float_of_int b) (fun fb => Ok (fa / fb)%float))
  else
    let negate := xorb (a <? 0) (b <? 0) in
    let shift := Z.max 0 (55 + Z.log2 (Z.abs b) - Z.log2 (Z.abs a)) in
    let scaled := Z.shiftl (Z.abs a) shift in
    let q := scaled / Z.abs b in
    let sticky := if scaled mod Z.abs b =? 0 then 0 else 1 in
    let m := 2 * q + sticky in
    let f := SF2Prim (binary_normalize prec emax (if negate then - m else m)
                        (- shift - 1) negate) in
    if isfinite f then Ok f else Raise OverflowError.

(** [z * x] with [z] an int and [x] a float. *)
Definition int_mul_float (z : Z) (x : float) : result float :=
  rbind (float_of_int z) (fun fz => Ok (fz * x)%float).

End Py.

(** ** Dictionaries

    A Python [dict] keyed by strings, kept as an association list in
    insertion order (the order [items()] iterates in, which fixes the
    order of the random draws made per entry). *)

Definition dict (V : Type) : Type := list (string * V).

Fixpoint dict_get {V : Type} (d : dict V) (k : string) : option V :=
  match d with
  | [] => None
  | (k', v) :: d' => if String.eqb k k' then Some v else dict_get d' k
  end.

(** [d[k] = v]: overwrite in place when the key is present, else append. *)
Fixpoint dict_set {V : Type} (d : dict V) (k : string) (v : V) : dict V :=
  match d with
  | [] => [(k, v)]
  | (k', v') :: d' =>
      if String.eqb k k' then (k', v) :: d' else (k', v') :: dict_set d' k v
  end.

Definition dict_values {V : Type} (d : dict V) : list V := map snd d.

(** ** External interfaces: numpy's generator and float power *)

(** The legacy global generator of [np.random].  [np_random_seed s] is the
    state installed by [np.random.seed(s)]: it depends on [s] only, never
    on the state it replaces.  Each draw may raise (numpy validates its
    arguments) or return a value with the next state; a returned
    binomial count lies between 0 and the number of trials. *)
Class NumpyRandom : Type := {
  rng : Type;
  np_random_seed : Z -> result rng;
  np_random_normal : float -> float -> rng -> result (float * rng);
  np_random_binomial : Z -> float -> rng -> result (Z * rng);
  np_random_binomial_range :
    forall n p g k g', np_random_binomial n p g = Ok (k, g') -> 0 <= k <= n
}.

(** [x ** y] on floats.  It may raise (zero to a negative power, overflow);
    a complex result is reported as TypeError, which is what the first
    later comparison of the revenue would raise.  Anything to the power
    zero is one. *)
Class FloatPow : Type := {
  py_pow : float -> float -> result float;
  py_pow_zero : forall x, py_pow x 0%float = Ok 1%float
}.

(** The summary statistics of numpy, on the list they are handed: a list
    of Python ints or a list of floats.  They may raise.  On an empty
    list [np.mean] and [np.median] return NaN (numpy warns and goes on)
    and [np.percentile], asked for a percentile between 0 and 100,
    raises IndexError. *)
Inductive array_like : Type :=
| int_array (values : list Z)
| float_array (values : list float).

Definition array_size (a : array_like) : nat :=
  match a with
  | int_array values => List.length values
  | float_array values => List.length values
  end.

Class NumpyStats : Type := {
  np_mean : array_like -> result float;
  np_median : array_like -> result float;
  np_percentile : array_like -> Z -> result float;
  np_mean_empty :
    forall a, array_size a = 0%nat -> np_mean a = Ok PrimFloat.nan;
  np_median_empty :
    forall a, array_size a = 0%nat -> np_median a = Ok PrimFloat.nan;
  np_percentile_empty :
    forall a q,
      0 <= q <= 100 -> array_size a = 0%nat ->
      np_percentile a q = Raise IndexError
}.

(** ** Data model *)

Inductive ArchitectureOption : Type :=
| OPTION_A_GPU_EDGE
| OPTION_B_REGIONAL_DC
| OPTION_C_CLOUD_ONLY.

Inductive CustomerSegment : Type :=
| PORT_AUTHORITY
| NAVAL_MILITARY
| ENVIRONMENTAL
| SHIPPING_COMPANY
| INSURANCE.

(** [segment.value] *)
Definition segment_value (s : CustomerSegment) : string :=
  match s with
  | PORT_AUTHORITY => "port"
  | NAVAL_MILITARY => "naval"
  | ENVIRONMENTAL => "environmental"
  | SHIPPING_COMPANY => "shipping"
  | INSURANCE => "insurance"
  end.

(** Iteration order of [for seg in CustomerSegment]. *)
Definition all_segments : list CustomerSegment :=
  [PORT_AUTHORITY; NAVAL_MILITARY; ENVIRONMENTAL; SHIPPING_COMPANY; INSURANCE].

Record SimulationInputs : Type := {
  architecture_option : ArchitectureOption;
  series_a_funding : float;
  compression_error_threshold : float;
  initial_cables : Z;
  target_cables_month_6 : Z;
  target_cables_month_12 : Z;
  target_cables_month_18 : Z;
  pricing_port : float;
  pricing_naval : float;
  pricing_environmental : float;
  pricing_shipping : float;
  pricing_insurance : float;
  initial_team_size : Z;
  team_growth_rate : float;
  cloud_provider : string;
  cloud_credits_secured : float;
  simulation_months : Z
}.

Record StochasticParameters : Type := {
  detection_accuracy_mean : float;
  detection_accuracy_std : float;
  cac_port_mean : float;
  cac_port_std : float;
  cac_naval_mean : float;
  cac_naval_std : float;
  conversion_rate_port_mean : float;
  conversion_rate_port_std : float;
  conversion_rate_naval_mean : float;
  conversion_rate_naval_std : float;
  churn_rate_monthly_mean : float;
  churn_rate_monthly_std : float;
  cloud_cost_per_tb_mean : float;
  cloud_cost_per_tb_std : float;
  edge_capex_variation : float;
  salary_variation : float;
  cable_deployment_time_months_mean : float;
  cable_deployment_time_months_std : float;
  system_uptime_mean : float;
  system_uptime_std : float;
  competitive_pressure_annual : float
}.

Record SimulationOutputs : Type := {
  months : list Z;
  cables_deployed : list Z;
  customers_by_segment : list (dict Z);
  total_customers : list Z;
  detection_accuracy : list float;
  detections_per_day : list Z;
  system_uptime : list float;
  regional_datacenters : list Z;
  team_size_total : list Z;
  team_by_role : list (dict Z);
  revenue_monthly : list float;
  costs_monthly : list float;
  costs_breakdown : list (dict float);
  gross_margin : list float;
  cash_remaining : list float;
  arr : list float;
  profitability_achieved : bool;
  profitability_month : option Z;
  series_b_qualified : bool;
  ran_out_of_cash : bool;
  failure_month : option Z
}.

(** [SimulationOutputs()] *)
Definition empty_outputs : SimulationOutputs := {|
  months := []; cables_deployed := []; customers_by_segment := [];
  total_customers := []; detection_accuracy := []; detections_per_day := [];
  system_uptime := []; regional_datacenters := []; team_size_total := [];
  team_by_role := []; revenue_monthly := []; costs_monthly := [];
  costs_breakdown := []; gross_margin := []; cash_remaining := []; arr := [];
  profitability_achieved := false; profitability_month := None;
  series_b_qualified := false; ran_out_of_cash := false;
  failure_month := None
|}.

(** The running state of one trial: the local variables of
    [run_single_simulation] that live across months. *)
Record TrialState : Type := {
  cash : float;
  st_cables_deployed : Z;
  customers : dict Z;
  team_size : Z;
  st_regional_datacenters : Z;
  deployment_queue : list (Z * float);
  outputs : SimulationOutputs
}.

(** The values one month computes before they are recorded. *)
Record MonthMetrics : Type := {
  m_cables_deployed : Z;
  m_customers : dict Z;
  m_detection_accuracy : float;
  m_detections : Z;
  m_system_uptime : float;
  m_regional_datacenters : Z;
  m_team_size : Z;
  m_team_breakdown : dict Z;
  m_revenue : float;
  m_total_costs : float;
  m_costs_breakdown : dict float;
  m_cash : float
}.

(** ** The engine *)

Section Engine.

Context {NR : NumpyRandom} {FP : FloatPow}.

(** Computations that draw from the global generator and may raise. *)
Definition M (A : Type) : Type := rng -> result (A * rng).

Definition ret {A : Type} (a : A) : M A := fun g => Ok (a, g).

Definition bind {A B : Type} (c : M A) (k : A -> M B) : M B :=
  fun g =>
    match c g with
    | Ok (a, g') => k a g'
    | Raise e => Raise e
    end.

Definition lift {A : Type} (r : result A) : M A :=
  fun g =>
    match r with
    | Ok a => Ok (a, g)
    | Raise e => Raise e
    end.

Notation "x <- c ;; k" := (bind c (fun x => k))
  (at level 100, c at next level, right associativity).
Notation "' p <- c ;; k" := (bind c (fun p => k))
  (at level 100, p pattern, c at next level, right associativity).

(** A [for] loop over a list that threads an accumulator. *)
Fixpoint for_each {A B : Type} (l : list A) (acc : B) (body : B -> A -> M B)
  : M B :=
  match l with
  | [] => ret acc
  | a :: l' => acc' <- body acc a ;; for_each l' acc' body
  end.

(** [np.random.seed(s)] *)
Definition seed (s : Z) : M unit :=
  fun _ =>
    match np_random_seed s with
    | Ok g => Ok (tt, g)
    | Raise e => Raise e
    end.

Definition normal (loc scale : float) : M float := np_random_normal loc scale.
Definition binomial (n : Z) (p : float) : M Z := np_random_binomial n p.

(** [DASMonteCarloSimulator.__init__(inputs, params)] stores its two
    arguments and does nothing else; they are the [self.inputs] and
    [self.params] every method below reads. *)
Variable inputs : SimulationInputs.
Variable params : StochasticParameters.

(** *** Cost model *)

(** Returns the per-cable capex (with its random variation) and the total
    monthly opex, which is an int. *)
Definition get_architecture_costs (arch : ArchitectureOption) (num_cables : Z)
  : M (float * Z) :=
  let '(edge_capex_per_cable, edge_opex_monthly, datacenter_capex,
        datacenter_opex_monthly, cloud_opex_monthly) :=
    match arch with
    | OPTION_A_GPU_EDGE =>
        (500000%float, 10800, 0, 0, 4000 * num_cables)
    | OPTION_B_REGIONAL_DC =>
        (350000%float, 2500,
         if num_cables >=? 8 then 2000000 else 0,
         if num_cables >=? 8 then 16700 else 0,
         4000 * num_cables)
    | OPTION_C_CLOUD_ONLY =>
        (250000%float, 2500, 0, 0, 15000 * num_cables)
    end in
  edge_capex_variation <- normal 1 (edge_capex_variation params) ;;
  let edge_capex_per_cable := (edge_capex_per_cable * edge_capex_variation)%float in
  let total_opex_monthly :=
    edge_opex_monthly * num_cables + datacenter_opex_monthly + cloud_opex_monthly in
  ret (edge_capex_per_cable, total_opex_monthly).

Definition role_fractions : list (string * float) :=
  [("signal_processing_ml"%string, 0.25%float);
   ("data_engineering"%string, 0.20%float);
   ("cloud_devops"%string, 0.20%float);
   ("edge_hardware"%string, 0.15%float);
   ("product_engineering"%string, 0.20%float)].

Definition salaries : dict Z :=
  [("signal_processing_ml"%string, 200000);
   ("data_engineering"%string, 170000);
   ("cloud_devops"%string, 160000);
   ("edge_hardware"%string, 150000);
   ("product_engineering"%string, 165000)].

(** The [roles] dictionary: [int(team_size * fraction)] per role.  The
    five entries are evaluated in order and the first failure wins. *)
Fixpoint team_roles (team_size : Z) (fr : list (string * float))
  : result (dict Z) :=
  match fr with
  | [] => Ok []
  | (role, fraction) :: fr' =>
      rbind (Py.int_mul_float team_size fraction) (fun x =>
      rbind (Py.int x) (fun count =>
      rbind (team_roles team_size fr') (fun rest =>
      Ok ((role, count) :: rest))))
  end.

Definition get_team_costs (team_size : Z) : M (float * dict Z) :=
  roles <- lift (team_roles team_size role_fractions) ;;
  monthly_cost <-
    for_each roles 0%float (fun monthly_cost '(role, count) =>
      base <- lift (match dict_get salaries role with
                    | Some s => Ok s
                    | None => Raise KeyError
                    end) ;;
      variation <- normal 1 (salary_variation params) ;;
      salary <- lift (Py.int_mul_float base variation) ;;
      fcount <- lift (Py.float_of_int count) ;;
      ret (monthly_cost + (salary / 12) * fcount)%float) ;;
  ret (monthly_cost, roles).

(** *** Demand model *)

Definition leads_per_cable (s : CustomerSegment) : Z :=
  match s with
  | PORT_AUTHORITY => 4
  | NAVAL_MILITARY => 1
  | ENVIRONMENTAL => 3
  | SHIPPING_COMPANY => 2
  | INSURANCE => 2
  end.

(** [{seg.value: 0 for seg in CustomerSegment}] *)
Definition zero_ledger : dict Z :=
  map (fun s => (segment_value s, 0)) all_segments.

(** [min(1.0, month / 12)] *)
Definition sales_effectiveness (month : Z) : result float :=
  rbind (Py.int_truediv month 12) (fun r => Ok (Py.min 1 r)).

Definition get_customer_acquisition
    (month cables_deployed : Z) (current_customers : dict Z) : M (dict Z) :=
  let new_customers := zero_ledger in
  c_port <- normal (conversion_rate_port_mean params)
                   (conversion_rate_port_std params) ;;
  c_naval <- normal (conversion_rate_naval_mean params)
                    (conversion_rate_naval_std params) ;;
  c_env <- normal 0.30 0.10 ;;
  c_ship <- normal 0.20 0.08 ;;
  c_ins <- normal 0.15 0.08 ;;
  let conversion_rates (s : CustomerSegment) : float :=
    match s with
    | PORT_AUTHORITY => Py.max 0 c_port
    | NAVAL_MILITARY => Py.max 0 c_naval
    | ENVIRONMENTAL => Py.max 0 c_env
    | SHIPPING_COMPANY => Py.max 0 c_ship
    | INSURANCE => Py.max 0 c_ins
    end in
  sales_effectiveness <- lift (sales_effectiveness month) ;;
  for_each all_segments new_customers (fun new_customers segment =>
    total_leads <- lift (Py.int_mul_float
                           (leads_per_cable segment * cables_deployed)
                           sales_effectiveness) ;;
    let conversion := conversion_rates segment in
    n <- lift (Py.int total_leads) ;;
    acquired <- binomial n conversion ;;
    ret (dict_set new_customers (segment_value segment) acquired)).

(** [max(0, min(0.1, x))], the churn rate made of the month's draw. *)
Definition clamp_churn_rate (x : float) : float := Py.max 0 (Py.min 0.1 x).

(** The loop of [apply_churn]: one binomial draw per segment at the
    month's churn rate. *)
Definition churn_at (churn_rate : float) (customers : dict Z) : M (dict Z) :=
  for_each customers [] (fun churned_customers '(segment, count) =>
    churned <- binomial count churn_rate ;;
    ret (dict_set churned_customers segment (Z.max 0 (count - churned)))).

Definition apply_churn (customers : dict Z) : M (dict Z) :=
  x <- normal (churn_rate_monthly_mean params)
              (churn_rate_monthly_std params) ;;
  let churn_rate := clamp_churn_rate x in
  churn_at churn_rate customers.

Definition pricing : dict float :=
  [(segment_value PORT_AUTHORITY, pricing_port inputs);
   (segment_value NAVAL_MILITARY, pricing_naval inputs);
   (segment_value ENVIRONMENTAL, pricing_environmental inputs);
   (segment_value SHIPPING_COMPANY, pricing_shipping inputs);
   (segment_value INSURANCE, pricing_insurance inputs)].

(** The accumulation loop of [calculate_revenue]. *)
Fixpoint revenue_loop (customers : dict Z) (price_erosion revenue : float)
  : result float :=
  match customers with
  | [] => Ok revenue
  | (segment, count) :: rest =>
      match dict_get pricing segment with
      | None => Raise KeyError
      | Some price =>
          rbind (Py.float_of_int count) (fun fcount =>
          revenue_loop rest price_erosion
            (revenue + price * fcount * price_erosion)%float)
      end
  end.

Definition calculate_revenue (customers : dict Z) (month : Z) : result float :=
  rbind (Py.int_truediv month 12) (fun years =>
  rbind (py_pow (1 - competitive_pressure_annual params)%float years)
    (fun price_erosion =>
  revenue_loop customers price_erosion 0%float)).

Definition calculate_detections (cables : Z) (accuracy : float) : M Z :=
  let base_detections := cables * 50 in
  x <- lift (Py.int_mul_float base_detections accuracy) ;;
  detections <- lift (Py.int x) ;;
  scale <- lift (Py.int_mul_float detections 0.1) ;;
  loc <- lift (Py.float_of_int detections) ;;
  y <- normal loc scale ;;
  detections <- lift (Py.int y) ;;
  ret (Z.max 0 detections).

(** *** Trial engine *)

(** Indices of the queue entries that are due at [month], in queue
    order ([enumerate] starts at [i]). *)
Fixpoint due_indices (month : Z) (i : nat) (queue : list (Z * float))
  : list nat :=
  match queue with
  | [] => []
  | (deploy_month, _) :: rest =>
      if month >=? deploy_month
      then i :: due_indices month (S i) rest
      else due_indices month (S i) rest
  end.

(** [l.pop(i)] for an index in range, as a list without that element. *)
Fixpoint list_pop {A : Type} (i : nat) (l : list A) : list A :=
  match l, i with
  | [], _ => []
  | _ :: l', O => l'
  | a :: l', S i' => a :: list_pop i' l'
  end.

(** Deployment settlement: count the due entries as deployed and pop
    them, highest index first. *)
Definition settle_deployments
    (month cables_deployed : Z) (queue : list (Z * float))
  : Z * list (Z * float) :=
  let deployed_this_month := due_indices month 0 queue in
  (cables_deployed + Z.of_nat (List.length deployed_this_month),
   fold_left (fun q i => list_pop i q) (rev deployed_this_month) queue).

(** The piecewise-constant target of the checkpoint schedule. *)
Definition target_cables (month : Z) : Z :=
  let target := initial_cables inputs in
  let target := if month >=? 6 then target_cables_month_6 inputs else target in
  let target := if month >=? 12 then target_cables_month_12 inputs else target in
  let target := if month >=? 18 then target_cables_month_18 inputs else target in
  target.

(** The body of [for _ in range(cables_to_deploy)], run [n] times. *)
Fixpoint plan_deployments
    (n : nat) (month : Z) (queue : list (Z * float)) (cash : float)
  : M (list (Z * float) * float) :=
  match n with
  | O => ret (queue, cash)
  | S n' =>
      deployment_time <- normal (cable_deployment_time_months_mean params)
                                (cable_deployment_time_months_std params) ;;
      lead <- lift (Py.int deployment_time) ;;
      let deploy_month := month + lead in
      '(edge_capex_per_cable, _) <-
          get_architecture_costs (architecture_option inputs) 1 ;;
      plan_deployments n' month
        (queue ++ [(deploy_month, edge_capex_per_cable)])
        (cash - edge_capex_per_cable)%float
  end.

(** [customers[segment] = customers.get(segment, 0) + count] for every
    item of [new_customers]. *)
Definition add_customers (customers new_customers : dict Z) : dict Z :=
  fold_left
    (fun cs '(segment, count) =>
       dict_set cs segment
         (match dict_get cs segment with Some c => c | None => 0 end + count))
    new_customers customers.

(** [(revenue - total_costs) / revenue if revenue > 0 else -1] *)
Definition gross_margin_of (revenue total_costs : float) : result float :=
  if PrimFloat.ltb 0 revenue
  then Py.truediv (revenue - total_costs)%float revenue
  else Ok (-1)%float.

Definition sum_Z (l : list Z) : Z := fold_left Z.add l 0.

(** The sixteen [append]s of the "Record outputs" block ([months] was
    appended when the month started). *)
Definition record_outputs
    (o : SimulationOutputs) (mt : MonthMetrics) (gm : float)
  : SimulationOutputs := {|
    months := months o;
    cables_deployed := cables_deployed o ++ [m_cables_deployed mt];
    customers_by_segment := customers_by_segment o ++ [m_customers mt];
    total_customers :=
      total_customers o ++ [sum_Z (dict_values (m_customers mt))];
    detection_accuracy := detection_accuracy o ++ [m_detection_accuracy mt];
    detections_per_day := detections_per_day o ++ [m_detections mt];
    system_uptime := system_uptime o ++ [m_system_uptime mt];
    regional_datacenters :=
      regional_datacenters o ++ [m_regional_datacenters mt];
    team_size_total := team_size_total o ++ [m_team_size mt];
    team_by_role := team_by_role o ++ [m_team_breakdown mt];
    revenue_monthly := revenue_monthly o ++ [m_revenue mt];
    costs_monthly := costs_monthly o ++ [m_total_costs mt];
    costs_breakdown := costs_breakdown o ++ [m_costs_breakdown mt];
    gross_margin := gross_margin o ++ [gm];
    cash_remaining := cash_remaining o ++ [m_cash mt];
    arr := arr o ++ [(m_revenue mt * 12)%float];
    profitability_achieved := profitability_achieved o;
    profitability_month := profitability_month o;
    series_b_qualified := series_b_qualified o;
    ran_out_of_cash := ran_out_of_cash o;
    failure_month := failure_month o
  |}.

(** [outputs.months.append(month)] *)
Definition append_month (o : SimulationOutputs) (month : Z)
  : SimulationOutputs := {|
    months := months o ++ [month];
    cables_deployed := cables_deployed o;
    customers_by_segment := customers_by_segment o;
    total_customers := total_customers o;
    detection_accuracy := detection_accuracy o;
    detections_per_day := detections_per_day o;
    system_uptime := system_uptime o;
    regional_datacenters := regional_datacenters o;
    team_size_total := team_size_total o;
    team_by_role := team_by_role o;
    revenue_monthly := revenue_monthly o;
    costs_monthly := costs_monthly o;
    costs_breakdown := costs_breakdown o;
    gross_margin := gross_margin o;
    cash_remaining := cash_remaining o;
    arr := arr o;
    profitability_achieved := profitability_achieved o;
    profitability_month := profitability_month o;
    series_b_qualified := series_b_qualified o;
    ran_out_of_cash := ran_out_of_cash o;
    failure_month := failure_month o
  |}.

(** Assignment of the five terminal fields; the sequences are kept. *)
Definition with_flags (o : SimulationOutputs)
    (pa : bool) (pm : option Z) (sb roc : bool) (fm : option Z)
  : SimulationOutputs := {|
    months := months o;
    cables_deployed := cables_deployed o;
    customers_by_segment := customers_by_segment o;
    total_customers := total_customers o;
    detection_accuracy := detection_accuracy o;
    detections_per_day := detections_per_day o;
    system_uptime := system_uptime o;
    regional_datacenters := regional_datacenters o;
    team_size_total := team_size_total o;
    team_by_role := team_by_role o;
    revenue_monthly := revenue_monthly o;
    costs_monthly := costs_monthly o;
    costs_breakdown := costs_breakdown o;
    gross_margin := gross_margin o;
    cash_remaining := cash_remaining o;
    arr := arr o;
    profitability_achieved := pa;
    profitability_month := pm;
    series_b_qualified := sb;
    ran_out_of_cash := roc;
    failure_month := fm
  |}.

(** "Check for profitability": first occurrence only. *)
Definition check_profitability
    (o : SimulationOutputs) (month : Z) (gm revenue total_costs : float)
  : SimulationOutputs :=
  if negb (profitability_achieved o)
     && PrimFloat.ltb 0.7 gm && PrimFloat.ltb total_costs revenue
  then with_flags o true (Some month)
         (series_b_qualified o) (ran_out_of_cash o) (failure_month o)
  else o.

(** "Check for Series B qualification": the flag is only ever set. *)
Definition check_series_b
    (o : SimulationOutputs) (gm revenue : float) (cables_deployed : Z)
  : SimulationOutputs :=
  if PrimFloat.ltb 30000000 (revenue * 12)%float
     && PrimFloat.ltb 0.6 gm && (cables_deployed >=? 15)
  then with_flags o (profitability_achieved o) (profitability_month o)
         true (ran_out_of_cash o) (failure_month o)
  else o.

(** "Check for failure": flag and month, after which the loop breaks. *)
Definition mark_failure (o : SimulationOutputs) (month : Z)
  : SimulationOutputs :=
  with_flags o (profitability_achieved o) (profitability_month o)
    (series_b_qualified o) true (Some month).

(** [max(lo, min(1.0, x))], the clamp of the two technical metrics. *)
Definition clamp_metric (lo x : float) : float := Py.max lo (Py.min 1 x).

(** "Team growth": every sixth month after month 0. *)
Definition grow_team (month team_size : Z) : result Z :=
  if (month >? 0) && (month mod 6 =? 0)
  then rbind (Py.int_mul_float team_size (team_growth_rate inputs)) Py.int
  else Ok team_size.

(** One iteration of [for month in range(simulation_months)].  The
    boolean is [true] when the iteration ends in [break]. *)
Definition month_body (month : Z) (st : TrialState) : M (TrialState * bool) :=
  let o := append_month (outputs st) month in
  (* Cable deployment: process the queue *)
  let '(cables_deployed, queue) :=
    settle_deployments month (st_cables_deployed st) (deployment_queue st) in
  (* Plan new deployments based on targets *)
  let cables_to_deploy :=
    target_cables month - cables_deployed - Z.of_nat (List.length queue) in
  '(queue, cash) <-
      plan_deployments (Z.to_nat cables_to_deploy) month queue (cash st) ;;
  (* Regional datacenter decision *)
  let '(regional_datacenters, cash) :=
    match architecture_option inputs with
    | OPTION_B_REGIONAL_DC =>
        if (cables_deployed >=? 8) && (st_regional_datacenters st =? 0)
        then (1, (cash - 2000000)%float)
        else (st_regional_datacenters st, cash)
    | _ => (st_regional_datacenters st, cash)
    end in
  (* Customer acquisition, churn, revenue *)
  new_customers <-
      get_customer_acquisition month cables_deployed (customers st) ;;
  let customers := add_customers (customers st) new_customers in
  customers <- apply_churn customers ;;
  revenue <- lift (calculate_revenue customers month) ;;
  (* Costs *)
  '(_, infra_opex) <-
      get_architecture_costs (architecture_option inputs) cables_deployed ;;
  '(team_cost, team_breakdown) <- get_team_costs (team_size st) ;;
  let sales_marketing_cost := 50000 + 5000 * team_size st in
  support_cost <- lift (Py.int_mul_float (10000 * cables_deployed) 0.05) ;;
  f_infra_opex <- lift (Py.float_of_int infra_opex) ;;
  f_sales_marketing_cost <- lift (Py.float_of_int sales_marketing_cost) ;;
  let total_costs :=
    (f_infra_opex + team_cost + f_sales_marketing_cost + support_cost)%float in
  let costs_breakdown : dict float :=
    [("infrastructure"%string, f_infra_opex);
     ("personnel"%string, team_cost);
     ("sales_marketing"%string, f_sales_marketing_cost);
     ("support"%string, support_cost)] in
  (* Update cash *)
  let cash := (cash + (revenue - total_costs))%float in
  (* Technical metrics *)
  x <- normal (detection_accuracy_mean params) (detection_accuracy_std params) ;;
  let detection_accuracy := clamp_metric 0.8 x in
  y <- normal (system_uptime_mean params) (system_uptime_std params) ;;
  let system_uptime := clamp_metric 0.9 y in
  detections <- calculate_detections cables_deployed detection_accuracy ;;
  (* Team growth *)
  team_size <- lift (grow_team month (team_size st)) ;;
  (* Record outputs *)
  gm <- lift (gross_margin_of revenue total_costs) ;;
  let o := record_outputs o
    {| m_cables_deployed := cables_deployed; m_customers := customers;
       m_detection_accuracy := detection_accuracy;
       m_detections := detections; m_system_uptime := system_uptime;
       m_regional_datacenters := regional_datacenters;
       m_team_size := team_size; m_team_breakdown := team_breakdown;
       m_revenue := revenue; m_total_costs := total_costs;
       m_costs_breakdown := costs_breakdown; m_cash := cash |} gm in
  let o := check_profitability o month gm revenue total_costs in
  let o := check_series_b o gm revenue cables_deployed in
  (* Check for failure (ran out of cash) *)
  let failed := PrimFloat.ltb cash 0 in
  let o := if failed then mark_failure o month else o in
  ret ({| cash := cash; st_cables_deployed := cables_deployed;
          customers := customers; team_size := team_size;
          st_regional_datacenters := regional_datacenters;
          deployment_queue := queue; outputs := o |}, failed).

(** The month loop from [month], for at most [n] more iterations. *)
Fixpoint month_loop (n : nat) (month : Z) (st : TrialState) : M TrialState :=
  match n with
  | O => ret st
  | S n' =>
      '(st', broke) <- month_body month st ;;
      if broke then ret st' else month_loop n' (month + 1) st'
  end.

(** The state before the first month, initial capex paid. *)
Definition initial_state : M TrialState :=
  let cash := (series_a_funding inputs - cloud_credits_secured inputs)%float in
  '(edge_capex, _) <- get_architecture_costs (architecture_option inputs) 1 ;;
  f_initial_cables <- lift (Py.float_of_int (initial_cables inputs)) ;;
  let initial_capex := (edge_capex * f_initial_cables)%float in
  ret {| cash := (cash - initial_capex)%float;
         st_cables_deployed := initial_cables inputs;
         customers := zero_ledger;
         team_size := initial_team_size inputs;
         st_regional_datacenters := 0;
         deployment_queue := [];
         outputs := empty_outputs |}.

Definition run_single_simulation (seed_arg : option Z) : M SimulationOutputs :=
  _ <- match seed_arg with
       | Some s => seed s
       | None => ret tt
       end ;;
  st <- initial_state ;;
  st' <- month_loop (Z.to_nat (simulation_months inputs)) 0 st ;;
  ret (outputs st').

(** [for i in range(i, i + n)]: the trials of the driver from index [i]. *)
Fixpoint run_trials (n : nat) (i : Z) (results : list SimulationOutputs)
  : M (list SimulationOutputs) :=
  match n with
  | O => ret results
  | S n' =>
      o <- run_single_simulation (Some i) ;;
      run_trials n' (i + 1) (results ++ [o])
  end.

Definition run_monte_carlo (num_simulations : Z) : M (list SimulationOutputs) :=
  run_trials (Z.to_nat num_simulations) 0 [].

End Engine.

(** ** Aggregator: [analyze_results] *)

Record SuccessMetrics : Type := {
  profitability_rate : float;
  series_b_qualified_rate : float;
  failure_rate : float;
  avg_months_to_profitability : option float
}.

(** One entry of ['final_metrics']. *)
Record MetricSummary : Type := {
  mean : float;
  median : float;
  p10 : float;
  p90 : float
}.

Record FinalMetrics : Type := {
  fm_cables_deployed : MetricSummary;
  fm_total_customers : MetricSummary;
  fm_arr : MetricSummary;
  fm_cash_remaining : MetricSummary;
  fm_team_size : MetricSummary
}.

(** The dictionary [analyze_results] returns. *)
Record Analysis : Type := {
  analysis_num_simulations : Z;
  success_metrics : SuccessMetrics;
  final_metrics : FinalMetrics
}.

(** [sum(1 for r in results if flag(r))] *)
Fixpoint count_flag (flag : SimulationOutputs -> bool)
    (results : list SimulationOutputs) : Z :=
  match results with
  | [] => 0
  | r :: rest => (if flag r then 1 else 0) + count_flag flag rest
  end.

(** [sum(r.profitability_month for r in sims)]: adding [None] to the
    running int raises TypeError. *)
Fixpoint sum_profitability_month (sims : list SimulationOutputs) (acc : Z)
  : result Z :=
  match sims with
  | [] => Ok acc
  | r :: rest =>
      match profitability_month r with
      | Some m => sum_profitability_month rest (acc + m)
      | None => Raise TypeError
      end
  end.

Definition avg_months_to_profit (results : list SimulationOutputs)
  : result (option float) :=
  let profitable_sims := filter profitability_achieved results in
  match profitable_sims with
  | [] => Ok None
  | _ :: _ =>
      rbind (sum_profitability_month profitable_sims 0) (fun total =>
      rbind (Py.int_truediv total (Z.of_nat (List.length profitable_sims)))
        (fun avg => Ok (Some avg)))
  end.

(** [[field(r)[-1] for r in results if len(field(r)) > 0]] *)
Definition final_values {A : Type} (field : SimulationOutputs -> list A)
    (results : list SimulationOutputs) : list A :=
  flat_map (fun r => match field r with
                     | [] => []
                     | x :: xs => [last xs x]
                     end) results.

(** The four statistics of one final metric, in the order the dictionary
    literal evaluates them. *)
Definition summarize {NS : NumpyStats} (a : array_like) : result MetricSummary :=
  rbind (np_mean a) (fun mean =>
  rbind (np_median a) (fun median =>
  rbind (np_percentile a 10) (fun p10 =>
  rbind (np_percentile a 90) (fun p90 =>
  Ok {| mean := mean; median := median; p10 := p10; p90 := p90 |})))).

Definition analyze_results {NS : NumpyStats} (results : list SimulationOutputs)
  : result Analysis :=
  let num_sims := Z.of_nat (List.length results) in
  rbind (Py.int_truediv (count_flag profitability_achieved results) num_sims)
    (fun profitability_rate =>
  rbind (Py.int_truediv (count_flag series_b_qualified results) num_sims)
    (fun series_b_qualified_rate =>
  rbind (Py.int_truediv (count_flag ran_out_of_cash results) num_sims)
    (fun failure_rate =>
  rbind (avg_months_to_profit results) (fun avg_months_to_profit =>
  let final_cables := final_values cables_deployed results in
  let final_customers := final_values total_customers results in
  let final_arr := final_values arr results in
  let final_cash := final_values cash_remaining results in
  let final_team := final_values team_size_total results in
  rbind (summarize (int_array final_cables)) (fun cables =>
  rbind (summarize (int_array final_customers)) (fun customers =>
  rbind (summarize (float_array final_arr)) (fun arr =>
  rbind (summarize (float_array final_cash)) (fun cash =>
  rbind (summarize (int_array final_team)) (fun team =>
  Ok {| analysis_num_simulations := num_sims;
        success_metrics :=
          {| profitability_rate := profitability_rate;
             series_b_qualified_rate := series_b_qualified_rate;
             failure_rate := failure_rate;
             avg_months_to_profitability := avg_months_to_profit |};
        final_metrics :=
          {| fm_cables_deployed := cables;
             fm_total_customers := customers;
             fm_arr := arr;
             fm_cash_remaining := cash;
             fm_team_size := team |} |}))))))))).

(** ** A concrete generator and a concrete power

    [Tape.random stream] reads its normal deviates from a tape: seeding
    with [s] installs the tape [stream s], a normal draw consumes one
    standard deviate [z] and returns [loc + scale * z] (an exhausted tape
    yields [z = 0]), and a binomial draw returns the truncated mean count
    [int(n * p)].  Arguments are validated as numpy does: a seed outside
    [0, 2^32), a negative scale, a negative [n] or a [p] outside [0, 1]
    raise ValueError. *)

Module Tape.

Definition next (t : list float) : float * list float :=
  match t with
  | [] => (0%float, [])
  | z :: t' => (z, t')
  end.

Definition seed (stream : Z -> list float) (s : Z) : result (list float) :=
  if (0 <=? s) && (s <? 2 ^ 32) then Ok (stream s) else Raise ValueError.

Definition normal (loc scale : float) (t : list float)
  : result (float * list float) :=
  if PrimFloat.ltb scale 0 then Raise ValueError
  else let '(z, t') := next t in Ok ((loc + scale * z)%float, t').

Definition binomial (n : Z) (p : float) (t : list float)
  : result (Z * list float) :=
  if (n <? 0) || negb (PrimFloat.leb 0 p && PrimFloat.leb p 1)
  then Raise ValueError
  else rbind (Py.int_mul_float n p) (fun x =>
       rbind (Py.int x) (fun k => Ok (Z.max 0 (Z.min n k), t))).

Lemma binomial_range n p t k t' :
  binomial n p t = Ok (k, t') -> 0 <= k <= n.
Proof.
  unfold binomial.
  destruct (n <? 0) eqn:Hn; simpl; [discriminate|].
  destruct (negb _); [discriminate|].
  destruct (Py.int_mul_float n p) as [x|]; simpl; [|discriminate].
  destruct (Py.int x) as [j|]; simpl; [|discriminate].
  intros H; injection H as <- _.
  apply Z.ltb_ge in Hn. lia.
Qed.

#[export] Instance random (stream : Z -> list float) : NumpyRandom := {|
  rng := list float;
  np_random_seed := seed stream;
  np_random_normal := normal;
  np_random_binomial := binomial;
  np_random_binomial_range := binomial_range
|}.

End Tape.

(** Float power restricted to the arguments where its value is 1 on every
    platform: exponent zero, or base one.  Any other argument is refused,
    so a run that succeeds under this instance never used an approximated
    power. *)
Definition unit_pow (x y : float) : result float :=
  if PrimFloat.eqb y 0 then Ok 1%float
  else if PrimFloat.eqb x 1 then Ok 1%float
  else Raise TypeError.

Lemma unit_pow_zero x : unit_pow x 0%float = Ok 1%float.
Proof. reflexivity. Qed.

#[export] Instance unit_float_pow : FloatPow := {|
  py_pow := unit_pow;
  py_pow_zero := unit_pow_zero
|}.

(** ** Concrete statistics on short arrays

    numpy's mean, median and percentile (linear interpolation, as in
    numpy 1.22 and later) on arrays of fewer than eight elements, where
    the sum behind the mean is a plain left-to-right loop, and on ints of
    magnitude at most 2^53, which become float64 without rounding.  Any
    other array is refused with NotImplementedError, so an analysis that
    succeeds under this instance never used a statistic outside of that
    range. *)

Module ShortArrays.

Fixpoint floats_of_ints (values : list Z) : result (list float) :=
  match values with
  | [] => Ok []
  | z :: rest =>
      if Z.abs z <=? 2 ^ 53
      then rbind (Py.float_of_int z) (fun x =>
           rbind (floats_of_ints rest) (fun xs => Ok (x :: xs)))
      else Raise NotImplementedError
  end.

Definition as_float64 (a : array_like) : result (list float) :=
  rbind (match a with
         | int_array values => floats_of_ints values
         | float_array values => Ok values
         end) (fun values =>
  if (List.length values <? 8)%nat then Ok values
  else Raise NotImplementedError).

Definition float_of_count (n : nat) : float :=
  SF2Prim (binary_normalize prec emax (Z.of_nat n) 0 false).

(** The order of [np.sort]: NaN last. *)
Definition sort_le (x y : float) : bool := PrimFloat.is_nan y || PrimFloat.leb x y.

Fixpoint insert (x : float) (sorted : list float) : list float :=
  match sorted with
  | [] => [x]
  | y :: rest => if sort_le x y then x :: sorted else y :: insert x rest
  end.

Definition sort (values : list float) : list float := fold_right insert [] values.

(** [add.reduce] from its identity, then the division by the count. *)
Definition mean (values : list float) : float :=
  (fold_left PrimFloat.add values 0 / float_of_count (List.length values))%float.

(** The mean of the middle element, or of the two middle elements, of
    the sorted array; NaN when the array holds a NaN. *)
Definition median (values : list float) : float :=
  let part := sort values in
  let sz := List.length values in
  let index := (sz / 2)%nat in
  let middle := if Nat.odd sz then firstn 1 (skipn index part)
                else firstn 2 (skipn (index - 1) part) in
  if existsb PrimFloat.is_nan values then PrimFloat.nan else mean middle.

Definition lerp (a b t : float) : float :=
  let diff_b_a := (b - a)%float in
  if PrimFloat.leb 0.5 t then (b - diff_b_a * (1 - t))%float
  else (a + diff_b_a * t)%float.

(** [arr[i]], a negative index counting from the end. *)
Definition item (arr : list float) (i : Z) : float :=
  nth (Z.to_nat (if i <? 0 then Z.of_nat (List.length arr) + i else i)) arr
    PrimFloat.nan.

Definition percentile (values : list float) (q : Z) : result float :=
  rbind (Py.float_of_int q) (fun q =>
  let quantile := (q / 100)%float in
  if negb (PrimFloat.leb 0 quantile && PrimFloat.leb quantile 1)
  then Raise ValueError
  else
    match sort values with
    | [] => Raise IndexError
    | first :: others =>
        let arr := first :: others in
        let values_count := Z.of_nat (List.length arr) in
        rbind (Py.int_mul_float (values_count - 1) quantile)
          (fun virtual_index =>
        rbind (Py.float_of_int (values_count - 1)) (fun top =>
        rbind (Py.int virtual_index) (fun floor =>
        let above_bounds := PrimFloat.leb top virtual_index in
        let previous_index := if above_bounds then -1 else floor in
        let next_index := if above_bounds then -1 else floor + 1 in
        rbind (Py.float_of_int previous_index) (fun previous =>
        let gamma := (virtual_index - previous)%float in
        if PrimFloat.is_nan (item arr (-1)) then Ok PrimFloat.nan
        else Ok (lerp (item arr previous_index) (item arr next_index) gamma)))))
    end).

Definition stats_mean (a : array_like) : result float :=
  rbind (as_float64 a) (fun values => Ok (mean values)).

Definition stats_median (a : array_like) : result float :=
  rbind (as_float64 a) (fun values => Ok (median values)).

Definition stats_percentile (a : array_like) (q : Z) : result float :=
  rbind (as_float64 a) (fun values => percentile values q).

Lemma empty_array a :
  array_size a = 0%nat -> a = int_array [] \/ a = float_array [].
Proof.
  destruct a as [[|z l]|[|x l]]; simpl; try discriminate; auto.
Qed.

Lemma mean_empty a : array_size a = 0%nat -> stats_mean a = Ok PrimFloat.nan.
Proof. intros H. destruct (empty_array a H) as [-> | ->]; reflexivity. Qed.

Lemma median_empty a :
  array_size a = 0%nat -> stats_median a = Ok PrimFloat.nan.
Proof. intros H. destruct (empty_array a H) as [-> | ->]; reflexivity. Qed.

Definition raises_IndexError (r : result float) : bool :=
  match r with
  | Raise IndexError => true
  | _ => false
  end.

Lemma percentile_empty a q :
  0 <= q <= 100 -> array_size a = 0%nat ->
  stats_percentile a q = Raise IndexError.
Proof.
  intros Hq H.
  assert (Hall : forallb (fun k => raises_IndexError (percentile [] (Z.of_nat k)))
                   (seq 0 101) = true) by (vm_compute; reflexivity).
  assert (Hk : raises_IndexError (percentile [] (Z.of_nat (Z.to_nat q))) = true).
  { apply (proj1 (forallb_forall _ _) Hall). apply in_seq. lia. }
  clear Hall. rewrite Z2Nat.id in Hk by lia.
  assert (Hp : percentile [] q = Raise IndexError).
  { unfold raises_IndexError in Hk.
    destruct (percentile [] q) as [x|[]]; try discriminate. reflexivity. }
  destruct (empty_array a H) as [-> | ->]; exact Hp.
Qed.

#[export] Instance stats : NumpyStats := {|
  np_mean := stats_mean;
  np_median := stats_median;
  np_percentile := stats_percentile;
  np_mean_empty := mean_empty;
  np_median_empty := median_empty;
  np_percentile_empty := percentile_empty
|}.

End ShortArrays.

(** * Predicates and statements

    The vocabulary of the properties: what a month leaves in the outputs,
    the invariants of the month loop, and the quantities the
    specification names. *)

Definition in_range (lo hi x : float) : bool :=
  PrimFloat.leb lo x && PrimFloat.leb x hi.

(** What one month leaves in the outputs, given the values it computed:
    the tail of [month_body] from "Record outputs" on. *)
Definition month_outcome
    (month : Z) (o : SimulationOutputs) (mt : MonthMetrics) (gm : float)
  : SimulationOutputs * bool :=
  let o := record_outputs (append_month o month) mt gm in
  let o := check_profitability o month gm (m_revenue mt) (m_total_costs mt) in
  let o := check_series_b o gm (m_revenue mt) (m_cables_deployed mt) in
  let failed := PrimFloat.ltb (m_cash mt) 0 in
  (if failed then mark_failure o month else o, failed).

Definition per_month_lengths (o : SimulationOutputs) : list nat :=
  [List.length (months o); List.length (cables_deployed o);
   List.length (customers_by_segment o); List.length (total_customers o);
   List.length (detection_accuracy o); List.length (detections_per_day o);
   List.length (system_uptime o); List.length (regional_datacenters o);
   List.length (team_size_total o); List.length (team_by_role o);
   List.length (revenue_monthly o); List.length (costs_monthly o);
   List.length (costs_breakdown o); List.length (gross_margin o);
   List.length (cash_remaining o); List.length (arr o)].

(** State of the recording when month [m] is about to start. *)
Definition recorded_upto (m : Z) (st : TrialState) : Prop :=
  exists k : nat,
    m = Z.of_nat k
    /\ ran_out_of_cash (outputs st) = false
    /\ months (outputs st) = map Z.of_nat (seq 0 k)
    /\ Forall (eq k) (per_month_lengths (outputs st)).

Definition stopped_at_failure (o : SimulationOutputs) : Prop :=
  exists k : nat,
    failure_month o = Some (Z.of_nat k)
    /\ months o = map Z.of_nat (seq 0 (S k))
    /\ Forall (eq (S k)) (per_month_lengths o).

Definition metrics_clamped (o : SimulationOutputs) : Prop :=
  Forall (fun a => in_range 0.8 1 a = true) (detection_accuracy o)
  /\ Forall (fun u => in_range 0.9 1 u = true) (system_uptime o).

(** The margin the code records for a month's revenue and cost. *)
Definition margin_formula (revenue total_costs : float) : float :=
  if PrimFloat.ltb 0 revenue
  then ((revenue - total_costs) / revenue)%float
  else (-1)%float.

(** Revenue, cost and margin of the recorded months, row by row. *)
Definition margin_rows (o : SimulationOutputs)
    (rows : list (float * float)) : Prop :=
  revenue_monthly o = map fst rows
  /\ costs_monthly o = map snd rows
  /\ gross_margin o = map (fun rc => margin_formula (fst rc) (snd rc)) rows.

(** State when month [m] is about to start, under flat targets; the
    team part holds when the growth multiplier is zero. *)
Definition flat_upto (inputs : SimulationInputs) (m : Z) (st : TrialState)
  : Prop :=
  0 <= m
  /\ st_cables_deployed st = initial_cables inputs
  /\ deployment_queue st = []
  /\ cables_deployed (outputs st)
     = map (fun _ => initial_cables inputs) (months (outputs st))
  /\ (team_growth_rate inputs = 0%float ->
      team_size st = (if m <=? 6 then initial_team_size inputs else 0)
      /\ team_size_total (outputs st)
         = map (fun k => if k <? 6 then initial_team_size inputs else 0)
             (months (outputs st))).

Definition finite_pricing (inputs : SimulationInputs) : Prop :=
  Py.isfinite (pricing_port inputs) = true
  /\ Py.isfinite (pricing_naval inputs) = true
  /\ Py.isfinite (pricing_environmental inputs) = true
  /\ Py.isfinite (pricing_shipping inputs) = true
  /\ Py.isfinite (pricing_insurance inputs) = true.

(** What month 0 left at the head of the recorded sequences: no
    customer, the margin sentinel, and a revenue that is 0, or NaN when a
    price is not finite. *)
Definition first_month_empty (inputs : SimulationInputs)
    (o : SimulationOutputs) : Prop :=
  nth_error (total_customers o) 0 = Some 0
  /\ nth_error (gross_margin o) 0 = Some (-1)%float
  /\ exists revenue,
       nth_error (revenue_monthly o) 0 = Some revenue
       /\ (revenue = 0%float \/ revenue = nan)
       /\ (finite_pricing inputs -> revenue = 0%float).

(** What a caller observes of a computation: its value or its
    exception, not the generator state it leaves behind. *)
Definition outcome {NR : NumpyRandom} {A : Type} (r : result (A * rng))
  : result A :=
  match r with
  | Ok (a, _) => Ok a
  | Raise e => Raise e
  end.

Definition profitability_recorded (o : SimulationOutputs) : Prop :=
  profitability_achieved o = true -> profitability_month o <> None.

(** The mean the specification speaks of: the months of the trials whose
    profitability flag is set, added up, over the number of such trials. *)
Definition profitable_months_total (results : list SimulationOutputs) : Z :=
  fold_right
    (fun r acc =>
       if profitability_achieved r
       then match profitability_month r with Some m => m | None => 0 end + acc
       else acc)
    0 results.

Definition profitable_count (results : list SimulationOutputs) : Z :=
  count_flag profitability_achieved results.

(** * Concrete runs *)

(** The defaults of [SimulationInputs] and [StochasticParameters]. *)
Definition default_inputs : SimulationInputs := {|
  architecture_option := OPTION_C_CLOUD_ONLY;
  series_a_funding := 10000000;
  compression_error_threshold := 0.1;
  initial_cables := 3;
  target_cables_month_6 := 5;
  target_cables_month_12 := 15;
  target_cables_month_18 := 30;
  pricing_port := 35000;
  pricing_naval := 500000;
  pricing_environmental := 10000;
  pricing_shipping := 10000;
  pricing_insurance := 25000;
  initial_team_size := 5;
  team_growth_rate := 1.5;
  cloud_provider := "GCP";
  cloud_credits_secured := 250000;
  simulation_months := 24
|}.

Definition default_params : StochasticParameters := {|
  detection_accuracy_mean := 0.97;
  detection_accuracy_std := 0.02;
  cac_port_mean := 50000;
  cac_port_std := 15000;
  cac_naval_mean := 200000;
  cac_naval_std := 50000;
  conversion_rate_port_mean := 0.25;
  conversion_rate_port_std := 0.10;
  conversion_rate_naval_mean := 0.15;
  conversion_rate_naval_std := 0.05;
  churn_rate_monthly_mean := 0.02;
  churn_rate_monthly_std := 0.01;
  cloud_cost_per_tb_mean := 50;
  cloud_cost_per_tb_std := 10;
  edge_capex_variation := 0.15;
  salary_variation := 0.20;
  cable_deployment_time_months_mean := 2.0;
  cable_deployment_time_months_std := 0.5;
  system_uptime_mean := 0.995;
  system_uptime_std := 0.005;
  competitive_pressure_annual := 0.10
|}.

(** The default parameters with the lead-time distribution and the
    competitive pressure replaced.  The runs below use a pressure of zero,
    for which the price erosion is [1.0 ** (month / 12) = 1.0]. *)
Definition params_with (lead_mean lead_std pressure : float)
  : StochasticParameters := {|
  detection_accuracy_mean := detection_accuracy_mean default_params;
  detection_accuracy_std := detection_accuracy_std default_params;
  cac_port_mean := cac_port_mean default_params;
  cac_port_std := cac_port_std default_params;
  cac_naval_mean := cac_naval_mean default_params;
  cac_naval_std := cac_naval_std default_params;
  conversion_rate_port_mean := conversion_rate_port_mean default_params;
  conversion_rate_port_std := conversion_rate_port_std default_params;
  conversion_rate_naval_mean := conversion_rate_naval_mean default_params;
  conversion_rate_naval_std := conversion_rate_naval_std default_params;
  churn_rate_monthly_mean := churn_rate_monthly_mean default_params;
  churn_rate_monthly_std := churn_rate_monthly_std default_params;
  cloud_cost_per_tb_mean := cloud_cost_per_tb_mean default_params;
  cloud_cost_per_tb_std := cloud_cost_per_tb_std default_params;
  edge_capex_variation := edge_capex_variation default_params;
  salary_variation := salary_variation default_params;
  cable_deployment_time_months_mean := lead_mean;
  cable_deployment_time_months_std := lead_std;
  system_uptime_mean := system_uptime_mean default_params;
  system_uptime_std := system_uptime_std default_params;
  competitive_pressure_annual := pressure
|}.

Definition steady_price_params : StochasticParameters := params_with 2.0 0.5 0.

(** The default inputs with funding, port price, the three targets, the
    team growth multiplier and the horizon replaced. *)
Definition inputs_with (funding price_port : float) (t6 t12 t18 : Z)
    (growth : float) (horizon : Z) : SimulationInputs := {|
  architecture_option := architecture_option default_inputs;
  series_a_funding := funding;
  compression_error_threshold := compression_error_threshold default_inputs;
  initial_cables := initial_cables default_inputs;
  target_cables_month_6 := t6;
  target_cables_month_12 := t12;
  target_cables_month_18 := t18;
  pricing_port := price_port;
  pricing_naval := pricing_naval default_inputs;
  pricing_environmental := pricing_environmental default_inputs;
  pricing_shipping := pricing_shipping default_inputs;
  pricing_insurance := pricing_insurance default_inputs;
  initial_team_size := initial_team_size default_inputs;
  team_growth_rate := growth;
  cloud_provider := cloud_provider default_inputs;
  cloud_credits_secured := cloud_credits_secured default_inputs;
  simulation_months := horizon
|}.

(** The standard deviates every seed installs: the initial capex draw,
    then month 0 (five conversion rates, churn, capex, five salaries,
    accuracy, uptime, detections); later draws are at the mean.  The
    accuracy deviate is far above and the uptime deviate far below. *)
Definition sample_stream (s : Z) : list float :=
  [0.5; 1; -1; 0.5; -0.5; 2; 300; -1; 0.25; -0.25; 1; -1; 0.5; 300; -40; 1]%float.

Definition sample_random : NumpyRandom := Tape.random sample_stream.

Definition run_sample (inputs : SimulationInputs) (params : StochasticParameters)
  : result (SimulationOutputs * list float) :=
  run_single_simulation (NR := sample_random) inputs params (Some 0) [].

Definition outputs_of (r : result (SimulationOutputs * list float))
  : SimulationOutputs :=
  match r with
  | Ok (o, _) => o
  | Raise _ => empty_outputs
  end.

Definition tape_of (r : result (SimulationOutputs * list float)) : list float :=
  match r with
  | Ok (_, t) => t
  | Raise _ => []
  end.

(** Eight months of the default business. *)
Definition eight_months : SimulationInputs :=
  inputs_with 10000000 35000 5 15 30 1.5 8.
Definition eight_months_outputs : SimulationOutputs :=
  Eval vm_compute in outputs_of (run_sample eight_months steady_price_params).
Definition eight_months_tape : list float :=
  Eval vm_compute in tape_of (run_sample eight_months steady_price_params).

(** Funding that lasts into the third month only. *)
Definition tight_funding : SimulationInputs :=
  inputs_with 1500000 35000 5 15 30 1.5 24.
Definition tight_funding_outputs : SimulationOutputs :=
  Eval vm_compute in outputs_of (run_sample tight_funding steady_price_params).
Definition tight_funding_tape : list float :=
  Eval vm_compute in tape_of (run_sample tight_funding steady_price_params).

(** Flat targets and a zero growth multiplier, over eight months. *)
Definition zero_growth : SimulationInputs :=
  inputs_with 10000000 35000 3 3 3 0 8.
Definition zero_growth_outputs : SimulationOutputs :=
  Eval vm_compute in outputs_of (run_sample zero_growth steady_price_params).
Definition zero_growth_tape : list float :=
  Eval vm_compute in tape_of (run_sample zero_growth steady_price_params).

(** An infinite port price. *)
Definition infinite_price : SimulationInputs :=
  inputs_with 10000000 infinity 5 15 30 1.5 8.
Definition infinite_price_outputs : SimulationOutputs :=
  Eval vm_compute in outputs_of (run_sample infinite_price steady_price_params).
Definition infinite_price_tape : list float :=
  Eval vm_compute in tape_of (run_sample infinite_price steady_price_params).

(** A negative port price, and a negative horizon. *)
Definition negative_price : SimulationInputs :=
  inputs_with 10000000 (-35000) 5 15 30 1.5 6.
Definition negative_horizon : SimulationInputs :=
  inputs_with 10000000 35000 5 15 30 1.5 (-5).

(** A state that qualified for Series B earlier and has since regressed
    to three cables and no customer. *)
Definition qualified_state : TrialState := {|
  cash := 5000000;
  st_cables_deployed := 3;
  customers := [("port"%string, 0); ("naval"%string, 0);
                ("environmental"%string, 0); ("shipping"%string, 0);
                ("insurance"%string, 0)];
  team_size := 5;
  st_regional_datacenters := 0;
  deployment_queue := [];
  outputs := with_flags empty_outputs false None true false None
|}.

Definition two_more_months : result (TrialState * list float) :=
  month_loop (NR := sample_random) zero_growth steady_price_params
    2 1 qualified_state [].

Definition two_more_months_state : TrialState :=
  Eval vm_compute in
    match two_more_months with
    | Ok (st, _) => st
    | Raise _ => qualified_state
    end.

Definition planned_twice
  : result (list (Z * float) * float * list float) :=
  plan_deployments (NR := sample_random) eight_months steady_price_params
    2 6 [] 8000000 [0.5; -1; 1; 2]%float.

(** A lead-time distribution with mean 2 and standard deviation 1.5, and
    a draw 2.5 standard deviations below the mean. *)
Definition wide_lead_time_params : StochasticParameters := params_with 2.0 1.5 0.

(** The trial seeded with 0 under the sample generator, written out so
    that it is the very term the properties speak of. *)
Abbreviation trial_of inputs :=
  (run_single_simulation (NR := sample_random) inputs steady_price_params
     (Some 0) []).

(** Two years of the default business, and of the same business under
    the regional-datacenter option with five initial cables. *)
Definition two_years : SimulationInputs :=
  inputs_with 10000000 35000 5 15 30 1.5 24.
Definition two_years_outputs : SimulationOutputs :=
  Eval vm_compute in outputs_of (run_sample two_years steady_price_params).
Definition two_years_tape : list float :=
  Eval vm_compute in tape_of (run_sample two_years steady_price_params).

Definition regional_two_years : SimulationInputs := {|
  architecture_option := OPTION_B_REGIONAL_DC;
  series_a_funding := 15000000;
  compression_error_threshold := compression_error_threshold default_inputs;
  initial_cables := 5;
  target_cables_month_6 := 5;
  target_cables_month_12 := 15;
  target_cables_month_18 := 30;
  pricing_port := pricing_port default_inputs;
  pricing_naval := pricing_naval default_inputs;
  pricing_environmental := pricing_environmental default_inputs;
  pricing_shipping := pricing_shipping default_inputs;
  pricing_insurance := pricing_insurance default_inputs;
  initial_team_size := initial_team_size default_inputs;
  team_growth_rate := team_growth_rate default_inputs;
  cloud_provider := cloud_provider default_inputs;
  cloud_credits_secured := cloud_credits_secured default_inputs;
  simulation_months := 24
|}.
Definition regional_two_years_outputs : SimulationOutputs :=
  Eval vm_compute in
    outputs_of (run_sample regional_two_years steady_price_params).
Definition regional_two_years_tape : list float :=
  Eval vm_compute in
    tape_of (run_sample regional_two_years steady_price_params).

(** Month 6 of the default business from [qualified_state]: three cables
    deployed, none queued, a target of five. *)
Abbreviation month_six :=
  (month_body (NR := sample_random) eight_months steady_price_params 6
     qualified_state [0.5; -1; 1; 2]%float).
Definition month_six_state : TrialState :=
  Eval vm_compute in
    match month_six with
    | Ok (st, _, _) => st
    | Raise _ => qualified_state
    end.

(** A ledger, and the churn of a month whose draw is far above the
    mean, so that the rate is the cap 0.1. *)
Definition sample_ledger : dict Z :=
  [("port"%string, 40); ("naval"%string, 3); ("environmental"%string, 25);
   ("shipping"%string, 0); ("insurance"%string, 10)].
Abbreviation sample_churn :=
  (apply_churn (NR := sample_random) steady_price_params sample_ledger
     [300]%float).

(** A batch of two trials on the tight funding. *)
Abbreviation tight_batch :=
  (run_monte_carlo (NR := sample_random) tight_funding steady_price_params
     2 []).

(** A generator whose deviates depend on the seed: every deviate of
    trial 0 is half a standard deviation low, of trial 1 at the mean, of
    any later trial half a standard deviation high.  The batch of three
    two-year trials the driver returns under it, and its analysis. *)
Definition varied_stream (s : Z) : list float :=
  repeat (match s with 0 => -0.5 | 1 => 0 | _ => 0.5 end)%float 1000.

Definition varied_random : NumpyRandom := Tape.random varied_stream.

Abbreviation varied_run :=
  (run_monte_carlo (NR := varied_random) two_years steady_price_params 3 []).

Definition varied_batch : list SimulationOutputs :=
  Eval vm_compute in
    match varied_run with
    | Ok (results, _) => results
    | Raise _ => []
    end.

Definition varied_analysis : result Analysis :=
  Eval vm_compute in analyze_results (NS := ShortArrays.stats) varied_batch.

(** A batch with an output flagged profitable that carries no month. *)
Definition inconsistent_batch : list SimulationOutputs :=
  [with_flags empty_outputs true (Some 4) false false None;
   with_flags empty_outputs true None false false None].

(** * Four statements of the specification the code does not satisfy *)

(** "Invalid configurations fail fast": a configuration with a negative
    horizon or a negative price makes the driver raise instead of
    returning outputs. *)
Definition invalid_configuration (inputs : SimulationInputs) : Prop :=
  simulation_months inputs < 0
  \/ PrimFloat.ltb (pricing_port inputs) 0 = true
  \/ PrimFloat.ltb (pricing_naval inputs) 0 = true
  \/ PrimFloat.ltb (pricing_environmental inputs) 0 = true
  \/ PrimFloat.ltb (pricing_shipping inputs) 0 = true
  \/ PrimFloat.ltb (pricing_insurance inputs) 0 = true.

Definition fails_fast {NR : NumpyRandom} {FP : FloatPow}
    (inputs : SimulationInputs) (params : StochasticParameters) : Prop :=
  invalid_configuration inputs ->
  forall num_simulations g,
    exists e, run_monte_carlo inputs params num_simulations g = Raise e.

(** "Monotonic lead time": every entry the planning loop of a month
    appends is scheduled at that month or later. *)
Definition lead_time_monotonic {NR : NumpyRandom} {FP : FloatPow}
    (inputs : SimulationInputs) (params : StochasticParameters) : Prop :=
  forall n month queue cash g q' cash' g',
    plan_deployments inputs params n month queue cash g = Ok ((q', cash'), g') ->
    Forall (fun e => month <= fst e) (skipn (List.length queue) q').

(** "Zero growth": flat targets and a zero team growth rate keep the
    recorded cable count and team size at their initial values. *)
Definition zero_growth_constant {NR : NumpyRandom} {FP : FloatPow}
    (inputs : SimulationInputs) (params : StochasticParameters)
    (seed_arg : option Z) (g : rng) : Prop :=
  target_cables_month_6 inputs = initial_cables inputs ->
  target_cables_month_12 inputs = initial_cables inputs ->
  target_cables_month_18 inputs = initial_cables inputs ->
  team_growth_rate inputs = 0%float ->
  forall o g',
    run_single_simulation inputs params seed_arg g = Ok (o, g') ->
    Forall (eq (initial_cables inputs)) (cables_deployed o)
    /\ Forall (eq (initial_team_size inputs)) (team_size_total o).

(** "Month 0 earns nothing": a trial of at least one month records a
    revenue of exactly 0 and the margin sentinel at month 0. *)
Definition month_0_revenue_zero {NR : NumpyRandom} {FP : FloatPow}
    (inputs : SimulationInputs) (params : StochasticParameters)
    (seed_arg : option Z) (g : rng) : Prop :=
  1 <= simulation_months inputs ->
  forall o g',
    run_single_simulation inputs params seed_arg g = Ok (o, g') ->
    nth_error (revenue_monthly o) 0 = Some 0%float
    /\ nth_error (gross_margin o) 0 = Some (-1)%float.

(** * The API layer: [api_service.py]

    The two pieces of [run_simulation] that are plain computation: the
    decoding of the requested architecture and the choice of the sample
    trajectories.  The sort by final ARR between them is not modelled. *)

(** [ArchitectureOption.value] *)
Definition architecture_value (a : ArchitectureOption) : string :=
  match a with
  | OPTION_A_GPU_EDGE => "A"
  | OPTION_B_REGIONAL_DC => "B"
  | OPTION_C_CLOUD_ONLY => "C"
  end.

(** [arch_map.get(s, ArchitectureOption.OPTION_C_CLOUD_ONLY)] *)
Definition arch_map_get (s : string) : ArchitectureOption :=
  match
    dict_get [("A"%string, OPTION_A_GPU_EDGE); ("B"%string, OPTION_B_REGIONAL_DC);
              ("C"%string, OPTION_C_CLOUD_ONLY)] s
  with
  | Some a => a
  | None => OPTION_C_CLOUD_ONLY
  end.

(** [sample_indices] for a batch of [n] results: [int(n * 0.1)],
    [int(n * 0.5)] and [int(n * 0.9)]. *)
Definition sample_indices (n : Z) : result (list Z) :=
  rbind (rbind (Py.int_mul_float n 0.1) Py.int) (fun p10 =>
  rbind (rbind (Py.int_mul_float n 0.5) Py.int) (fun median =>
  rbind (rbind (Py.int_mul_float n 0.9) Py.int) (fun p90 =>
  Ok [p10; median; p90]))).

(** The positions the loop [for idx in sample_indices] keeps: those with
    [idx < len(sorted_results)]. *)
Definition sample_positions (n : Z) : result (list Z) :=
  rbind (sample_indices n) (fun idxs =>
  Ok (filter (fun idx => idx <? n) idxs)).

(** * Further vocabulary *)

(** The keys of a customer ledger and of a role breakdown, in order. *)
Definition segment_keys : list string := map segment_value all_segments.

Definition role_keys : list string :=
  ["signal_processing_ml"; "data_engineering"; "cloud_devops";
   "edge_hardware"; "product_engineering"]%string.

(** A ledger over exactly the five segments with no negative count. *)
Definition ledger_ok (l : dict Z) : Prop :=
  map fst l = segment_keys /\ Forall (fun c => 0 <= c) (map snd l).

(** Position of the first element that satisfies [p]. *)
Fixpoint first_index {A : Type} (p : A -> bool) (l : list A) : option nat :=
  match l with
  | [] => None
  | a :: l' => if p a then Some 0%nat else option_map S (first_index p l')
  end.

(** The condition of "Check for profitability" on a month's
    (revenue, cost, margin). *)
Definition profitable_row (row : float * float * float) : bool :=
  let '(revenue, total_costs, gm) := row in
  PrimFloat.ltb 0.7 gm && PrimFloat.ltb total_costs revenue.

(** The condition of "Check for Series B qualification" on a month's
    (ARR, margin, cables). *)
Definition series_b_row (row : float * float * Z) : bool :=
  let '(arr_value, gm, cables) := row in
  PrimFloat.ltb 30000000 arr_value && PrimFloat.ltb 0.6 gm && (cables >=? 15).

(** The recorded months as rows. *)
Definition profit_rows (o : SimulationOutputs) : list (float * float * float) :=
  combine (combine (revenue_monthly o) (costs_monthly o)) (gross_margin o).

Definition series_b_rows (o : SimulationOutputs) : list (float * float * Z) :=
  combine (combine (arr o) (gross_margin o)) (cables_deployed o).

(** The sum the breakdown of a month's costs stands for. *)
Definition breakdown_total (b : dict float) : option float :=
  match b with
  | [(_, infrastructure); (_, personnel); (_, sales_marketing); (_, support)] =>
      Some (infrastructure + personnel + sales_marketing + support)%float
  | _ => None
  end.

(** Sorted in the wide sense: an earlier element is at most a later one. *)
Definition nondecreasing (l : list Z) : Prop :=
  forall i j a b,
    (i <= j)%nat -> nth_error l i = Some a -> nth_error l j = Some b -> a <= b.

(** ** Invariants of the further properties *)

(** The datacenter decision of a month. *)
Definition datacenters_after (inputs : SimulationInputs)
    (cables_deployed regional_datacenters : Z) : Z :=
  match architecture_option inputs with
  | OPTION_B_REGIONAL_DC =>
      if (cables_deployed >=? 8) && (regional_datacenters =? 0)
      then 1 else regional_datacenters
  | _ => regional_datacenters
  end.

(** The largest cable count the checkpoint schedule ever asks for. *)
Definition max_target (inputs : SimulationInputs) : Z :=
  Z.max (Z.max (initial_cables inputs) (target_cables_month_6 inputs))
        (Z.max (target_cables_month_12 inputs) (target_cables_month_18 inputs)).

(** Cable counts when a month is about to start. *)
Definition cables_upto (inputs : SimulationInputs) (st : TrialState) : Prop :=
  initial_cables inputs <= st_cables_deployed st
  /\ st_cables_deployed st + Z.of_nat (List.length (deployment_queue st))
     <= max_target inputs
  /\ nondecreasing (cables_deployed (outputs st))
  /\ Forall (fun c => initial_cables inputs <= c <= st_cables_deployed st)
       (cables_deployed (outputs st)).

(** Ledgers when a month is about to start. *)
Definition ledgers_upto (st : TrialState) : Prop :=
  ledger_ok (customers st)
  /\ Forall ledger_ok (customers_by_segment (outputs st))
  /\ total_customers (outputs st)
     = map (fun l => sum_Z (dict_values l)) (customers_by_segment (outputs st)).

(** The datacenter count that goes with a deployed-cable count. *)
Definition datacenters_for (inputs : SimulationInputs) (cables : Z) : Z :=
  match architecture_option inputs with
  | OPTION_B_REGIONAL_DC => if cables >=? 8 then 1 else 0
  | _ => 0
  end.

Definition datacenters_upto (inputs : SimulationInputs) (st : TrialState)
  : Prop :=
  (st_regional_datacenters st = 0
   \/ (st_regional_datacenters st = 1
       /\ datacenters_for inputs (st_cables_deployed st) = 1))
  /\ regional_datacenters (outputs st)
     = map (datacenters_for inputs) (cables_deployed (outputs st)).

(** Series-B flag and rows when a month is about to start. *)
Definition series_b_upto (st : TrialState) : Prop :=
  exists rows : list (float * float * Z),
    arr (outputs st) = map (fun r => fst (fst r)) rows
    /\ gross_margin (outputs st) = map (fun r => snd (fst r)) rows
    /\ cables_deployed (outputs st) = map snd rows
    /\ series_b_qualified (outputs st) = existsb series_b_row rows.

(** Profitability flag, month and rows when month [m] is about to start. *)
Definition profitability_upto (m : Z) (st : TrialState) : Prop :=
  exists rows : list (float * float * float),
    revenue_monthly (outputs st) = map (fun r => fst (fst r)) rows
    /\ costs_monthly (outputs st) = map (fun r => snd (fst r)) rows
    /\ gross_margin (outputs st) = map snd rows
    /\ m = Z.of_nat (List.length rows)
    /\ profitability_achieved (outputs st) = existsb profitable_row rows
    /\ profitability_month (outputs st)
       = option_map Z.of_nat (first_index profitable_row rows).

Definition solvent_upto (st : TrialState) : Prop :=
  ran_out_of_cash (outputs st) = false
  /\ Forall (fun c => PrimFloat.ltb c 0 = false) (cash_remaining (outputs st)).

Definition cash_history_ok (o : SimulationOutputs) : Prop :=
  (cash_remaining o = [] -> ran_out_of_cash o = false)
  /\ forall earlier last_cash,
       cash_remaining o = earlier ++ [last_cash] ->
       ran_out_of_cash o = PrimFloat.ltb last_cash 0
       /\ Forall (fun c => PrimFloat.ltb c 0 = false) earlier.

Definition derived_upto (o : SimulationOutputs) : Prop :=
  arr o = map (fun revenue => (revenue * 12)%float) (revenue_monthly o)
  /\ map breakdown_total (costs_breakdown o) = map Some (costs_monthly o)
  /\ Forall (fun b => map fst b = role_keys) (team_by_role o).

(** Each recorded team size is [grow_team] at its month of the size of
    the month before, starting from [prev] at month [month]. *)
Fixpoint team_chain (inputs : SimulationInputs) (month prev : Z)
    (sizes : list Z) : Prop :=
  match sizes with
  | [] => True
  | size :: rest =>
      grow_team inputs month prev = Ok size /\ team_chain inputs (month + 1) size rest
  end.

Definition team_upto (inputs : SimulationInputs) (m : Z) (st : TrialState)
  : Prop :=
  m = Z.of_nat (List.length (team_size_total (outputs st)))
  /\ team_size st
     = last (team_size_total (outputs st)) (initial_team_size inputs)
  /\ team_chain inputs 0 (initial_team_size inputs) (team_size_total (outputs st)).

(** What [team_roles] is checked for, one team size at a time. *)
Definition headcount_ok (team_size : Z) : bool :=
  match team_roles team_size role_fractions with
  | Ok roles =>
      let headcount := sum_Z (map snd roles) in
      forallb (fun c => 0 <=? c) (map snd roles)
      && (team_size - 4 <=? headcount) && (headcount <=? team_size)
  | Raise _ => false
  end.

(** What the sales ramp is checked for, one month at a time. *)
Definition ramp_ok (month : Z) : bool :=
  match sales_effectiveness month, sales_effectiveness (month + 1) with
  | Ok r, Ok r' =>
      if month <? 12
      then PrimFloat.ltb r r' && PrimFloat.ltb r 1
      else PrimFloat.eqb r 1 && PrimFloat.eqb r' 1
  | _, _ => false
  end.

(** What the sample positions are checked for, one batch size at a time. *)
Definition samples_ok (n : Z) : bool :=
  match sample_positions (n + 1) with
  | Ok [p10; median; p90] =>
      (0 <=? p10) && (p10 <=? median) && (median <=? p90) && (p90 <? n + 1)
  | _ => false
  end.

(** * Properties *)

(** ** Facts about binary64 comparisons and zero *)

Lemma ltb_leb (x y : float) :
  PrimFloat.ltb x y = true -> PrimFloat.leb x y = true.
Proof.
  rewrite ltb_spec, leb_spec. unfold SFltb, SFleb.
  destruct (SFcompare (Prim2SF x) (Prim2SF y)) as [[ | | ]|]; congruence.
Qed.

Lemma SFcompare_zero_lt (f : spec_float) :
  SFcompare (S754_zero false) f = Some Lt -> SFcompare f (S754_zero false) = Some Gt.
Proof.
  destruct f as [s|s| |s m e]; simpl; try discriminate.
  - destruct s; [discriminate | reflexivity].
  - destruct s; [discriminate | reflexivity].
Qed.

Lemma pos_not_zero (x : float) :
  PrimFloat.ltb 0 x = true -> PrimFloat.eqb x 0 = false.
Proof.
  rewrite ltb_spec, eqb_spec. unfold SFltb, SFeqb.
  change (Prim2SF 0) with (S754_zero false).
  destruct (SFcompare (S754_zero false) (Prim2SF x)) as [[ | | ]|] eqn:E;
    try discriminate.
  intros _. now rewrite (SFcompare_zero_lt _ E).
Qed.

(** The clamp [max(lo, min(hi, x))] lands in [[lo, hi]] for every float
    [x], NaN included, as soon as the bounds are ordered numbers. *)
Lemma clamp_in_range (lo hi x : float) :
  PrimFloat.leb lo hi = true ->
  PrimFloat.leb lo lo = true ->
  PrimFloat.leb hi hi = true ->
  in_range lo hi (Py.max lo (Py.min hi x)) = true.
Proof.
  intros Hlh Hl Hh. unfold in_range, Py.max, Py.min.
  destruct (PrimFloat.ltb x hi) eqn:Exh.
  - destruct (PrimFloat.ltb lo x) eqn:Elx.
    + now rewrite (ltb_leb _ _ Elx), (ltb_leb _ _ Exh).
    + now rewrite Hl, Hlh.
  - destruct (PrimFloat.ltb lo hi) eqn:Elh.
    + now rewrite Hlh, Hh.
    + now rewrite Hl, Hlh.
Qed.

Lemma float_of_SF (x : float) (f : spec_float) :
  Prim2SF x = f -> x = SF2Prim f.
Proof. intros <-. symmetry. apply SF2Prim_Prim2SF. Qed.

(** A finite float times zero is a zero. *)
Lemma finite_mul_zero (x : float) :
  Py.isfinite x = true -> (x * 0 = 0 \/ x * 0 = -0)%float.
Proof.
  unfold Py.isfinite. intros Hx.
  assert (H : exists s, Prim2SF (x * 0) = S754_zero s).
  { rewrite mul_spec. change (Prim2SF 0) with (S754_zero false).
    destruct (Prim2SF x) as [s|s| |s m e]; try discriminate; simpl; eauto. }
  destruct H as [s H]. apply float_of_SF in H. rewrite H.
  destruct s; [right | left]; reflexivity.
Qed.

Lemma float_of_int_finite (z : Z) (f : float) :
  Py.float_of_int z = Ok f -> Py.isfinite f = true.
Proof.
  unfold Py.float_of_int.
  destruct (Py.isfinite (SF2Prim _)) eqn:E; [|discriminate].
  intros H; injection H as <-. exact E.
Qed.

(** [int(z * 0.0)] is 0 whenever it is defined. *)
Lemma int_mul_zero (z : Z) (x : float) (n : Z) :
  Py.int_mul_float z 0 = Ok x -> Py.int x = Ok n -> n = 0.
Proof.
  unfold Py.int_mul_float.
  destruct (Py.float_of_int z) as [f|] eqn:E; simpl; [|discriminate].
  intros H; injection H as <-.
  destruct (finite_mul_zero f (float_of_int_finite _ _ E)) as [-> | ->];
    vm_compute; congruence.
Qed.

(** Any float times zero is a zero or a NaN. *)
Lemma mul_zero_cases (x : float) :
  (x * 0 = 0 \/ x * 0 = -0 \/ x * 0 = nan)%float.
Proof.
  assert (H : (exists s, Prim2SF (x * 0) = S754_zero s)
              \/ Prim2SF (x * 0) = S754_nan).
  { rewrite mul_spec. change (Prim2SF 0) with (S754_zero false).
    destruct (Prim2SF x) as [s|s| |s m e]; simpl; eauto. }
  destruct H as [[s H] | H]; apply float_of_SF in H; rewrite H.
  - destruct s; [right; left | left]; reflexivity.
  - right; right; reflexivity.
Qed.

(** A zero count leaves a revenue sum that is 0 or NaN as such, the
    erosion factor being one. *)
Lemma zero_revenue_term_cases (acc price : float) :
  acc = 0%float \/ acc = nan ->
  (acc + price * 0 * 1 = 0)%float \/ (acc + price * 0 * 1)%float = nan.
Proof.
  intros [-> | ->];
    destruct (mul_zero_cases price) as [-> | [-> | ->]];
    vm_compute; auto.
Qed.

(** A zero count contributes nothing to the revenue sum when the price is
    finite and the erosion factor is one. *)
Lemma zero_revenue_term (price : float) :
  Py.isfinite price = true -> (0 + price * 0 * 1 = 0)%float.
Proof.
  intros Hp. destruct (finite_mul_zero price Hp) as [-> | ->]; reflexivity.
Qed.

(** ** Inversion of successful computations *)

Section EngineFacts.

Context {NR : NumpyRandom} {FP : FloatPow}.

Lemma bind_ok {A B : Type} (c : M A) (k : A -> M B) g r :
  bind c k g = Ok r -> exists a g1, c g = Ok (a, g1) /\ k a g1 = Ok r.
Proof.
  unfold bind. destruct (c g) as [[a g1]|e]; [eauto | discriminate].
Qed.

Lemma lift_ok {A : Type} (r : result A) g a g' :
  lift r g = Ok (a, g') -> r = Ok a /\ g' = g.
Proof.
  unfold lift. destruct r; [|discriminate].
  intros H; injection H as -> ->. auto.
Qed.

Lemma ret_ok {A : Type} (a b : A) g g' :
  ret a g = Ok (b, g') -> b = a /\ g' = g.
Proof. unfold ret. intros H; injection H as -> ->. auto. Qed.

Lemma rbind_ok {A B : Type} (r : result A) (k : A -> result B) b :
  rbind r k = Ok b -> exists a, r = Ok a /\ k a = Ok b.
Proof. destruct r; simpl; [eauto | discriminate]. Qed.

Variable inputs : SimulationInputs.
Variable params : StochasticParameters.

Lemma month_body_inv month st g st' broke g' :
  month_body inputs params month st g = Ok ((st', broke), g') ->
  exists mt gm,
    (outputs st', broke) = month_outcome month (outputs st) mt gm
    /\ gross_margin_of (m_revenue mt) (m_total_costs mt) = Ok gm
    /\ (exists x, m_detection_accuracy mt = clamp_metric 0.8 x)
    /\ (exists y, m_system_uptime mt = clamp_metric 0.9 y)
    /\ st_cables_deployed st' = m_cables_deployed mt
    /\ team_size st' = m_team_size mt
    /\ customers st' = m_customers mt
    /\ grow_team inputs month (team_size st) = Ok (m_team_size mt)
    /\ (let s := settle_deployments month (st_cables_deployed st)
                   (deployment_queue st) in
        m_cables_deployed mt = fst s
        /\ exists cash1 ga gb,
             plan_deployments inputs params
               (Z.to_nat (target_cables inputs month - fst s
                          - Z.of_nat (List.length (snd s))))
               month (snd s) (cash st) ga
             = Ok ((deployment_queue st', cash1), gb))
    /\ (exists newc ga gb gc gd,
          get_customer_acquisition params month (m_cables_deployed mt)
            (customers st) ga = Ok (newc, gb)
          /\ apply_churn params (add_customers (customers st) newc) gc
             = Ok (m_customers mt, gd))
    /\ calculate_revenue inputs params (m_customers mt) month
       = Ok (m_revenue mt).
Proof.
  unfold month_body.
  destruct (settle_deployments month (st_cables_deployed st)
              (deployment_queue st)) as [cd q0] eqn:Hsettle.
  intros H.
  apply bind_ok in H as ([q1 cash1] & g1 & Hplan & H).
  match type of H with
  | context [match architecture_option inputs with _ => _ end] =>
      destruct (match architecture_option inputs with
                | OPTION_B_REGIONAL_DC =>
                    if (cd >=? 8) && (st_regional_datacenters st =? 0)
                    then (1, (cash1 - 2000000)%float)
                    else (st_regional_datacenters st, cash1)
                | _ => (st_regional_datacenters st, cash1)
                end) as [dc cash2]
  end.
  apply bind_ok in H as (newc & g2 & Hacq & H).
  apply bind_ok in H as (cust & g3 & Hchurn & H).
  apply bind_ok in H as (rev & g4 & Hrev & H).
  apply lift_ok in Hrev as [Hrev ->].
  apply bind_ok in H as ([capex infra] & g5 & Harch & H).
  apply bind_ok in H as ([team_cost team_breakdown] & g6 & Hteam & H).
  apply bind_ok in H as (support & g7 & Hsup & H).
  apply bind_ok in H as (f_infra & g8 & Hfi & H).
  apply bind_ok in H as (f_sm & g9 & Hfs & H).
  apply bind_ok in H as (x & g10 & Hx & H).
  apply bind_ok in H as (y & g11 & Hy & H).
  apply bind_ok in H as (det & g12 & Hdet & H).
  apply bind_ok in H as (ts & g13 & Hts & H).
  apply lift_ok in Hts as [Hts ->].
  apply bind_ok in H as (gm & g14 & Hgm & H).
  apply lift_ok in Hgm as [Hgm ->].
  apply ret_ok in H as [H ->].
  injection H as -> ->.
  eexists {| m_cables_deployed := cd; m_customers := cust;
             m_detection_accuracy := clamp_metric 0.8 x;
             m_team_size := ts; m_revenue := rev |}, gm.
  unfold month_outcome; simpl.
  repeat split; try reflexivity; try eassumption; eauto 10.
Qed.

(** Loop rule: an invariant [P] kept by every month that does not break
    gives [Q] on the final state, whether the loop ran out of months or
    stopped at a [break]. *)
Lemma month_loop_rule (P : Z -> TrialState -> Prop) (Q : TrialState -> Prop) :
  (forall m st, P m st -> Q st) ->
  (forall m st st' g g',
      P m st -> month_body inputs params m st g = Ok ((st', false), g') ->
      P (m + 1) st') ->
  (forall m st st' g g',
      P m st -> month_body inputs params m st g = Ok ((st', true), g') ->
      Q st') ->
  forall n m st g st' g',
    P m st -> month_loop inputs params n m st g = Ok (st', g') -> Q st'.
Proof.
  intros Hend Hstep Hbreak.
  induction n as [|n IH]; intros m st g st' g' HP H; simpl in H.
  - apply ret_ok in H as [-> _]. eauto.
  - apply bind_ok in H as ([st1 broke] & g1 & Hbody & H).
    destruct broke.
    + apply ret_ok in H as [-> _]. eauto.
    + eapply IH; [|exact H]. eauto.
Qed.

Lemma run_single_simulation_inv seed_arg g o g' :
  run_single_simulation inputs params seed_arg g = Ok (o, g') ->
  exists g0 st0 g1 st' ,
    initial_state inputs params g0 = Ok (st0, g1)
    /\ month_loop inputs params (Z.to_nat (simulation_months inputs)) 0 st0 g1
       = Ok (st', g')
    /\ o = outputs st'.
Proof.
  unfold run_single_simulation. intros H.
  apply bind_ok in H as (u & g0 & _ & H).
  apply bind_ok in H as (st0 & g1 & Hinit & H).
  apply bind_ok in H as (st' & g2 & Hloop & H).
  apply ret_ok in H as [-> ->]. eauto 10.
Qed.

Lemma initial_state_inv g st g' :
  initial_state inputs params g = Ok (st, g') ->
  st_cables_deployed st = initial_cables inputs
  /\ customers st = zero_ledger
  /\ team_size st = initial_team_size inputs
  /\ deployment_queue st = []
  /\ outputs st = empty_outputs.
Proof.
  unfold initial_state. intros H.
  apply bind_ok in H as ([capex opex] & g1 & _ & H).
  apply bind_ok in H as (f & g2 & _ & H).
  apply ret_ok in H as [-> _]. simpl. auto.
Qed.

(** *** The per-month sequences *)

(** The outputs after a month: one more element in every sequence, the
    month itself in [months]; the failure flag and month are set exactly
    when the month broke out of the loop. *)
Lemma month_outcome_shape month o mt gm o' broke :
  (o', broke) = month_outcome month o mt gm ->
  per_month_lengths o' = map S (per_month_lengths o)
  /\ months o' = months o ++ [month]
  /\ (if broke
      then ran_out_of_cash o' = true /\ failure_month o' = Some month
      else ran_out_of_cash o' = ran_out_of_cash o
           /\ failure_month o' = failure_month o).
Proof.
  unfold month_outcome, check_series_b, check_profitability, mark_failure.
  intros H; injection H as -> ->.
  destruct (PrimFloat.ltb (m_cash mt) 0);
    repeat match goal with
           | |- context [if ?c then _ else _] => destruct c
           end;
    unfold per_month_lengths; simpl;
    rewrite ?length_app; simpl; rewrite ?Nat.add_1_r; auto.
Qed.

Lemma Forall_eq_map_S (k : nat) (l : list nat) :
  Forall (eq k) l -> Forall (eq (S k)) (map S l).
Proof. induction 1; simpl; constructor; auto. Qed.

Lemma months_snoc (k : nat) :
  map Z.of_nat (seq 0 k) ++ [Z.of_nat k] = map Z.of_nat (seq 0 (S k)).
Proof. now rewrite seq_S, map_app. Qed.

Lemma recorded_upto_step m st st' broke g g' :
  recorded_upto m st ->
  month_body inputs params m st g = Ok ((st', broke), g') ->
  if broke then stopped_at_failure (outputs st')
  else recorded_upto (m + 1) st'.
Proof.
  intros (k & -> & Hroc & Hmonths & Hlen) H.
  apply month_body_inv in H as (mt & gm & Hout & _).
  apply month_outcome_shape in Hout as (Hl & Hm & Hflags).
  destruct broke.
  - destruct Hflags as [_ Hfm]. exists k.
    rewrite Hfm, Hm, Hmonths, Hl, months_snoc.
    auto using Forall_eq_map_S.
  - destruct Hflags as [Hroc' _]. exists (S k).
    rewrite Hroc', Hm, Hmonths, Hl, months_snoc.
    repeat split; auto using Forall_eq_map_S. lia.
Qed.

(** C3 (terminal consistency): when a trial returns with
    [ran_out_of_cash] set, [failure_month] is [k], the recorded months
    are exactly [0, 1, ..., k], so [k] is the index of the last recorded
    month, and every one of the sixteen per-month sequences has length
    [k + 1]: nothing is simulated after the failure month. *)
Theorem terminal_consistency seed_arg g o g' :
  run_single_simulation inputs params seed_arg g = Ok (o, g') ->
  ran_out_of_cash o = true ->
  exists k : nat,
    failure_month o = Some (Z.of_nat k)
    /\ months o = map Z.of_nat (seq 0 (S k))
    /\ nth_error (months o) k = Some (Z.of_nat k)
    /\ Forall (eq (S k)) (per_month_lengths o).
Proof.
  intros H Hroc.
  apply run_single_simulation_inv in H as (g0 & st0 & g1 & st' & Hi & Hl & ->).
  apply initial_state_inv in Hi as (_ & _ & _ & _ & Ho).
  assert (Hq : ran_out_of_cash (outputs st') = true ->
               stopped_at_failure (outputs st')).
  { apply (month_loop_rule recorded_upto
             (fun st => ran_out_of_cash (outputs st) = true ->
                        stopped_at_failure (outputs st)))
      with (5 := Hl).
    - intros m st (k & _ & Hf & _) Ht. congruence.
    - intros m st st1 ga gb HP Hb.
      exact (recorded_upto_step _ _ _ false _ _ HP Hb).
    - intros m st st1 ga gb HP Hb _.
      exact (recorded_upto_step _ _ _ true _ _ HP Hb).
    - exists 0%nat. rewrite Ho. simpl. repeat split; auto.
      unfold per_month_lengths; simpl. repeat constructor. }
  destruct (Hq Hroc) as (k & Hfm & Hm & Hlen).
  exists k. repeat split; auto.
  rewrite Hm, nth_error_map, seq_S, nth_error_app2; rewrite length_seq; auto.
  now rewrite Nat.sub_diag.
Qed.

(** The values a month appends, sequence by sequence, and what it does
    to the Series-B flag. *)
Lemma month_outcome_series month o mt gm o' broke :
  (o', broke) = month_outcome month o mt gm ->
  cables_deployed o' = cables_deployed o ++ [m_cables_deployed mt]
  /\ total_customers o'
     = total_customers o ++ [sum_Z (dict_values (m_customers mt))]
  /\ detection_accuracy o' = detection_accuracy o ++ [m_detection_accuracy mt]
  /\ system_uptime o' = system_uptime o ++ [m_system_uptime mt]
  /\ team_size_total o' = team_size_total o ++ [m_team_size mt]
  /\ revenue_monthly o' = revenue_monthly o ++ [m_revenue mt]
  /\ costs_monthly o' = costs_monthly o ++ [m_total_costs mt]
  /\ gross_margin o' = gross_margin o ++ [gm]
  /\ series_b_qualified o'
     = series_b_qualified o
       || (PrimFloat.ltb 30000000 (m_revenue mt * 12)%float
           && PrimFloat.ltb 0.6 gm && (m_cables_deployed mt >=? 15)).
Proof.
  unfold month_outcome, check_series_b, check_profitability, mark_failure.
  intros H; injection H as -> ->.
  destruct (PrimFloat.ltb (m_cash mt) 0);
    repeat match goal with
           | |- context [if ?c then _ else _] => destruct c
           end;
    simpl; rewrite ?orb_true_r, ?orb_false_r; auto 10.
Qed.

(** *** Clamping *)

Lemma clamp_metric_accuracy (x : float) :
  in_range 0.8 1 (clamp_metric 0.8 x) = true.
Proof. now apply clamp_in_range. Qed.

Lemma clamp_metric_uptime (y : float) :
  in_range 0.9 1 (clamp_metric 0.9 y) = true.
Proof. now apply clamp_in_range. Qed.

Lemma clamp_churn_rate_range (x : float) :
  in_range 0 0.1 (clamp_churn_rate x) = true.
Proof. now apply clamp_in_range. Qed.

Lemma metrics_clamped_step m st st' broke g g' :
  metrics_clamped (outputs st) ->
  month_body inputs params m st g = Ok ((st', broke), g') ->
  metrics_clamped (outputs st').
Proof.
  intros [Ha Hu] H.
  apply month_body_inv in H as (mt & gm & Hout & _ & [x Hx] & [y Hy] & _).
  apply month_outcome_series in Hout as (_ & _ & Ea & Eu & _).
  split.
  - rewrite Ea, Hx. apply Forall_app. split; auto.
    constructor; auto using clamp_metric_accuracy.
  - rewrite Eu, Hy. apply Forall_app. split; auto.
    constructor; auto using clamp_metric_uptime.
Qed.

(** C6 (clamping): in every month a trial records, the detection
    accuracy is within [0.8, 1.0] and the system uptime within
    [0.9, 1.0]; and every call of [apply_churn] that returns has run its
    binomial draws over the ledger at a rate within [0, 0.1], the clamp
    of the month's draw, whatever that draw is (NaN included). *)
Theorem clamping seed_arg g o g' :
  run_single_simulation inputs params seed_arg g = Ok (o, g') ->
  Forall (fun a => in_range 0.8 1 a = true) (detection_accuracy o)
  /\ Forall (fun u => in_range 0.9 1 u = true) (system_uptime o)
  /\ (forall x, in_range 0 0.1 (clamp_churn_rate x) = true)
  /\ forall customers ga c gb,
       apply_churn params customers ga = Ok (c, gb) ->
       exists x g1,
         normal (churn_rate_monthly_mean params)
                (churn_rate_monthly_std params) ga = Ok (x, g1)
         /\ in_range 0 0.1 (clamp_churn_rate x) = true
         /\ churn_at (clamp_churn_rate x) customers g1 = Ok (c, gb).
Proof.
  intros H.
  apply run_single_simulation_inv in H as (g0 & st0 & g1 & st' & Hi & Hl & ->).
  apply initial_state_inv in Hi as (_ & _ & _ & _ & Ho).
  assert (Hc : metrics_clamped (outputs st')).
  { apply (month_loop_rule (fun _ st => metrics_clamped (outputs st))
             (fun st => metrics_clamped (outputs st))) with (5 := Hl);
      eauto using metrics_clamped_step.
    rewrite Ho. split; constructor. }
  destruct Hc as [Ha Hu].
  repeat split; auto using clamp_churn_rate_range.
  intros customers ga c gb Hch. unfold apply_churn in Hch.
  apply bind_ok in Hch as (x & g2 & Hx & Hch).
  exists x, g2. auto using clamp_churn_rate_range.
Qed.

(** *** Gross margin *)

(** The division is guarded: [gross_margin_of] never raises. *)
Lemma gross_margin_of_total (revenue total_costs : float) :
  gross_margin_of revenue total_costs
  = Ok (margin_formula revenue total_costs).
Proof.
  unfold gross_margin_of, margin_formula, Py.truediv.
  destruct (PrimFloat.ltb 0 revenue) eqn:E; [|reflexivity].
  now rewrite (pos_not_zero _ E).
Qed.

Lemma margin_rows_step m st st' broke g g' rows :
  margin_rows (outputs st) rows ->
  month_body inputs params m st g = Ok ((st', broke), g') ->
  exists row, margin_rows (outputs st') (rows ++ [row]).
Proof.
  intros (Hr & Hc & Hg) H.
  apply month_body_inv in H as (mt & gm & Hout & Hgm & _).
  apply month_outcome_series in Hout as (_ & _ & _ & _ & _ & Er & Ec & Eg & _).
  rewrite gross_margin_of_total in Hgm. injection Hgm as <-.
  exists (m_revenue mt, m_total_costs mt).
  unfold margin_rows. rewrite Er, Ec, Eg, Hr, Hc, Hg, !map_app. auto.
Qed.

Lemma margin_rows_nth o rows k r c :
  margin_rows o rows ->
  nth_error (revenue_monthly o) k = Some r ->
  nth_error (costs_monthly o) k = Some c ->
  nth_error (gross_margin o) k = Some (margin_formula r c).
Proof.
  intros (Hr & Hc & Hg). rewrite Hr, Hc, Hg, !nth_error_map.
  destruct (nth_error rows k) as [[r' c']|]; simpl; [|discriminate].
  intros [= ->] [= ->]. reflexivity.
Qed.

(** C7 (guarded gross margin): computing the margin never raises, so the
    division is never performed on a zero revenue; and in every recorded
    month the margin is (revenue - cost) / revenue when that month's
    revenue is strictly positive and -1 otherwise, zero revenue
    included. *)
Theorem gross_margin_guarded seed_arg g o g' :
  run_single_simulation inputs params seed_arg g = Ok (o, g') ->
  (forall revenue total_costs,
      gross_margin_of revenue total_costs
      = Ok (if PrimFloat.ltb 0 revenue
            then ((revenue - total_costs) / revenue)%float
            else (-1)%float))
  /\ List.length (gross_margin o) = List.length (revenue_monthly o)
  /\ List.length (costs_monthly o) = List.length (revenue_monthly o)
  /\ forall k revenue total_costs,
      nth_error (revenue_monthly o) k = Some revenue ->
      nth_error (costs_monthly o) k = Some total_costs ->
      (PrimFloat.ltb 0 revenue = true ->
       nth_error (gross_margin o) k
       = Some ((revenue - total_costs) / revenue)%float)
      /\ (PrimFloat.ltb 0 revenue = false ->
          nth_error (gross_margin o) k = Some (-1)%float)
      /\ (revenue = 0%float ->
          nth_error (gross_margin o) k = Some (-1)%float).
Proof.
  intros H.
  apply run_single_simulation_inv in H as (g0 & st0 & g1 & st' & Hi & Hl & ->).
  apply initial_state_inv in Hi as (_ & _ & _ & _ & Ho).
  assert (Hrows : exists rows, margin_rows (outputs st') rows).
  { apply (month_loop_rule
             (fun _ st => exists rows, margin_rows (outputs st) rows)
             (fun st => exists rows, margin_rows (outputs st) rows))
      with (5 := Hl); auto.
    - intros m st st1 ga gb [rows HP] Hb.
      destruct (margin_rows_step _ _ _ _ _ _ _ HP Hb) as [row Hrow]. eauto.
    - intros m st st1 ga gb [rows HP] Hb.
      destruct (margin_rows_step _ _ _ _ _ _ _ HP Hb) as [row Hrow]. eauto.
    - exists []. rewrite Ho. repeat split. }
  destruct Hrows as [rows Hrows].
  split; [exact gross_margin_of_total|].
  split; [|split].
  - destruct Hrows as (-> & _ & ->). now rewrite !length_map.
  - destruct Hrows as (-> & -> & _). now rewrite !length_map.
  - intros k r c Hr Hc.
    pose proof (margin_rows_nth _ _ _ _ _ Hrows Hr Hc) as Hk.
    unfold margin_formula in Hk.
    repeat split; intros E; rewrite Hk.
    + now rewrite E.
    + now rewrite E.
    + now rewrite E.
Qed.

(** *** Series-B flag *)

Lemma series_b_step m st st' broke g g' :
  series_b_qualified (outputs st) = true ->
  month_body inputs params m st g = Ok ((st', broke), g') ->
  series_b_qualified (outputs st') = true.
Proof.
  intros Hsb H.
  apply month_body_inv in H as (mt & gm & Hout & _).
  apply month_outcome_series in Hout as (_ & _ & _ & _ & _ & _ & _ & _ & E).
  now rewrite E, Hsb.
Qed.

(** C8 (Series-B qualification is sticky): if the flag is set when month
    [m] starts, it is still set after any number of further months of the
    trial, whatever revenue, margin and cable count do in them. *)
Theorem series_b_persists n m st g st' g' :
  series_b_qualified (outputs st) = true ->
  month_loop inputs params n m st g = Ok (st', g') ->
  series_b_qualified (outputs st') = true.
Proof.
  intros Hsb Hl.
  apply (month_loop_rule
           (fun _ st => series_b_qualified (outputs st) = true)
           (fun st => series_b_qualified (outputs st) = true))
    with (5 := Hl); eauto using series_b_step.
Qed.

(** *** Zero growth *)

Lemma target_cables_flat month :
  target_cables_month_6 inputs = initial_cables inputs ->
  target_cables_month_12 inputs = initial_cables inputs ->
  target_cables_month_18 inputs = initial_cables inputs ->
  target_cables inputs month = initial_cables inputs.
Proof.
  intros H6 H12 H18. unfold target_cables. rewrite H6, H12, H18.
  destruct (month >=? 18), (month >=? 12), (month >=? 6); reflexivity.
Qed.

Lemma grow_team_zero_rate month ts ts' :
  team_growth_rate inputs = 0%float ->
  grow_team inputs month ts = Ok ts' ->
  ts' = if (month >? 0) && (month mod 6 =? 0) then 0 else ts.
Proof.
  intros Hrate. unfold grow_team. rewrite Hrate.
  destruct ((month >? 0) && (month mod 6 =? 0)).
  - intros H. apply rbind_ok in H as (x & Hx & Hint).
    eapply int_mul_zero; eauto.
  - congruence.
Qed.

Lemma flat_upto_step m st st' broke g g' :
  target_cables_month_6 inputs = initial_cables inputs ->
  target_cables_month_12 inputs = initial_cables inputs ->
  target_cables_month_18 inputs = initial_cables inputs ->
  flat_upto inputs m st ->
  month_body inputs params m st g = Ok ((st', broke), g') ->
  flat_upto inputs (m + 1) st'.
Proof.
  intros H6 H12 H18 (Hm & Hc & Hq & Hcs & Hteam_before) H.
  apply month_body_inv in H
    as (mt & gm & Hout & _ & _ & _ & Ec & Et & _ & Hgrow & Hplan & _).
  pose proof (month_outcome_shape _ _ _ _ _ _ Hout) as (_ & Hmonths & _).
  apply month_outcome_series in Hout as (Ecs & _ & _ & _ & Ets & _).
  rewrite Hq in Hplan. simpl in Hplan.
  destruct Hplan as (Hcd & cash1 & ga & gb & Hplan).
  rewrite target_cables_flat, Hc in Hplan by assumption.
  replace (Z.to_nat _) with 0%nat in Hplan by lia.
  simpl in Hplan. apply ret_ok in Hplan as [Hplan _].
  injection Hplan as Hq' _.
  unfold flat_upto.
  rewrite Ec, Hq', Ecs, Hmonths, Hcd, Hc, !map_app, Hcs, Z.add_0_r.
  split; [lia|]. split; [reflexivity|]. split; [reflexivity|].
  split; [reflexivity|].
  intros Hrate. destruct (Hteam_before Hrate) as [Ht Hts].
  apply (grow_team_zero_rate _ _ _ Hrate) in Hgrow.
  assert (Hteam : m_team_size mt
                  = if m <? 6 then initial_team_size inputs else 0).
  { rewrite Hgrow, Ht.
    destruct (Z.ltb_spec m 6) as [Hlt|Hge].
    - replace (m <=? 6) with true by (symmetry; apply Z.leb_le; lia).
      destruct (Z.gtb_spec m 0) as [Hpos|Hz]; simpl; auto.
      replace (m mod 6 =? 0) with false; auto.
      symmetry. apply Z.eqb_neq. rewrite Z.mod_small; lia.
    - destruct ((m >? 0) && (m mod 6 =? 0)) eqn:E; auto.
      replace (m <=? 6) with false; auto.
      symmetry. apply Z.leb_gt.
      assert (m <> 6) by (intros ->; discriminate E). lia. }
  rewrite Et, Ets, Hts, Hteam. simpl.
  split; [|reflexivity].
  destruct (Z.ltb_spec m 6), (Z.leb_spec (m + 1) 6); auto; lia.
Qed.

(** C5, amended (zero growth): with the three deployment targets equal to
    the initial cable count, whatever the team growth multiplier, the
    recorded deployed-cable count equals the initial count in every
    recorded month; when moreover the team growth multiplier is zero, the
    recorded team size is the initial size in months 0 to 5 and 0 from
    month 6 on. *)
Theorem zero_growth_amended seed_arg g o g' :
  target_cables_month_6 inputs = initial_cables inputs ->
  target_cables_month_12 inputs = initial_cables inputs ->
  target_cables_month_18 inputs = initial_cables inputs ->
  run_single_simulation inputs params seed_arg g = Ok (o, g') ->
  cables_deployed o = map (fun _ => initial_cables inputs) (months o)
  /\ (team_growth_rate inputs = 0%float ->
      team_size_total o
      = map (fun m => if m <? 6 then initial_team_size inputs else 0)
          (months o)).
Proof.
  intros H6 H12 H18 H.
  apply run_single_simulation_inv in H as (g0 & st0 & g1 & st' & Hi & Hl & ->).
  apply initial_state_inv in Hi as (Hc & _ & Ht & Hq & Ho).
  assert (Hflat : exists m, flat_upto inputs m st').
  { apply (month_loop_rule (flat_upto inputs)
             (fun st => exists m, flat_upto inputs m st))
      with (5 := Hl); eauto using flat_upto_step.
    unfold flat_upto. rewrite Hc, Hq, Ht, Ho. simpl.
    split; [lia|]. auto. }
  destruct Hflat as (m & _ & _ & _ & Hcs & Hteam).
  split; [exact Hcs|].
  intros Hrate. exact (proj2 (Hteam Hrate)).
Qed.

(** *** Month 0 *)

Lemma for_each_rule {A B : Type} (I : B -> Prop) (body : B -> A -> M B) :
  (forall b a g b' g', I b -> body b a g = Ok (b', g') -> I b') ->
  forall l acc g r g',
    I acc -> for_each l acc body g = Ok (r, g') -> I r.
Proof.
  intros Hbody. induction l as [|a l IH]; intros acc g r g' HI H; simpl in H.
  - apply ret_ok in H as [-> _]. exact HI.
  - apply bind_ok in H as (acc' & g1 & Hb & H). eauto.
Qed.

Lemma binomial_zero p g k g' : binomial 0 p g = Ok (k, g') -> k = 0.
Proof.
  intros H. apply np_random_binomial_range in H. lia.
Qed.

Lemma sales_effectiveness_month_0 : sales_effectiveness 0 = Ok 0%float.
Proof. reflexivity. Qed.

Lemma dict_set_zero_ledger (s : CustomerSegment) :
  dict_set zero_ledger (segment_value s) 0 = zero_ledger.
Proof. destruct s; reflexivity. Qed.

(** At month 0 the sales ramp is 0, every lead count truncates to 0 and
    no customer is acquired. *)
Lemma no_acquisition_month_0 cables current g newc g' :
  get_customer_acquisition params 0 cables current g = Ok (newc, g') ->
  newc = zero_ledger.
Proof.
  unfold get_customer_acquisition. intros H.
  apply bind_ok in H as (c1 & g1 & _ & H).
  apply bind_ok in H as (c2 & g2 & _ & H).
  apply bind_ok in H as (c3 & g3 & _ & H).
  apply bind_ok in H as (c4 & g4 & _ & H).
  apply bind_ok in H as (c5 & g5 & _ & H).
  apply bind_ok in H as (se & g6 & Hse & H).
  apply lift_ok in Hse as [Hse ->].
  rewrite sales_effectiveness_month_0 in Hse. injection Hse as <-.
  apply (for_each_rule (fun b => b = zero_ledger)) in H; auto.
  clear H. intros b s ga b' gb -> H.
  apply bind_ok in H as (leads & gc & Hleads & H).
  apply lift_ok in Hleads as [Hleads ->].
  apply bind_ok in H as (n & gd & Hn & H).
  apply lift_ok in Hn as [Hn ->].
  apply bind_ok in H as (k & ge & Hk & H).
  apply ret_ok in H as [-> _].
  rewrite (int_mul_zero _ _ _ Hleads Hn) in Hk.
  apply binomial_zero in Hk as ->.
  apply dict_set_zero_ledger.
Qed.

(** Churn leaves an all-zero ledger as it is. *)
Lemma churn_zero_ledger g c g' :
  apply_churn params zero_ledger g = Ok (c, g') -> c = zero_ledger.
Proof.
  unfold apply_churn, churn_at. intros H.
  apply bind_ok in H as (x & g0 & _ & H).
  change zero_ledger with
    [("port"%string, 0); ("naval"%string, 0); ("environmental"%string, 0);
     ("shipping"%string, 0); ("insurance"%string, 0)] in *.
  simpl in H.
  repeat (apply bind_ok in H as (?acc & ?g & Hb & H);
          apply bind_ok in Hb as (?k & ?g & Hk & Hb);
          apply binomial_zero in Hk as ->;
          apply ret_ok in Hb as [-> ->]).
  apply ret_ok in H as [-> _]. reflexivity.
Qed.

(** With no customer, finite prices earn exactly zero at month 0. *)
Lemma revenue_zero_ledger_month_0 :
  finite_pricing inputs ->
  calculate_revenue inputs params zero_ledger 0 = Ok 0%float.
Proof.
  intros (Hp1 & Hp2 & Hp3 & Hp4 & Hp5).
  unfold calculate_revenue.
  change (Py.int_truediv 0 12) with (Ok 0%float). simpl rbind.
  rewrite py_pow_zero. simpl rbind.
  change zero_ledger with
    [("port"%string, 0); ("naval"%string, 0); ("environmental"%string, 0);
     ("shipping"%string, 0); ("insurance"%string, 0)].
  change (Py.float_of_int 0) with (Ok 0%float).
  cbn [revenue_loop dict_get pricing segment_value String.eqb Ascii.eqb
       Bool.eqb rbind].
  change (Py.float_of_int 0) with (Ok 0%float). cbn [rbind].
  now rewrite !zero_revenue_term.
Qed.

Lemma nth_error_head_snoc {A : Type} (l : list A) (a b : A) :
  nth_error l 0 = Some a -> nth_error (l ++ [b]) 0 = Some a.
Proof. destruct l; simpl; [discriminate | auto]. Qed.

(** With no customer the revenue of month 0 is 0 or NaN, whatever the
    prices. *)
Lemma revenue_zero_ledger_cases :
  exists revenue,
    calculate_revenue inputs params zero_ledger 0 = Ok revenue
    /\ (revenue = 0%float \/ revenue = nan).
Proof.
  unfold calculate_revenue.
  change (Py.int_truediv 0 12) with (Ok 0%float). simpl rbind.
  rewrite py_pow_zero. simpl rbind.
  change zero_ledger with
    [("port"%string, 0); ("naval"%string, 0); ("environmental"%string, 0);
     ("shipping"%string, 0); ("insurance"%string, 0)].
  change (Py.float_of_int 0) with (Ok 0%float).
  cbn [revenue_loop dict_get pricing segment_value String.eqb Ascii.eqb
       Bool.eqb rbind].
  change (Py.float_of_int 0) with (Ok 0%float). cbn [rbind].
  eexists. split; [reflexivity|].
  repeat apply zero_revenue_term_cases. now left.
Qed.

Lemma first_month_empty_step m st st' broke g g' :
  first_month_empty inputs (outputs st) ->
  month_body inputs params m st g = Ok ((st', broke), g') ->
  first_month_empty inputs (outputs st').
Proof.
  intros (Hc & Hg & r & Hr & Hcases) H.
  apply month_body_inv in H as (mt & gm & Hout & _).
  apply month_outcome_series in Hout as (_ & Ec & _ & _ & _ & Er & _ & Eg & _).
  unfold first_month_empty. rewrite Ec, Er, Eg.
  repeat split; auto using nth_error_head_snoc.
  exists r. auto using nth_error_head_snoc.
Qed.

Lemma first_month_empty_init st st' broke g g' :
  customers st = zero_ledger ->
  outputs st = empty_outputs ->
  month_body inputs params 0 st g = Ok ((st', broke), g') ->
  first_month_empty inputs (outputs st').
Proof.
  intros Hcust Ho H.
  apply month_body_inv in H
    as (mt & gm & Hout & Hgm & _ & _ & _ & _ & _ & _ & _ & Hdemand & Hrev).
  destruct Hdemand as (newc & ga & gb & gc & gd & Hacq & Hchurn).
  apply no_acquisition_month_0 in Hacq as ->.
  rewrite Hcust in Hchurn.
  change (add_customers zero_ledger zero_ledger) with zero_ledger in Hchurn.
  apply churn_zero_ledger in Hchurn.
  rewrite Hchurn in Hrev.
  destruct revenue_zero_ledger_cases as (r & Hr & Hcases).
  rewrite Hr in Hrev. injection Hrev as Hrev.
  rewrite gross_margin_of_total, <- Hrev in Hgm.
  apply month_outcome_series in Hout as (_ & Ec & _ & _ & _ & Er & _ & Eg & _).
  unfold first_month_empty.
  rewrite Ec, Er, Eg, Ho, Hchurn, <- Hrev. simpl.
  repeat split.
  - destruct Hcases as [-> | ->]; injection Hgm as <-; reflexivity.
  - exists r. repeat split; auto.
    intros Hfin. pose proof (revenue_zero_ledger_month_0 Hfin) as H0.
    congruence.
Qed.

(** C10, amended (month 0): the sales-ramp factor of month 0 is 0 and no
    customer is acquired in month 0; the ledger starts at zero, so a trial
    of at least one month records zero customers and the gross-margin
    sentinel -1 at month 0, and a revenue of exactly 0 when the five
    prices are finite (with an infinite or NaN price the recorded revenue
    is NaN). *)
Theorem month_0_no_revenue seed_arg g o g' :
  1 <= simulation_months inputs ->
  run_single_simulation inputs params seed_arg g = Ok (o, g') ->
  sales_effectiveness 0 = Ok 0%float
  /\ (forall cables current ga newc gb,
         get_customer_acquisition params 0 cables current ga = Ok (newc, gb) ->
         newc = zero_ledger)
  /\ nth_error (total_customers o) 0 = Some 0
  /\ nth_error (gross_margin o) 0 = Some (-1)%float
  /\ exists revenue,
       nth_error (revenue_monthly o) 0 = Some revenue
       /\ (revenue = 0%float \/ revenue = nan)
       /\ (finite_pricing inputs -> revenue = 0%float).
Proof.
  intros Hh H.
  apply run_single_simulation_inv in H as (g0 & st0 & g1 & st' & Hi & Hl & ->).
  apply initial_state_inv in Hi as (_ & Hcust & _ & _ & Ho).
  split; [exact sales_effectiveness_month_0|].
  split; [exact no_acquisition_month_0|].
  destruct (Z.to_nat (simulation_months inputs)) as [|n] eqn:En; [lia|].
  simpl in Hl.
  apply bind_ok in Hl as ([st1 broke] & g2 & Hbody & Hl).
  pose proof (first_month_empty_init _ _ _ _ _ Hcust Ho Hbody) as H1.
  destruct broke.
  - apply ret_ok in Hl as [-> _]. exact H1.
  - apply (month_loop_rule (fun _ st => first_month_empty inputs (outputs st))
             (fun st => first_month_empty inputs (outputs st))) with (5 := Hl);
      eauto using first_month_empty_step.
Qed.

(** *** Deployment queue *)

(** C2, amended (lead time): the planning loop of month [month] appends
    exactly [n] entries to the queue; each is scheduled at [month] plus
    a lead-time draw truncated toward zero, without any clamp, so its
    scheduled month is at least the enqueue month exactly when that
    truncated lead time is non-negative. *)
Theorem lead_time_schedule n month queue cash g q' cash' g' :
  plan_deployments inputs params n month queue cash g = Ok ((q', cash'), g') ->
  exists new,
    q' = queue ++ new
    /\ List.length new = n
    /\ Forall
         (fun e =>
            exists d ga gb lead,
              normal (cable_deployment_time_months_mean params)
                     (cable_deployment_time_months_std params) ga
              = Ok (d, gb)
              /\ Py.int d = Ok lead
              /\ fst e = month + lead
              /\ (month <= fst e <-> 0 <= lead))
         new.
Proof.
  revert queue cash g.
  induction n as [|n IH]; intros queue cash g H; simpl in H.
  - apply ret_ok in H as [H _]. injection H as -> ->.
    exists []. rewrite app_nil_r. auto.
  - apply bind_ok in H as (d & g1 & Hd & H).
    apply bind_ok in H as (lead & g2 & Hlead & H).
    apply lift_ok in Hlead as [Hlead ->].
    apply bind_ok in H as ([capex opex] & g3 & _ & H).
    apply IH in H as (new & -> & Hlen & Hall).
    exists ((month + lead, capex) :: new).
    rewrite <- app_assoc. simpl. repeat split; auto.
    constructor; auto.
    exists d, g, g1, lead. simpl. repeat split; auto; lia.
Qed.

(** *** Driver *)

(** A seeded trial does not depend on the state of the generator it
    starts in. *)
Lemma seeded_trial_ignores_state i g1 g2 :
  run_single_simulation inputs params (Some i) g1
  = run_single_simulation inputs params (Some i) g2.
Proof. reflexivity. Qed.

Lemma run_trials_ignores_state n i acc g1 g2 :
  outcome (run_trials inputs params n i acc g1)
  = outcome (run_trials inputs params n i acc g2).
Proof.
  destruct n as [|n]; simpl; [reflexivity|].
  unfold bind. now rewrite (seeded_trial_ignores_state i g1 g2).
Qed.

(** C4 (determinism): two runs of the driver on the same inputs,
    parameters and trial count return the same list of outputs, or raise
    the same exception, whatever state the global generator is in when
    each run starts, because trial [i] reseeds the generator with [i]. *)
Theorem determinism num_simulations g1 g2 :
  outcome (run_monte_carlo inputs params num_simulations g1)
  = outcome (run_monte_carlo inputs params num_simulations g2).
Proof. apply run_trials_ignores_state. Qed.

(** *** No validation *)

Lemma empty_trial i g gi x gi' f :
  simulation_months inputs <= 0 ->
  Py.float_of_int (initial_cables inputs) = Ok f ->
  np_random_seed i = Ok gi ->
  np_random_normal 1 (edge_capex_variation params) gi = Ok (x, gi') ->
  run_single_simulation inputs params (Some i) g = Ok (empty_outputs, gi').
Proof.
  intros Hh Hf Hseed Hdraw.
  unfold run_single_simulation, bind, seed, initial_state,
    get_architecture_costs, bind, normal, lift, ret.
  rewrite Hseed.
  destruct (architecture_option inputs); rewrite Hdraw, Hf;
    replace (Z.to_nat (simulation_months inputs)) with 0%nat by lia;
    reflexivity.
Qed.

Lemma empty_trials n i acc g f :
  simulation_months inputs <= 0 ->
  Py.float_of_int (initial_cables inputs) = Ok f ->
  (forall j, i <= j < i + Z.of_nat n ->
     exists gj x gj',
       np_random_seed j = Ok gj
       /\ np_random_normal 1 (edge_capex_variation params) gj = Ok (x, gj')) ->
  exists g',
    run_trials inputs params n i acc g
    = Ok (acc ++ repeat empty_outputs n, g').
Proof.
  intros Hh Hf. revert i acc g.
  induction n as [|n IH]; intros i acc g Hdraws; simpl.
  - exists g. now rewrite app_nil_r.
  - destruct (Hdraws i ltac:(lia)) as (gi & x & gi' & Hseed & Hdraw).
    unfold bind at 1.
    rewrite (empty_trial i g gi x gi' f Hh Hf Hseed Hdraw).
    destruct (IH (i + 1) (acc ++ [empty_outputs]) gi') as [g' Hg'].
    + intros j Hj. apply Hdraws. lia.
    + exists g'. rewrite Hg', <- app_assoc. reflexivity.
Qed.

(** C1, amended (no validation): the driver runs its trials on the
    configuration as given.  With a horizon that is zero or negative it
    does not raise: whenever seeding and the initial capex draw succeed
    for every trial index, it returns [num_simulations] outputs, each
    with no recorded month and no flag set. *)
Theorem nonpositive_horizon_accepted num_simulations g f :
  simulation_months inputs <= 0 ->
  Py.float_of_int (initial_cables inputs) = Ok f ->
  (forall i, 0 <= i < num_simulations ->
     exists gi x gi',
       np_random_seed i = Ok gi
       /\ np_random_normal 1 (edge_capex_variation params) gi = Ok (x, gi')) ->
  exists g',
    run_monte_carlo inputs params num_simulations g
    = Ok (repeat empty_outputs (Z.to_nat num_simulations), g').
Proof.
  intros Hh Hf Hdraws.
  unfold run_monte_carlo.
  apply (empty_trials _ 0 [] g f Hh Hf).
  intros j Hj. apply Hdraws. lia.
Qed.

(** *** Profitability month *)

Lemma profitability_recorded_step m st st' broke g g' :
  profitability_recorded (outputs st) ->
  month_body inputs params m st g = Ok ((st', broke), g') ->
  profitability_recorded (outputs st').
Proof.
  intros Hp H.
  apply month_body_inv in H as (mt & gm & Hout & _).
  revert Hout.
  unfold month_outcome, check_series_b, check_profitability, mark_failure,
    profitability_recorded in *.
  intros H; injection H as -> ->.
  destruct (PrimFloat.ltb (m_cash mt) 0);
    repeat match goal with
           | |- context [if ?c then _ else _] => destruct c
           end;
    simpl; auto; discriminate.
Qed.

(** Every trial output that claims profitability carries its month. *)
Lemma trial_profitability_recorded seed_arg g o g' :
  run_single_simulation inputs params seed_arg g = Ok (o, g') ->
  profitability_recorded o.
Proof.
  intros H.
  apply run_single_simulation_inv in H as (g0 & st0 & g1 & st' & Hi & Hl & ->).
  apply initial_state_inv in Hi as (_ & _ & _ & _ & Ho).
  apply (month_loop_rule (fun _ st => profitability_recorded (outputs st))
           (fun st => profitability_recorded (outputs st))) with (5 := Hl);
    eauto using profitability_recorded_step.
  rewrite Ho. discriminate.
Qed.

(** So does every output of a batch the driver returns. *)
Lemma run_trials_profitability_recorded n i acc g results g' :
  Forall profitability_recorded acc ->
  run_trials inputs params n i acc g = Ok (results, g') ->
  Forall profitability_recorded results.
Proof.
  revert i acc g.
  induction n as [|n IH]; intros i acc g Hacc H; simpl in H.
  - apply ret_ok in H as [-> _]. exact Hacc.
  - apply bind_ok in H as (o & g1 & Ho & H).
    apply IH in H; auto.
    apply Forall_app. split; auto.
    constructor; eauto using trial_profitability_recorded.
Qed.

Lemma run_monte_carlo_profitability_recorded num_simulations g results g' :
  run_monte_carlo inputs params num_simulations g = Ok (results, g') ->
  forall r, In r results ->
    profitability_achieved r = true -> profitability_month r <> None.
Proof.
  intros H. apply run_trials_profitability_recorded in H; auto.
  intros r Hr. exact (proj1 (Forall_forall _ _) H r Hr).
Qed.

End EngineFacts.

(** ** Aggregator: months to profitability *)

(** True division of ints rounds the exact quotient once: 2^53 + 1 is a
    multiple of 3 and its third is returned exactly, where dividing the
    operands converted to floats would lose the last bit. *)
Example int_truediv_rounds_once :
  Py.int_truediv 9007199254740993 3 = Ok 3002399751580331%float
  /\ rbind (Py.float_of_int 9007199254740993) (fun x => Ok (x / 3)%float)
     = Ok 3002399751580330.5%float.
Proof. split; vm_compute; reflexivity. Qed.

Lemma length_filter_count (flag : SimulationOutputs -> bool) results :
  Z.of_nat (List.length (filter flag results)) = count_flag flag results.
Proof.
  induction results as [|r rest IH]; simpl; [reflexivity|].
  destruct (flag r); simpl List.length; lia.
Qed.

Lemma sum_profitability_month_filter results acc :
  (forall r, In r results ->
     profitability_achieved r = true -> profitability_month r <> None) ->
  sum_profitability_month (filter profitability_achieved results) acc
  = Ok (acc + profitable_months_total results).
Proof.
  revert acc. induction results as [|r rest IH]; intros acc Hrec; simpl.
  - now rewrite Z.add_0_r.
  - destruct (profitability_achieved r) eqn:Ep; simpl.
    + destruct (profitability_month r) as [m|] eqn:Em.
      * rewrite IH by (intros; apply Hrec; simpl; auto).
        f_equal. lia.
      * exfalso. apply (Hrec r); simpl; auto.
    + apply IH. intros; apply Hrec; simpl; auto.
Qed.

(** C9 (average months to profitability): on a batch in which every trial
    flagged profitable carries its month (as every trial output does), the
    aggregator's average is absent when no trial is flagged, and otherwise
    is the sum of [profitability_month] over exactly the flagged trials
    divided by their number (the exact quotient, rounded once); it is the
    value every analysis [analyze_results] returns reports. *)
Theorem avg_months_is_mean {NS : NumpyStats} (results : list SimulationOutputs) :
  results <> [] ->
  (forall r, In r results ->
     profitability_achieved r = true -> profitability_month r <> None) ->
  avg_months_to_profit results
  = (if profitable_count results =? 0
     then Ok None
     else rbind (Py.int_truediv (profitable_months_total results)
                                (profitable_count results))
            (fun mean => Ok (Some mean)))
  /\ forall analysis,
       analyze_results results = Ok analysis ->
       avg_months_to_profit results
       = Ok (avg_months_to_profitability (success_metrics analysis)).
Proof.
  intros _ Hrec. split.
  - unfold avg_months_to_profit, profitable_count.
    rewrite <- (length_filter_count profitability_achieved results).
    pose proof (sum_profitability_month_filter results 0 Hrec) as Hsum.
    destruct (filter profitability_achieved results) as [|r rest] eqn:Ef.
    + reflexivity.
    + rewrite Hsum. simpl rbind.
      reflexivity.
  - intros analysis. unfold analyze_results.
    destruct (Py.int_truediv _ _); simpl; [|discriminate].
    destruct (Py.int_truediv _ _); simpl; [|discriminate].
    destruct (Py.int_truediv _ _); simpl; [|discriminate].
    destruct (avg_months_to_profit results); simpl; [|discriminate].
    repeat (destruct (summarize _); simpl; [|discriminate]).
    intros H; injection H as <-. reflexivity.
Qed.

(** ** The theorems at the concrete runs *)

Lemma terminal_consistency_witness :
  run_sample tight_funding steady_price_params
  = Ok (tight_funding_outputs, tight_funding_tape)
  /\ ran_out_of_cash tight_funding_outputs = true
  /\ exists k : nat,
       failure_month tight_funding_outputs = Some (Z.of_nat k)
       /\ months tight_funding_outputs = map Z.of_nat (seq 0 (S k))
       /\ nth_error (months tight_funding_outputs) k = Some (Z.of_nat k)
       /\ Forall (eq (S k)) (per_month_lengths tight_funding_outputs).
Proof.
  assert (H : run_sample tight_funding steady_price_params
              = Ok (tight_funding_outputs, tight_funding_tape))
    by (vm_compute; reflexivity).
  split; [exact H|]. split; [reflexivity|].
  exact (terminal_consistency (NR := sample_random) tight_funding
           steady_price_params (Some 0) [] tight_funding_outputs
           tight_funding_tape H eq_refl).
Defined.

Lemma clamping_witness :
  run_sample eight_months steady_price_params
  = Ok (eight_months_outputs, eight_months_tape)
  /\ Forall (fun a => in_range 0.8 1 a = true)
       (detection_accuracy eight_months_outputs)
  /\ Forall (fun u => in_range 0.9 1 u = true)
       (system_uptime eight_months_outputs)
  /\ detection_accuracy eight_months_outputs
     = [1; 0.97; 0.97; 0.97; 0.97; 0.97; 0.97; 0.97]%float
  /\ system_uptime eight_months_outputs
     = [0.9; 0.995; 0.995; 0.995; 0.995; 0.995; 0.995; 0.995]%float.
Proof.
  assert (H : run_sample eight_months steady_price_params
              = Ok (eight_months_outputs, eight_months_tape))
    by (vm_compute; reflexivity).
  destruct (clamping (NR := sample_random) eight_months steady_price_params
              (Some 0) [] eight_months_outputs eight_months_tape H)
    as (Ha & Hu & _).
  split; [exact H|]. split; [exact Ha|]. split; [exact Hu|].
  split; reflexivity.
Defined.

Lemma zero_growth_amended_witness :
  run_sample zero_growth steady_price_params
  = Ok (zero_growth_outputs, zero_growth_tape)
  /\ team_growth_rate zero_growth = 0%float
  /\ cables_deployed zero_growth_outputs
     = map (fun _ => 3) (months zero_growth_outputs)
  /\ team_size_total zero_growth_outputs
     = map (fun m => if m <? 6 then 5 else 0) (months zero_growth_outputs).
Proof.
  assert (H : run_sample zero_growth steady_price_params
              = Ok (zero_growth_outputs, zero_growth_tape))
    by (vm_compute; reflexivity).
  destruct (zero_growth_amended (NR := sample_random) zero_growth
              steady_price_params (Some 0) [] zero_growth_outputs
              zero_growth_tape eq_refl eq_refl eq_refl H) as [Hcables Hteam].
  split; [exact H|]. split; [reflexivity|]. split; [exact Hcables|].
  exact (Hteam eq_refl).
Defined.

Lemma month_0_no_revenue_witness :
  1 <= simulation_months eight_months
  /\ run_sample eight_months steady_price_params
     = Ok (eight_months_outputs, eight_months_tape)
  /\ finite_pricing eight_months
  /\ nth_error (total_customers eight_months_outputs) 0 = Some 0
  /\ nth_error (gross_margin eight_months_outputs) 0 = Some (-1)%float
  /\ exists revenue,
       nth_error (revenue_monthly eight_months_outputs) 0 = Some revenue
       /\ (revenue = 0%float \/ revenue = nan)
       /\ (finite_pricing eight_months -> revenue = 0%float).
Proof.
  assert (Hh : 1 <= simulation_months eight_months)
    by (vm_compute; discriminate).
  assert (H : run_sample eight_months steady_price_params
              = Ok (eight_months_outputs, eight_months_tape))
    by (vm_compute; reflexivity).
  assert (Hfin : finite_pricing eight_months)
    by (repeat split; vm_compute; reflexivity).
  split; [exact Hh|]. split; [exact H|]. split; [exact Hfin|].
  exact (proj2 (proj2
           (month_0_no_revenue (NR := sample_random) eight_months
              steady_price_params (Some 0) [] eight_months_outputs
              eight_months_tape Hh H))).
Defined.

Lemma gross_margin_guarded_witness :
  run_sample eight_months steady_price_params
  = Ok (eight_months_outputs, eight_months_tape)
  /\ nth_error (revenue_monthly eight_months_outputs) 4 = Some 35000%float
  /\ nth_error (costs_monthly eight_months_outputs) 4
     = Some 186916.66666666669%float
  /\ nth_error (gross_margin eight_months_outputs) 4
     = Some ((35000 - 186916.66666666669) / 35000)%float
  /\ nth_error (gross_margin eight_months_outputs) 0 = Some (-1)%float.
Proof.
  assert (H : run_sample eight_months steady_price_params
              = Ok (eight_months_outputs, eight_months_tape))
    by (vm_compute; reflexivity).
  pose proof (gross_margin_guarded (NR := sample_random) eight_months
                steady_price_params (Some 0) [] eight_months_outputs
                eight_months_tape H) as (_ & _ & _ & Hrows).
  split; [exact H|]. split; [reflexivity|]. split; [reflexivity|]. split.
  - exact (proj1 (Hrows 4%nat 35000%float 186916.66666666669%float
                    eq_refl eq_refl) eq_refl).
  - exact (proj2 (proj2 (Hrows 0%nat 0%float 191083.33333333334%float
                           eq_refl eq_refl)) eq_refl).
Defined.

Lemma series_b_persists_witness :
  series_b_qualified (outputs qualified_state) = true
  /\ two_more_months = Ok (two_more_months_state, [])
  /\ cables_deployed (outputs two_more_months_state) = [3; 3]
  /\ series_b_qualified (outputs two_more_months_state) = true.
Proof.
  assert (H : two_more_months = Ok (two_more_months_state, []))
    by (vm_compute; reflexivity).
  split; [reflexivity|]. split; [exact H|]. split; [reflexivity|].
  exact (series_b_persists (NR := sample_random) zero_growth
           steady_price_params 2 1 qualified_state [] two_more_months_state []
           eq_refl H).
Defined.

Lemma lead_time_schedule_witness :
  planned_twice
  = Ok (([(8, 212500%float); (8, 325000%float)], 7462500%float), [])
  /\ exists new,
       [(8, 212500%float); (8, 325000%float)] = [] ++ new
       /\ List.length new = 2%nat
       /\ Forall
            (fun e =>
               exists d ga gb lead,
                 normal (NR := sample_random) 2.0 0.5 ga = Ok (d, gb)
                 /\ Py.int d = Ok lead
                 /\ fst e = 6 + lead
                 /\ (6 <= fst e <-> 0 <= lead))
            new.
Proof.
  assert (H : planned_twice
              = Ok (([(8, 212500%float); (8, 325000%float)], 7462500%float), []))
    by (vm_compute; reflexivity).
  split; [exact H|].
  exact (lead_time_schedule (NR := sample_random) eight_months
           steady_price_params 2 6 [] 8000000 [0.5; -1; 1; 2]%float _ _ _ H).
Defined.

Lemma nonpositive_horizon_accepted_witness :
  simulation_months negative_horizon <= 0
  /\ Py.float_of_int (initial_cables negative_horizon) = Ok 3%float
  /\ exists g',
       run_monte_carlo (NR := sample_random) negative_horizon default_params 2 []
       = Ok (repeat empty_outputs 2, g').
Proof.
  assert (Hh : simulation_months negative_horizon <= 0)
    by (vm_compute; discriminate).
  assert (Hf : Py.float_of_int (initial_cables negative_horizon) = Ok 3%float)
    by reflexivity.
  split; [exact Hh|]. split; [exact Hf|].
  apply (nonpositive_horizon_accepted (NR := sample_random) negative_horizon
           default_params 2 [] 3%float Hh Hf).
  intros i Hi.
  assert (Hi' : i = 0 \/ i = 1) by lia.
  destruct Hi' as [-> | ->]; do 3 eexists; split; vm_compute; reflexivity.
Defined.

Lemma avg_months_is_mean_witness :
  outcome varied_run = Ok varied_batch
  /\ varied_batch <> []
  /\ profitable_months_total varied_batch = 34
  /\ profitable_count varied_batch = 3
  /\ avg_months_to_profit varied_batch = Ok (Some 11.333333333333334%float)
  /\ exists analysis,
       analyze_results (NS := ShortArrays.stats) varied_batch = Ok analysis
       /\ avg_months_to_profitability (success_metrics analysis)
          = Some 11.333333333333334%float.
Proof.
  assert (Hrun : outcome varied_run = Ok varied_batch)
    by (vm_compute; reflexivity).
  assert (Hne : varied_batch <> []) by discriminate.
  assert (Hrec : forall r, In r varied_batch ->
                   profitability_achieved r = true ->
                   profitability_month r <> None).
  { destruct varied_run as [[results g']|e] eqn:E; [|discriminate Hrun].
    injection Hrun as <-.
    exact (run_monte_carlo_profitability_recorded (NR := varied_random)
             two_years steady_price_params 3 [] results g' E). }
  destruct (avg_months_is_mean (NS := ShortArrays.stats) varied_batch Hne Hrec)
    as [Havg Hsm].
  assert (Hmean : avg_months_to_profit varied_batch
                  = Ok (Some 11.333333333333334%float))
    by (vm_compute; reflexivity).
  split; [exact Hrun|]. split; [exact Hne|].
  split; [vm_compute; reflexivity|]. split; [vm_compute; reflexivity|].
  split; [exact Hmean|].
  destruct (analyze_results (NS := ShortArrays.stats) varied_batch)
    as [analysis|e] eqn:Ea; [|vm_compute in Ea; discriminate Ea].
  exists analysis. split; [reflexivity|].
  specialize (Hsm analysis eq_refl). rewrite Hmean in Hsm.
  injection Hsm as Hsm. symmetry. exact Hsm.
Defined.

(** ** Where the four statements fail *)

(** C1, as stated, fails: with a port price of -35000 the driver returns
    two six-month trajectories, the later months with negative revenue. *)
Lemma fails_fast_refuted :
  ~ fails_fast (NR := sample_random) negative_price steady_price_params.
Proof.
  intros Hclaim.
  assert (Hinv : invalid_configuration negative_price)
    by (right; left; reflexivity).
  destruct (Hclaim Hinv 2 []) as [e He].
  vm_compute in He. discriminate He.
Qed.

(** What the driver returns on that configuration. *)
Example negative_price_runs :
  match run_monte_carlo (NR := sample_random) negative_price
          steady_price_params 2 [] with
  | Ok (results, _) =>
      map months results = [[0; 1; 2; 3; 4; 5]; [0; 1; 2; 3; 4; 5]]
      /\ map revenue_monthly results
         = [[0; 0; 0; 0; -35000; -70000]; [0; 0; 0; 0; -35000; -70000]]%float
  | Raise _ => False
  end.
Proof. vm_compute. split; reflexivity. Qed.

(** C2, as stated, fails: the draw is -1.75, which truncates to -1, and
    the entry enqueued at month 6 is scheduled for month 5. *)
Lemma lead_time_monotonic_refuted :
  ~ lead_time_monotonic (NR := sample_random) eight_months wide_lead_time_params.
Proof.
  intros Hclaim.
  specialize (Hclaim 1%nat 6 [] 8000000%float [-2.5; 0]%float
                [(5, 250000%float)] 7750000%float []).
  assert (Hrun : plan_deployments (NR := sample_random) eight_months
                   wide_lead_time_params 1 6 [] 8000000 [-2.5; 0]%float
                 = Ok (([(5, 250000%float)], 7750000%float), []))
    by (vm_compute; reflexivity).
  apply Hclaim in Hrun. simpl in Hrun.
  inversion Hrun as [|e l Hle _]. simpl in Hle. lia.
Qed.

(** C5, as stated, fails: the growth rate is a multiplier, so a rate of
    zero empties the team at month 6; the recorded sizes are
    5, 5, 5, 5, 5, 5, 0, 0. *)
Lemma zero_growth_constant_refuted :
  ~ zero_growth_constant (NR := sample_random) zero_growth steady_price_params
      (Some 0) [].
Proof.
  intros Hclaim.
  assert (H : run_sample zero_growth steady_price_params
              = Ok (zero_growth_outputs, zero_growth_tape))
    by (vm_compute; reflexivity).
  destruct (Hclaim eq_refl eq_refl eq_refl eq_refl _ _ H) as [_ Hteam].
  change (team_size_total zero_growth_outputs) with [5; 5; 5; 5; 5; 5; 0; 0]
    in Hteam.
  repeat match goal with
         | H : Forall _ (_ :: _) |- _ => inversion H; clear H; subst
         end.
  discriminate.
Qed.

(** With a growth multiplier of one the team of the same business keeps
    its initial size. *)
Example unit_growth_multiplier :
  team_size_total
    (outputs_of (run_sample (inputs_with 10000000 35000 3 3 3 1 8)
                   steady_price_params))
  = [5; 5; 5; 5; 5; 5; 5; 5].
Proof. vm_compute. reflexivity. Qed.

(** C10, as stated, fails: with an infinite port price the term
    [inf * 0 * 1.0] of the revenue sum is a NaN, and the revenue recorded
    at month 0 is NaN, not 0. *)
Lemma month_0_revenue_zero_refuted :
  ~ month_0_revenue_zero (NR := sample_random) infinite_price
      steady_price_params (Some 0) [].
Proof.
  intros Hclaim.
  assert (Hh : 1 <= simulation_months infinite_price)
    by (vm_compute; discriminate).
  assert (H : run_sample infinite_price steady_price_params
              = Ok (infinite_price_outputs, infinite_price_tape))
    by (vm_compute; reflexivity).
  destruct (Hclaim Hh _ _ H) as [Hrev _].
  vm_compute in Hrev. discriminate Hrev.
Qed.

(** * Further properties of the engine *)

Section MoreEngineFacts.

Context {NR : NumpyRandom} {FP : FloatPow}.
Variable inputs : SimulationInputs.
Variable params : StochasticParameters.

(** ** One month, in full *)

Lemma month_body_trace month st g st' broke g' :
  month_body inputs params month st g = Ok ((st', broke), g') ->
  exists mt gm,
    (outputs st', broke) = month_outcome month (outputs st) mt gm
    /\ cash st' = m_cash mt
    /\ st_cables_deployed st' = m_cables_deployed mt
    /\ customers st' = m_customers mt
    /\ team_size st' = m_team_size mt
    /\ st_regional_datacenters st' = m_regional_datacenters mt
    /\ m_regional_datacenters mt
       = datacenters_after inputs (m_cables_deployed mt) (st_regional_datacenters st)
    /\ grow_team inputs month (team_size st) = Ok (m_team_size mt)
    /\ (let s := settle_deployments month (st_cables_deployed st)
                   (deployment_queue st) in
        m_cables_deployed mt = fst s
        /\ exists cash1 gb,
             plan_deployments inputs params
               (Z.to_nat (target_cables inputs month - fst s
                          - Z.of_nat (List.length (snd s))))
               month (snd s) (cash st) g
             = Ok ((deployment_queue st', cash1), gb))
    /\ (exists newc ga gb gc,
          get_customer_acquisition params month (m_cables_deployed mt)
            (customers st) ga = Ok (newc, gb)
          /\ apply_churn params (add_customers (customers st) newc) gb
             = Ok (m_customers mt, gc))
    /\ (exists accuracy ga gb,
          calculate_detections (m_cables_deployed mt) accuracy ga
          = Ok (m_detections mt, gb))
    /\ (exists team_cost ga gb,
          get_team_costs params (team_size st) ga
          = Ok ((team_cost, m_team_breakdown mt), gb))
    /\ breakdown_total (m_costs_breakdown mt) = Some (m_total_costs mt)
    /\ gross_margin_of (m_revenue mt) (m_total_costs mt) = Ok gm.
Proof.
  unfold month_body.
  destruct (settle_deployments month (st_cables_deployed st)
              (deployment_queue st)) as [cd q0] eqn:Hsettle.
  intros H.
  apply bind_ok in H as ([q1 cash1] & g1 & Hplan & H).
  assert (Hdc : exists cash2,
             match architecture_option inputs with
             | OPTION_B_REGIONAL_DC =>
                 if (cd >=? 8) && (st_regional_datacenters st =? 0)
                 then (1, (cash1 - 2000000)%float)
                 else (st_regional_datacenters st, cash1)
             | _ => (st_regional_datacenters st, cash1)
             end = (datacenters_after inputs cd (st_regional_datacenters st), cash2)).
  { unfold datacenters_after.
    destruct (architecture_option inputs); eauto.
    destruct ((cd >=? 8) && (st_regional_datacenters st =? 0)); eauto. }
  destruct Hdc as [cash2 Hdc]. rewrite Hdc in H.
  apply bind_ok in H as (newc & g2 & Hacq & H).
  apply bind_ok in H as (cust & g3 & Hchurn & H).
  apply bind_ok in H as (rev & g4 & Hrev & H).
  apply lift_ok in Hrev as [Hrev ->].
  apply bind_ok in H as ([capex infra] & g5 & Harch & H).
  apply bind_ok in H as ([team_cost team_breakdown] & g6 & Hteam & H).
  apply bind_ok in H as (support & g7 & Hsup & H).
  apply bind_ok in H as (f_infra & g8 & Hfi & H).
  apply bind_ok in H as (f_sm & g9 & Hfs & H).
  apply bind_ok in H as (x & g10 & Hx & H).
  apply bind_ok in H as (y & g11 & Hy & H).
  apply bind_ok in H as (det & g12 & Hdet & H).
  apply bind_ok in H as (ts & g13 & Hts & H).
  apply lift_ok in Hts as [Hts ->].
  apply bind_ok in H as (gm & g14 & Hgm & H).
  apply lift_ok in Hgm as [Hgm ->].
  apply ret_ok in H as [H ->].
  injection H as -> ->.
  eexists {| m_cables_deployed := cd; m_customers := cust;
             m_detection_accuracy := clamp_metric 0.8 x;
             m_detections := det;
             m_regional_datacenters :=
               datacenters_after inputs cd (st_regional_datacenters st);
             m_team_size := ts; m_team_breakdown := team_breakdown;
             m_revenue := rev |}, gm.
  unfold month_outcome; simpl.
  repeat split; try reflexivity; try eassumption; eauto 10.
Qed.

(** ** Deployment settlement and planning *)

Lemma list_pop_app {A : Type} (pre : list A) (a : A) (rest : list A) :
  list_pop (List.length pre) (pre ++ a :: rest) = pre ++ rest.
Proof. induction pre as [|b pre IH]; simpl; [reflexivity | now rewrite IH]. Qed.

Lemma pop_due_indices month (queue pre : list (Z * float)) :
  fold_right (fun i q => list_pop i q) (pre ++ queue)
    (due_indices month (List.length pre) queue)
  = pre ++ filter (fun e => negb (month >=? fst e)) queue.
Proof.
  revert pre. induction queue as [|[deploy_month capex] queue IH]; intros pre.
  - reflexivity.
  - specialize (IH (pre ++ [(deploy_month, capex)])).
    rewrite length_app, Nat.add_1_r, <- app_assoc in IH. simpl in IH.
    simpl. destruct (month >=? deploy_month); simpl.
    + rewrite IH, <- app_assoc. simpl. apply list_pop_app.
    + rewrite IH, <- app_assoc. reflexivity.
Qed.

Lemma length_due_indices month i (queue : list (Z * float)) :
  List.length (due_indices month i queue)
  = List.length (filter (fun e => month >=? fst e) queue).
Proof.
  revert i. induction queue as [|[deploy_month capex] queue IH]; intros i.
  - reflexivity.
  - simpl. destruct (month >=? deploy_month); simpl; now rewrite IH.
Qed.

Lemma settle_deployments_spec month cables_deployed queue :
  settle_deployments month cables_deployed queue
  = (cables_deployed
     + Z.of_nat (List.length (filter (fun e => month >=? fst e) queue)),
     filter (fun e => negb (month >=? fst e)) queue).
Proof.
  unfold settle_deployments. f_equal.
  - now rewrite length_due_indices.
  - rewrite <- fold_left_rev_right, rev_involutive.
    exact (pop_due_indices month queue []).
Qed.

Lemma length_filter_split {A : Type} (p : A -> bool) (l : list A) :
  (List.length (filter p l) + List.length (filter (fun a => negb (p a)) l)
   = List.length l)%nat.
Proof.
  induction l as [|a l IH]; simpl; [reflexivity|].
  destruct (p a); simpl; lia.
Qed.

(** X1 (settlement): popping the due indices from the highest down
    removes exactly the entries whose scheduled month has been reached
    and keeps the others in order; the deployed count grows by the number
    removed, and every entry left is scheduled strictly later. *)
Theorem settlement_removes_due month cables_deployed queue :
  let due := fun e : Z * float => month >=? fst e in
  settle_deployments month cables_deployed queue
  = (cables_deployed + Z.of_nat (List.length (filter due queue)),
     filter (fun e => negb (due e)) queue)
  /\ Forall (fun e => month < fst e)
       (snd (settle_deployments month cables_deployed queue))
  /\ fst (settle_deployments month cables_deployed queue)
     + Z.of_nat (List.length (snd (settle_deployments month cables_deployed queue)))
     = cables_deployed + Z.of_nat (List.length queue).
Proof.
  intros due. rewrite settle_deployments_spec. simpl. repeat split.
  - apply Forall_forall. intros e He. apply filter_In in He as [_ He].
    apply negb_true_iff in He. lia.
  - pose proof (length_filter_split (fun e : Z * float => month >=? fst e) queue).
    lia.
Qed.

Lemma plan_deployments_inv n month queue cash g q' cash' g' :
  plan_deployments inputs params n month queue cash g = Ok ((q', cash'), g') ->
  exists new,
    q' = queue ++ new
    /\ List.length new = n
    /\ cash' = fold_left (fun c e => (c - snd e)%float) new cash.
Proof.
  revert queue cash g.
  induction n as [|n IH]; intros queue cash g H; simpl in H.
  - apply ret_ok in H as [H _]. injection H as -> ->.
    exists []. rewrite app_nil_r. auto.
  - apply bind_ok in H as (d & g1 & Hd & H).
    apply bind_ok in H as (lead & g2 & Hlead & H).
    apply bind_ok in H as ([capex opex] & g3 & _ & H).
    apply IH in H as (new & -> & Hlen & ->).
    exists ((month + lead, capex) :: new).
    rewrite <- app_assoc. simpl. auto.
Qed.

(** X2 (capex at commitment): the planning loop leaves the entries
    already queued in place, appends its [n] new entries after them, and
    has deducted from cash the capital cost carried by each new entry, in
    order, by the time it returns. *)
Theorem planning_pays_upfront n month queue cash g q' cash' g' :
  plan_deployments inputs params n month queue cash g = Ok ((q', cash'), g') ->
  firstn (List.length queue) q' = queue
  /\ List.length q' = (List.length queue + n)%nat
  /\ cash' = fold_left (fun c e => (c - snd e)%float)
               (skipn (List.length queue) q') cash.
Proof.
  intros H. apply plan_deployments_inv in H as (new & -> & Hlen & ->).
  rewrite firstn_app, Nat.sub_diag, firstn_all, length_app. simpl.
  rewrite app_nil_r, skipn_app, Nat.sub_diag, skipn_all. simpl.
  auto.
Qed.

Lemma month_pipeline month st g st' broke g' :
  month_body inputs params month st g = Ok ((st', broke), g') ->
  st_cables_deployed st <= st_cables_deployed st'
  /\ st_cables_deployed st' + Z.of_nat (List.length (deployment_queue st'))
     = Z.max (st_cables_deployed st
              + Z.of_nat (List.length (deployment_queue st)))
             (target_cables inputs month).
Proof.
  intros H.
  apply month_body_trace in H
    as (mt & gm & _ & _ & Ec & _ & _ & _ & _ & _ & Hplan & _).
  rewrite settle_deployments_spec in Hplan. simpl in Hplan.
  destruct Hplan as (Hcd & cash1 & gb & Hplan).
  apply plan_deployments_inv in Hplan as (new & Hq & Hlen & _).
  pose proof (length_filter_split (fun e : Z * float => month >=? fst e)
                (deployment_queue st)) as Hsplit.
  rewrite Ec, Hcd, Hq, length_app, Hlen. split; lia.
Qed.

(** X3 (deployment pipeline): over one month the deployed count never
    decreases, and deployed plus queued becomes the larger of what it was
    and the month's target: the shortfall is enqueued in full, nothing is
    ever cancelled. *)
Theorem pipeline_tracks_target month st g st' broke g' :
  month_body inputs params month st g = Ok ((st', broke), g') ->
  st_cables_deployed st <= st_cables_deployed st'
  /\ st_cables_deployed st' + Z.of_nat (List.length (deployment_queue st'))
     = Z.max (st_cables_deployed st
              + Z.of_nat (List.length (deployment_queue st)))
             (target_cables inputs month).
Proof. apply month_pipeline. Qed.

(** ** The recorded sequences, continued *)

Lemma month_outcome_more month o mt gm o' broke :
  (o', broke) = month_outcome month o mt gm ->
  broke = PrimFloat.ltb (m_cash mt) 0
  /\ customers_by_segment o' = customers_by_segment o ++ [m_customers mt]
  /\ detections_per_day o' = detections_per_day o ++ [m_detections mt]
  /\ regional_datacenters o'
     = regional_datacenters o ++ [m_regional_datacenters mt]
  /\ team_by_role o' = team_by_role o ++ [m_team_breakdown mt]
  /\ costs_breakdown o' = costs_breakdown o ++ [m_costs_breakdown mt]
  /\ cash_remaining o' = cash_remaining o ++ [m_cash mt]
  /\ arr o' = arr o ++ [(m_revenue mt * 12)%float]
  /\ profitability_achieved o'
     = profitability_achieved o
       || profitable_row (m_revenue mt, m_total_costs mt, gm)
  /\ profitability_month o'
     = (if profitability_achieved o then profitability_month o
        else if profitable_row (m_revenue mt, m_total_costs mt, gm)
             then Some month else profitability_month o).
Proof.
  unfold month_outcome, check_series_b, check_profitability, mark_failure,
    profitable_row.
  intros H; injection H as -> ->.
  destruct (PrimFloat.ltb (m_cash mt) 0), (profitability_achieved o) eqn:Ep;
    simpl;
    repeat match goal with
           | |- context [if ?c then _ else _] => destruct c eqn:?
           end;
    simpl; rewrite ?Ep; simpl; auto 12.
Qed.

Lemma nondecreasing_snoc (l : list Z) (x : Z) :
  nondecreasing l -> Forall (fun a => a <= x) l -> nondecreasing (l ++ [x]).
Proof.
  intros Hl Hall i j a b Hij Hi Hj.
  destruct (Nat.lt_ge_cases j (List.length l)) as [Hjl | Hjl].
  - rewrite nth_error_app1 in Hi, Hj by lia. eauto.
  - rewrite nth_error_app2 in Hj by lia.
    assert (Hb : b = x).
    { destruct (j - List.length l)%nat as [|[|k]]; simpl in Hj; congruence. }
    subst b.
    destruct (Nat.lt_ge_cases i (List.length l)) as [Hil | Hil].
    + rewrite nth_error_app1 in Hi by lia.
      apply nth_error_In in Hi.
      exact (proj1 (Forall_forall _ _) Hall a Hi).
    + rewrite nth_error_app2 in Hi by lia.
      destruct (i - List.length l)%nat as [|[|k]]; simpl in Hi;
        try discriminate.
      injection Hi as <-. lia.
Qed.

Lemma target_cables_le_max month : target_cables inputs month <= max_target inputs.
Proof.
  unfold target_cables, max_target.
  destruct (month >=? 18), (month >=? 12), (month >=? 6); lia.
Qed.

Lemma cables_upto_step m st st' broke g g' :
  cables_upto inputs st ->
  month_body inputs params m st g = Ok ((st', broke), g') ->
  cables_upto inputs st'.
Proof.
  intros (Hinit & Hmax & Hsorted & Hall) H.
  pose proof (month_pipeline _ _ _ _ _ _ H) as [Hmono Hpipe].
  pose proof (target_cables_le_max m) as Htarget.
  apply month_body_trace in H as (mt & gm & Hout & _ & Ec & _).
  apply month_outcome_series in Hout as (Ecs & _).
  unfold cables_upto. rewrite Ecs, <- Ec.
  repeat split; try lia.
  - apply nondecreasing_snoc; auto.
    eapply Forall_impl; [|exact Hall]. simpl. intros; lia.
  - apply Forall_app. split.
    + eapply Forall_impl; [|exact Hall]. simpl. intros; lia.
    + constructor; auto. lia.
Qed.

(** X4 (deployed cables): the recorded deployed-cable count never
    decreases from one month to the next, starts no lower than the
    initial count and never exceeds the largest of the initial count and
    the three targets. *)
Theorem cables_monotone_bounded seed_arg g o g' :
  run_single_simulation inputs params seed_arg g = Ok (o, g') ->
  nondecreasing (cables_deployed o)
  /\ Forall (fun c => initial_cables inputs <= c <= max_target inputs)
       (cables_deployed o).
Proof.
  intros H.
  apply run_single_simulation_inv in H as (g0 & st0 & g1 & st' & Hi & Hl & ->).
  apply initial_state_inv in Hi as (Hc & _ & _ & Hq & Ho).
  assert (Hinv : cables_upto inputs st').
  { apply (month_loop_rule inputs params (fun _ st => cables_upto inputs st)
             (cables_upto inputs)) with (5 := Hl); eauto using cables_upto_step.
    unfold cables_upto, max_target. rewrite Hc, Hq, Ho. simpl.
    repeat split; try lia; try constructor.
    intros i j a b _ Hi. destruct i; discriminate. }
  destruct Hinv as (_ & Hmax & Hsorted & Hall).
  split; auto.
  eapply Forall_impl; [|exact Hall]. simpl. intros; lia.
Qed.

(** ** The customer ledger *)

Lemma dict_set_fresh {V : Type} (d : dict V) (k : string) (v : V) :
  ~ In k (map fst d) -> dict_set d k v = d ++ [(k, v)].
Proof.
  induction d as [|[k' v'] d IH]; simpl; intros Hk; [reflexivity|].
  destruct (String.eqb_spec k k') as [-> | Hne].
  - exfalso. auto.
  - rewrite IH; auto.
Qed.

Lemma dict_set_keys {V : Type} (d : dict V) (k : string) (v : V) :
  In k (map fst d) -> map fst (dict_set d k v) = map fst d.
Proof.
  induction d as [|[k' v'] d IH]; simpl; intros Hk; [contradiction|].
  destruct (String.eqb_spec k k') as [-> | Hne]; simpl; [reflexivity|].
  rewrite IH; auto. destruct Hk; congruence.
Qed.

Lemma dict_set_values {V : Type} (P : V -> Prop) (d : dict V) k v :
  Forall P (map snd d) -> P v -> Forall P (map snd (dict_set d k v)).
Proof.
  induction d as [|[k' v'] d IH]; simpl; intros Hd Hv.
  - constructor; auto.
  - inversion Hd; subst.
    destruct (String.eqb k k'); simpl; constructor; auto.
Qed.

Lemma dict_get_value {V : Type} (P : V -> Prop) (d : dict V) k v :
  Forall P (map snd d) -> dict_get d k = Some v -> P v.
Proof.
  induction d as [|[k' v'] d IH]; simpl; intros Hd Hg; [discriminate|].
  inversion Hd; subst.
  destruct (String.eqb k k'); [injection Hg as <-; auto | auto].
Qed.

Lemma ledger_ok_set (l : dict Z) (s : CustomerSegment) (c : Z) :
  ledger_ok l -> 0 <= c -> ledger_ok (dict_set l (segment_value s) c).
Proof.
  intros [Hk Hv] Hc. split.
  - rewrite dict_set_keys; auto.
    rewrite Hk. destruct s; simpl; auto 6.
  - apply dict_set_values; auto.
Qed.

Lemma ledger_ok_zero : ledger_ok zero_ledger.
Proof.
  split; [reflexivity|]. simpl. repeat (constructor; [lia|]). constructor.
Qed.

Lemma acquisition_ledger_ok month cables current g newc g' :
  get_customer_acquisition params month cables current g = Ok (newc, g') ->
  ledger_ok newc.
Proof.
  unfold get_customer_acquisition. intros H.
  apply bind_ok in H as (c1 & g1 & _ & H).
  apply bind_ok in H as (c2 & g2 & _ & H).
  apply bind_ok in H as (c3 & g3 & _ & H).
  apply bind_ok in H as (c4 & g4 & _ & H).
  apply bind_ok in H as (c5 & g5 & _ & H).
  apply bind_ok in H as (se & g6 & _ & H).
  apply (for_each_rule ledger_ok) in H; auto using ledger_ok_zero.
  clear. intros b s ga b' gb Hb H.
  apply bind_ok in H as (leads & gc & _ & H).
  apply bind_ok in H as (n & gd & _ & H).
  apply bind_ok in H as (k & ge & Hk & H).
  apply ret_ok in H as [-> _].
  apply np_random_binomial_range in Hk.
  apply ledger_ok_set; auto. lia.
Qed.

Lemma add_customers_ledger_ok (customers new_customers : dict Z) :
  ledger_ok customers -> ledger_ok new_customers ->
  ledger_ok (add_customers customers new_customers).
Proof.
  unfold add_customers. intros Hc [Hk Hv].
  assert (Hkeys : Forall (fun k => In k segment_keys) (map fst new_customers))
    by (rewrite Hk; apply Forall_forall; auto).
  clear Hk. revert customers Hc.
  induction new_customers as [|[k c] rest IH]; intros customers Hc; simpl;
    [exact Hc|].
  inversion Hkeys; subst. inversion Hv; subst.
  apply IH; auto.
  destruct Hc as [Hck Hcv]. split.
  - rewrite dict_set_keys; auto. now rewrite Hck.
  - apply dict_set_values; auto.
    simpl in *.
    destruct (dict_get customers k) as [c0|] eqn:Eg; [|lia].
    pose proof (dict_get_value (fun c => 0 <= c) _ _ _ Hcv Eg) as Hc0.
    simpl in Hc0. lia.
Qed.

Lemma churn_at_inv rate customers acc g c' g' :
  for_each customers acc
    (fun churned_customers '(segment, count) =>
       bind (binomial count rate) (fun churned =>
       ret (dict_set churned_customers segment (Z.max 0 (count - churned)))))
    g = Ok (c', g') ->
  NoDup (map fst acc ++ map fst customers) ->
  exists rest,
    c' = acc ++ rest
    /\ map fst rest = map fst customers
    /\ Forall2 (fun old new => 0 <= snd new <= snd old) customers rest.
Proof.
  revert acc g.
  induction customers as [|[segment count] customers IH]; intros acc g H Hnd;
    simpl in H.
  - apply ret_ok in H as [-> _]. exists []. rewrite app_nil_r. auto.
  - apply bind_ok in H as (acc' & g1 & Hb & H).
    apply bind_ok in Hb as (churned & g2 & Hk & Hb).
    apply ret_ok in Hb as [-> ->].
    apply np_random_binomial_range in Hk.
    simpl in Hnd.
    assert (Hfresh : ~ In segment (map fst acc)).
    { intros Hin. apply NoDup_remove_2 in Hnd. apply Hnd.
      apply in_or_app. auto. }
    rewrite (dict_set_fresh _ _ _ Hfresh) in H.
    apply IH in H as (rest & -> & Hkeys & Hall).
    + exists ((segment, Z.max 0 (count - churned)) :: rest).
      rewrite <- app_assoc. simpl. repeat split; auto.
      * now rewrite Hkeys.
      * constructor; auto. simpl. lia.
    + rewrite map_app, <- app_assoc. exact Hnd.
Qed.

(** X5 (churn): on a ledger, a call of [apply_churn] that returns keeps
    the segments and their order, and leaves in each segment a count
    between 0 and the count it had: churn never adds a customer. *)
Theorem churn_never_adds customers g churned g' :
  NoDup (map fst customers) ->
  apply_churn params customers g = Ok (churned, g') ->
  map fst churned = map fst customers
  /\ Forall2 (fun old new => 0 <= snd new <= snd old) customers churned.
Proof.
  intros Hnd H. unfold apply_churn in H.
  apply bind_ok in H as (x & g1 & _ & H).
  apply churn_at_inv in H as (rest & -> & Hk & Hall); auto.
Qed.

Lemma churn_ledger_ok customers g churned g' :
  ledger_ok customers ->
  apply_churn params customers g = Ok (churned, g') ->
  ledger_ok churned.
Proof.
  intros [Hk Hv] H. unfold apply_churn in H.
  apply bind_ok in H as (x & g1 & _ & H).
  apply churn_at_inv in H as (rest & -> & Hkeys & Hall).
  - split; [simpl; congruence|]. simpl.
    clear - Hall. induction Hall; simpl; constructor; auto. lia.
  - simpl. rewrite Hk. repeat constructor; simpl; intuition discriminate.
Qed.

Lemma sum_Z_nonneg (l : list Z) : Forall (fun c => 0 <= c) l -> 0 <= sum_Z l.
Proof.
  unfold sum_Z. intros Hl.
  assert (H : forall acc, 0 <= acc -> 0 <= fold_left Z.add l acc).
  { induction Hl; simpl; intros acc Hacc; [exact Hacc|]. apply IHHl. lia. }
  apply H. lia.
Qed.

Lemma ledgers_upto_step m st st' broke g g' :
  ledgers_upto st ->
  month_body inputs params m st g = Ok ((st', broke), g') ->
  ledgers_upto st'.
Proof.
  intros (Hc & Hall & Htot) H.
  apply month_body_trace in H
    as (mt & gm & Hout & _ & _ & Ecust & _ & _ & _ & _ & _ & Hdemand & _).
  destruct Hdemand as (newc & ga & gb & gc & Hacq & Hchurn).
  apply acquisition_ledger_ok in Hacq.
  apply churn_ledger_ok in Hchurn; auto using add_customers_ledger_ok.
  pose proof (month_outcome_series _ _ _ _ _ _ Hout) as (_ & Et & _).
  apply month_outcome_more in Hout as (_ & Ecs & _).
  unfold ledgers_upto. rewrite Ecust, Ecs, Et, Htot, map_app.
  split; [exact Hchurn|]. split; [|reflexivity].
  apply Forall_app. auto.
Qed.

(** X6 (customer ledger): every ledger a trial records holds exactly the
    five segments, in enumeration order, each with a non-negative count,
    and the recorded customer total of a month is the sum of its ledger,
    hence non-negative as well. *)
Theorem ledgers_well_formed seed_arg g o g' :
  run_single_simulation inputs params seed_arg g = Ok (o, g') ->
  Forall (fun l => map fst l = segment_keys
                   /\ Forall (fun c => 0 <= c) (map snd l))
    (customers_by_segment o)
  /\ total_customers o
     = map (fun l => sum_Z (dict_values l)) (customers_by_segment o)
  /\ Forall (fun t => 0 <= t) (total_customers o).
Proof.
  intros H.
  apply run_single_simulation_inv in H as (g0 & st0 & g1 & st' & Hi & Hl & ->).
  apply initial_state_inv in Hi as (_ & Hcust & _ & _ & Ho).
  assert (Hinv : ledgers_upto st').
  { apply (month_loop_rule inputs params (fun _ st => ledgers_upto st)
             ledgers_upto) with (5 := Hl); eauto using ledgers_upto_step.
    unfold ledgers_upto. rewrite Hcust, Ho. simpl.
    auto using ledger_ok_zero. }
  destruct Hinv as (_ & Hall & Htot).
  split; [exact Hall|]. split; [exact Htot|].
  rewrite Htot. apply Forall_map.
  eapply Forall_impl; [|exact Hall].
  intros l [_ Hv]. apply sum_Z_nonneg. exact Hv.
Qed.

(** ** Detections and datacenters *)

Lemma calculate_detections_nonneg cables accuracy g d g' :
  calculate_detections cables accuracy g = Ok (d, g') -> 0 <= d.
Proof.
  unfold calculate_detections. intros H.
  apply bind_ok in H as (x & g1 & _ & H).
  apply bind_ok in H as (d1 & g2 & _ & H).
  apply bind_ok in H as (scale & g3 & _ & H).
  apply bind_ok in H as (loc & g4 & _ & H).
  apply bind_ok in H as (y & g5 & _ & H).
  apply bind_ok in H as (d2 & g6 & _ & H).
  apply ret_ok in H as [-> _]. lia.
Qed.

Lemma detections_step m st st' broke g g' :
  Forall (fun d => 0 <= d) (detections_per_day (outputs st)) ->
  month_body inputs params m st g = Ok ((st', broke), g') ->
  Forall (fun d => 0 <= d) (detections_per_day (outputs st')).
Proof.
  intros Hall H.
  apply month_body_trace in H
    as (mt & gm & Hout & _ & _ & _ & _ & _ & _ & _ & _ & _ & Hdet & _).
  destruct Hdet as (accuracy & ga & gb & Hdet).
  apply calculate_detections_nonneg in Hdet.
  apply month_outcome_more in Hout as (_ & _ & Ed & _).
  rewrite Ed. apply Forall_app. auto.
Qed.

(** X7 (detections): the daily detection count a trial records is never
    negative, whatever the perturbation drawn around its mean. *)
Theorem detections_nonnegative seed_arg g o g' :
  run_single_simulation inputs params seed_arg g = Ok (o, g') ->
  Forall (fun d => 0 <= d) (detections_per_day o).
Proof.
  intros H.
  apply run_single_simulation_inv in H as (g0 & st0 & g1 & st' & Hi & Hl & ->).
  apply initial_state_inv in Hi as (_ & _ & _ & _ & Ho).
  apply (month_loop_rule inputs params
           (fun _ st => Forall (fun d => 0 <= d)
                          (detections_per_day (outputs st)))
           (fun st => Forall (fun d => 0 <= d)
                        (detections_per_day (outputs st))))
    with (5 := Hl); eauto using detections_step.
  rewrite Ho. constructor.
Qed.

Lemma datacenters_upto_step m st st' broke g g' :
  datacenters_upto inputs st ->
  month_body inputs params m st g = Ok ((st', broke), g') ->
  datacenters_upto inputs st'.
Proof.
  intros [Hdc Hrec] H.
  pose proof (month_pipeline _ _ _ _ _ _ H) as [Hmono _].
  apply month_body_trace in H
    as (mt & gm & Hout & _ & Ec & _ & _ & Edc & Hafter & _).
  pose proof (month_outcome_series _ _ _ _ _ _ Hout) as (Ecs & _).
  apply month_outcome_more in Hout as (_ & _ & _ & Edcs & _).
  assert (Hnew : m_regional_datacenters mt
                 = datacenters_for inputs (m_cables_deployed mt)).
  { rewrite Hafter. rewrite Ec in Hmono.
    unfold datacenters_after, datacenters_for in *.
    destruct (architecture_option inputs);
      destruct Hdc as [-> | [-> Hdc]]; auto; try discriminate.
    - destruct (m_cables_deployed mt >=? 8); reflexivity.
    - destruct (Z.geb_spec (m_cables_deployed mt) 8),
               (Z.geb_spec (st_cables_deployed st) 8);
        simpl; auto; try discriminate; lia. }
  unfold datacenters_upto.
  rewrite Edc, Ec, Edcs, Ecs, Hrec, map_app, Hnew. split; [|reflexivity].
  unfold datacenters_for.
  destruct (architecture_option inputs); auto.
  destruct (m_cables_deployed mt >=? 8); auto.
Qed.

(** X8 (regional datacenter): the recorded datacenter count is a function
    of the architecture and of the month's deployed cables: 1 under the
    regional-datacenter option once at least 8 cables are deployed, 0
    otherwise; so it is 0 throughout under the two other options and
    never goes back to 0. *)
Theorem datacenters_follow_cables seed_arg g o g' :
  run_single_simulation inputs params seed_arg g = Ok (o, g') ->
  regional_datacenters o
  = map (fun cables =>
           match architecture_option inputs with
           | OPTION_B_REGIONAL_DC => if cables >=? 8 then 1 else 0
           | _ => 0
           end)
      (cables_deployed o).
Proof.
  intros H.
  apply run_single_simulation_inv in H as (g0 & st0 & g1 & st' & Hi & Hl & ->).
  pose proof Hi as Hst0. unfold initial_state in Hst0.
  apply bind_ok in Hst0 as ([capex opex] & ga & _ & Hst0).
  apply bind_ok in Hst0 as (f & gb & _ & Hst0).
  apply ret_ok in Hst0 as [Hst0 _].
  apply initial_state_inv in Hi as (_ & _ & _ & _ & Ho).
  assert (Hinv : datacenters_upto inputs st').
  { apply (month_loop_rule inputs params (fun _ st => datacenters_upto inputs st)
             (datacenters_upto inputs)) with (5 := Hl);
      eauto using datacenters_upto_step.
    unfold datacenters_upto. rewrite Ho, Hst0. simpl. auto. }
  exact (proj2 Hinv).
Qed.

(** ** The terminal flags *)

Lemma combine3_map {A B C : Type} (rows : list (A * B * C)) :
  combine (combine (map (fun r => fst (fst r)) rows)
                   (map (fun r => snd (fst r)) rows))
          (map snd rows)
  = rows.
Proof.
  induction rows as [|[[a b] c] rows IH]; simpl; [reflexivity|].
  now rewrite IH.
Qed.

Lemma first_index_snoc {A : Type} (p : A -> bool) (l : list A) (a : A) :
  first_index p (l ++ [a])
  = match first_index p l with
    | Some i => Some i
    | None => if p a then Some (List.length l) else None
    end.
Proof.
  induction l as [|b l IH]; simpl.
  - destruct (p a); reflexivity.
  - destruct (p b); [reflexivity|].
    rewrite IH. destruct (first_index p l); simpl; [reflexivity|].
    destruct (p a); reflexivity.
Qed.

Lemma existsb_first_index {A : Type} (p : A -> bool) (l : list A) :
  existsb p l = match first_index p l with Some _ => true | None => false end.
Proof.
  induction l as [|b l IH]; simpl; [reflexivity|].
  destruct (p b); simpl; [reflexivity|].
  rewrite IH. destruct (first_index p l); reflexivity.
Qed.

Lemma first_index_least {A : Type} (p : A -> bool) (l : list A) (k : nat) :
  first_index p l = Some k ->
  (exists a, nth_error l k = Some a /\ p a = true)
  /\ forall j a, (j < k)%nat -> nth_error l j = Some a -> p a = false.
Proof.
  revert k. induction l as [|b l IH]; simpl; intros k Hk; [discriminate|].
  destruct (p b) eqn:Eb.
  - injection Hk as <-. split; [exists b; auto|]. intros j a Hj. lia.
  - destruct (first_index p l) as [i|]; [|discriminate].
    injection Hk as <-. destruct (IH i eq_refl) as [Hat Hbefore].
    split; [exact Hat|].
    intros [|j] a Hj Ha; simpl in Ha.
    + injection Ha as <-. exact Eb.
    + eapply Hbefore; [|exact Ha]. lia.
Qed.

Lemma series_b_upto_step m st st' broke g g' :
  series_b_upto st ->
  month_body inputs params m st g = Ok ((st', broke), g') ->
  series_b_upto st'.
Proof.
  intros (rows & Ha & Hg & Hc & Hsb) H.
  apply month_body_trace in H as (mt & gm & Hout & _).
  pose proof (month_outcome_series _ _ _ _ _ _ Hout)
    as (Ec & _ & _ & _ & _ & _ & _ & Eg & Esb).
  apply month_outcome_more in Hout as (_ & _ & _ & _ & _ & _ & _ & Ea & _).
  exists (rows ++ [((m_revenue mt * 12)%float, gm, m_cables_deployed mt)]).
  rewrite Ea, Eg, Ec, Esb, Ha, Hg, Hc, Hsb, !map_app, existsb_app. simpl.
  now rewrite orb_false_r.
Qed.

(** X9 (Series-B qualification): the flag a trial returns is set exactly
    when some recorded month has an ARR above 30,000,000, a gross margin
    above 0.6 and at least 15 deployed cables. *)
Theorem series_b_iff_some_month seed_arg g o g' :
  run_single_simulation inputs params seed_arg g = Ok (o, g') ->
  series_b_qualified o = existsb series_b_row (series_b_rows o)
  /\ List.length (series_b_rows o) = List.length (months o).
Proof.
  intros H.
  pose proof H as Hrun.
  apply run_single_simulation_inv in H as (g0 & st0 & g1 & st' & Hi & Hl & ->).
  apply initial_state_inv in Hi as (_ & _ & _ & _ & Ho).
  assert (Hinv : series_b_upto st'
                 /\ List.length (cables_deployed (outputs st'))
                    = List.length (months (outputs st'))).
  { apply (month_loop_rule inputs params
             (fun _ st => series_b_upto st
                          /\ List.length (cables_deployed (outputs st))
                             = List.length (months (outputs st)))
             (fun st => series_b_upto st
                        /\ List.length (cables_deployed (outputs st))
                           = List.length (months (outputs st))))
      with (5 := Hl); auto.
    - intros m st st1 ga gb [HP Hlen] Hb. split.
      + eauto using series_b_upto_step.
      + apply month_body_trace in Hb as (mt & gm & Hout & _).
        pose proof (month_outcome_shape _ _ _ _ _ _ Hout) as (_ & Em & _).
        apply month_outcome_series in Hout as (Ec & _).
        rewrite Ec, Em, !length_app, Hlen. reflexivity.
    - intros m st st1 ga gb [HP Hlen] Hb. split.
      + eauto using series_b_upto_step.
      + apply month_body_trace in Hb as (mt & gm & Hout & _).
        pose proof (month_outcome_shape _ _ _ _ _ _ Hout) as (_ & Em & _).
        apply month_outcome_series in Hout as (Ec & _).
        rewrite Ec, Em, !length_app, Hlen. reflexivity.
    - unfold series_b_upto. rewrite Ho. split; [|reflexivity].
      exists []. repeat split. }
  destruct Hinv as [(rows & Ha & Hg & Hc & Hsb) Hlen].
  unfold series_b_rows. rewrite Ha, Hg, Hc, combine3_map.
  split; [exact Hsb|].
  now rewrite <- Hlen, Hc, length_map.
Qed.

Lemma profitability_upto_step m st st' broke g g' :
  profitability_upto m st ->
  month_body inputs params m st g = Ok ((st', broke), g') ->
  profitability_upto (m + 1) st'.
Proof.
  intros (rows & Hr & Hc & Hg & Hm & Hp & Hpm) H.
  apply month_body_trace in H as (mt & gm & Hout & _).
  pose proof (month_outcome_series _ _ _ _ _ _ Hout)
    as (_ & _ & _ & _ & _ & Er & Ec & Eg & _).
  apply month_outcome_more in Hout
    as (_ & _ & _ & _ & _ & _ & _ & _ & Ep & Epm).
  exists (rows ++ [(m_revenue mt, m_total_costs mt, gm)]).
  rewrite Er, Ec, Eg, Ep, Epm, Hr, Hc, Hg, Hp, Hpm, !map_app, existsb_app,
    first_index_snoc, length_app.
  simpl. rewrite orb_false_r, (existsb_first_index profitable_row rows).
  repeat split; try lia.
  destruct (first_index profitable_row rows); simpl; [reflexivity|].
  destruct (PrimFloat.ltb _ gm && PrimFloat.ltb _ _); simpl; congruence.
Qed.

(** X10 (profitability): the flag a trial returns is set exactly when
    some recorded month has a gross margin above 0.7 and a revenue above
    its cost, and [profitability_month] is the first such month: no
    earlier recorded month satisfies the condition. *)
Theorem profitability_is_first_month seed_arg g o g' :
  run_single_simulation inputs params seed_arg g = Ok (o, g') ->
  profitability_achieved o = existsb profitable_row (profit_rows o)
  /\ profitability_month o
     = option_map Z.of_nat (first_index profitable_row (profit_rows o))
  /\ forall k,
       profitability_month o = Some (Z.of_nat k) ->
       (exists row, nth_error (profit_rows o) k = Some row
                    /\ profitable_row row = true)
       /\ forall j row, (j < k)%nat -> nth_error (profit_rows o) j = Some row ->
                        profitable_row row = false.
Proof.
  intros H.
  apply run_single_simulation_inv in H as (g0 & st0 & g1 & st' & Hi & Hl & ->).
  apply initial_state_inv in Hi as (_ & _ & _ & _ & Ho).
  assert (Hinv : exists m, profitability_upto m st').
  { apply (month_loop_rule inputs params profitability_upto
             (fun st => exists m, profitability_upto m st))
      with (5 := Hl); eauto using profitability_upto_step.
    exists []. rewrite Ho. repeat split. }
  destruct Hinv as (m & rows & Hr & Hc & Hg & _ & Hp & Hpm).
  unfold profit_rows. rewrite Hr, Hc, Hg, combine3_map.
  split; [exact Hp|]. split; [exact Hpm|].
  intros k Hk. rewrite Hpm in Hk.
  destruct (first_index profitable_row rows) as [i|] eqn:Ei; [|discriminate].
  simpl in Hk. injection Hk as Hk. apply Nat2Z.inj in Hk. subst i.
  exact (first_index_least _ _ _ Ei).
Qed.

(** ** Solvency and horizon *)

Lemma solvent_upto_step m st st' broke g g' :
  solvent_upto st ->
  month_body inputs params m st g = Ok ((st', broke), g') ->
  if broke then cash_history_ok (outputs st') else solvent_upto st'.
Proof.
  intros [Hroc Hall] H.
  apply month_body_trace in H as (mt & gm & Hout & _).
  pose proof (month_outcome_shape _ _ _ _ _ _ Hout) as (_ & _ & Hflags).
  apply month_outcome_more in Hout as (Hb & _ & _ & _ & _ & _ & Ecash & _).
  destruct broke.
  - destruct Hflags as [Hroc' _]. split.
    + rewrite Ecash. intros Hnil. now apply app_eq_nil in Hnil as [_ Hnil].
    + intros earlier last_cash Hdec. rewrite Ecash in Hdec.
      apply app_inj_tail in Hdec as [<- <-]. rewrite Hroc', <- Hb. auto.
  - destruct Hflags as [Hroc' _]. split; [congruence|].
    rewrite Ecash. apply Forall_app. auto.
Qed.

(** X11 (solvency): a trial returns with [ran_out_of_cash] set exactly
    when the last cash balance it recorded is negative, and no balance
    recorded before the last one is negative: the first negative balance
    ends the trial. *)
Theorem first_negative_cash_ends_trial seed_arg g o g' :
  run_single_simulation inputs params seed_arg g = Ok (o, g') ->
  (cash_remaining o = [] -> ran_out_of_cash o = false)
  /\ forall earlier last_cash,
       cash_remaining o = earlier ++ [last_cash] ->
       ran_out_of_cash o = PrimFloat.ltb last_cash 0
       /\ Forall (fun c => PrimFloat.ltb c 0 = false) earlier.
Proof.
  intros H.
  apply run_single_simulation_inv in H as (g0 & st0 & g1 & st' & Hi & Hl & ->).
  apply initial_state_inv in Hi as (_ & _ & _ & _ & Ho).
  apply (month_loop_rule inputs params (fun _ st => solvent_upto st)
           (fun st => cash_history_ok (outputs st))) with (5 := Hl).
  - intros m st [Hroc Hall]. split; [auto|].
    intros earlier last_cash Hdec. rewrite Hdec in Hall.
    apply Forall_app in Hall as [Hearlier Hlast].
    inversion Hlast; subst. split; [congruence | exact Hearlier].
  - intros m st st1 ga gb HP Hb.
    exact (solvent_upto_step _ _ _ false _ _ HP Hb).
  - intros m st st1 ga gb HP Hb.
    exact (solvent_upto_step _ _ _ true _ _ HP Hb).
  - unfold solvent_upto. rewrite Ho. split; [reflexivity | constructor].
Qed.

Lemma month_loop_horizon n k st g st' g' :
  recorded_upto (Z.of_nat k) st ->
  failure_month (outputs st) = None ->
  month_loop inputs params n (Z.of_nat k) st g = Ok (st', g') ->
  (List.length (months (outputs st')) <= k + n)%nat
  /\ (ran_out_of_cash (outputs st') = false ->
      months (outputs st') = map Z.of_nat (seq 0 (k + n))
      /\ failure_month (outputs st') = None).
Proof.
  revert k st g.
  induction n as [|n IH]; intros k st g Hrec Hfm H; simpl in H.
  - apply ret_ok in H as [-> _].
    destruct Hrec as (k' & Hk & _ & Hm & _). apply Nat2Z.inj in Hk. subst k'.
    rewrite Nat.add_0_r, Hm, length_map, length_seq. auto.
  - apply bind_ok in H as ([st1 broke] & g1 & Hbody & H).
    pose proof (recorded_upto_step inputs params _ _ _ _ _ _ Hrec Hbody)
      as Hstep.
    apply month_body_trace in Hbody as (mt & gm & Hout & _).
    apply month_outcome_shape in Hout as (_ & _ & Hflags).
    destruct broke.
    + apply ret_ok in H as [-> _].
      destruct Hstep as (j & Hj & Hm & _), Hflags as [Hroc Hfm'].
      rewrite Hfm' in Hj. injection Hj as Hj. apply Nat2Z.inj in Hj. subst j.
      rewrite Hm, length_map, length_seq. split; [lia | congruence].
    + destruct Hflags as [_ Hfm'].
      replace (Z.of_nat k + 1) with (Z.of_nat (S k)) in * by lia.
      apply IH in H; [|exact Hstep|congruence].
      replace (k + S n)%nat with (S k + n)%nat by lia. exact H.
Qed.

(** X12 (horizon): a trial records at most [simulation_months] months
    (none when that is zero or negative), and when it returns without
    having run out of cash it has recorded every month of the horizon,
    0 to [simulation_months - 1], and carries no failure month. *)
Theorem horizon_respected seed_arg g o g' :
  run_single_simulation inputs params seed_arg g = Ok (o, g') ->
  (List.length (months o) <= Z.to_nat (simulation_months inputs))%nat
  /\ (ran_out_of_cash o = false ->
      months o = map Z.of_nat (seq 0 (Z.to_nat (simulation_months inputs)))
      /\ failure_month o = None).
Proof.
  intros H.
  apply run_single_simulation_inv in H as (g0 & st0 & g1 & st' & Hi & Hl & ->).
  apply initial_state_inv in Hi as (_ & _ & _ & _ & Ho).
  apply (month_loop_horizon _ 0%nat st0 g1 st' g'); auto.
  - exists 0%nat. rewrite Ho. simpl. repeat split; auto.
    unfold per_month_lengths; simpl. repeat constructor.
  - now rewrite Ho.
Qed.

(** ** Derived sequences *)

Lemma team_roles_keys team_size fr roles :
  team_roles team_size fr = Ok roles -> map fst roles = map fst fr.
Proof.
  revert roles. induction fr as [|[role fraction] fr IH]; intros roles H;
    simpl in H.
  - injection H as <-. reflexivity.
  - apply rbind_ok in H as (x & _ & H).
    apply rbind_ok in H as (count & _ & H).
    apply rbind_ok in H as (rest & Hrest & H).
    injection H as <-. simpl. now rewrite (IH rest Hrest).
Qed.

Lemma get_team_costs_keys team_size g cost roles g' :
  get_team_costs params team_size g = Ok ((cost, roles), g') ->
  map fst roles = role_keys.
Proof.
  unfold get_team_costs. intros H.
  apply bind_ok in H as (roles0 & g1 & Hroles & H).
  apply lift_ok in Hroles as [Hroles ->].
  apply bind_ok in H as (monthly_cost & g2 & _ & H).
  apply ret_ok in H as [H _]. injection H as _ <-.
  exact (team_roles_keys _ _ _ Hroles).
Qed.

Lemma derived_upto_step m st st' broke g g' :
  derived_upto (outputs st) ->
  month_body inputs params m st g = Ok ((st', broke), g') ->
  derived_upto (outputs st').
Proof.
  intros (Ha & Hb & Ht) H.
  apply month_body_trace in H
    as (mt & gm & Hout & _ & _ & _ & _ & _ & _ & _ & _ & _ & _
        & Hteam & Hbd & _).
  destruct Hteam as (team_cost & ga & gb & Hteam).
  apply get_team_costs_keys in Hteam.
  pose proof (month_outcome_series _ _ _ _ _ _ Hout)
    as (_ & _ & _ & _ & _ & Er & Ec & _).
  apply month_outcome_more in Hout
    as (_ & _ & _ & _ & Etr & Ebd & _ & Earr & _).
  unfold derived_upto.
  rewrite Earr, Er, Ebd, Ec, Etr, !map_app, Ha, Hb. simpl. rewrite Hbd.
  repeat split. apply Forall_app. auto.
Qed.

(** X13 (derived sequences): in every recorded month the ARR is twelve
    times the month's revenue, the recorded total cost is the sum of the
    four entries of that month's cost breakdown (infrastructure,
    personnel, sales and marketing, support, added in that order), and
    the team breakdown lists the five roles in their fixed order. *)
Theorem derived_sequences_consistent seed_arg g o g' :
  run_single_simulation inputs params seed_arg g = Ok (o, g') ->
  arr o = map (fun revenue => (revenue * 12)%float) (revenue_monthly o)
  /\ map breakdown_total (costs_breakdown o) = map Some (costs_monthly o)
  /\ Forall (fun b => map fst b = role_keys) (team_by_role o).
Proof.
  intros H.
  apply run_single_simulation_inv in H as (g0 & st0 & g1 & st' & Hi & Hl & ->).
  apply initial_state_inv in Hi as (_ & _ & _ & _ & Ho).
  apply (month_loop_rule inputs params
           (fun _ st => derived_upto (outputs st))
           (fun st => derived_upto (outputs st))) with (5 := Hl);
    eauto using derived_upto_step.
  unfold derived_upto. rewrite Ho. repeat split. constructor.
Qed.

(** ** Team growth schedule *)

Lemma last_cons_default {A : Type} (a prev : A) (l : list A) :
  last (a :: l) prev = last l a.
Proof.
  revert a prev. induction l as [|b l IH]; intros a prev; [reflexivity|].
  change (last (a :: b :: l) prev) with (last (b :: l) prev).
  now rewrite (IH b prev), (IH b a).
Qed.

Lemma team_chain_snoc month prev sizes size :
  team_chain inputs month prev sizes ->
  grow_team inputs (month + Z.of_nat (List.length sizes)) (last sizes prev)
  = Ok size ->
  team_chain inputs month prev (sizes ++ [size]).
Proof.
  revert month prev.
  induction sizes as [|a sizes IH]; intros month prev Hchain Hgrow.
  - simpl in *. rewrite Z.add_0_r in Hgrow. auto.
  - destruct Hchain as [Ha Hchain]. split; [exact Ha|].
    apply IH; [exact Hchain|].
    rewrite last_cons_default in Hgrow.
    replace (month + 1 + Z.of_nat (List.length sizes))
      with (month + Z.of_nat (List.length (a :: sizes)))
      by (simpl List.length; lia).
    exact Hgrow.
Qed.

Lemma team_upto_step m st st' broke g g' :
  team_upto inputs m st ->
  month_body inputs params m st g = Ok ((st', broke), g') ->
  team_upto inputs (m + 1) st'.
Proof.
  intros (Hm & Hlast & Hchain) H.
  apply month_body_trace in H
    as (mt & gm & Hout & _ & _ & _ & Et & _ & _ & Hgrow & _).
  apply month_outcome_series in Hout as (_ & _ & _ & _ & Ets & _).
  unfold team_upto. rewrite Ets, Et, length_app, last_last. simpl.
  repeat split; try lia.
  apply team_chain_snoc; auto.
  rewrite <- Hlast. simpl. rewrite <- Hm. exact Hgrow.
Qed.

(** X14 (team growth schedule): the recorded team sizes form a chain
    from the initial size in which each month's size is [grow_team] of
    the previous one; [grow_team] leaves the size unchanged in month 0
    and in every month that is not a multiple of 6, so the team size can
    change only at months 6, 12, 18, ... *)
Theorem team_changes_every_sixth_month seed_arg g o g' :
  run_single_simulation inputs params seed_arg g = Ok (o, g') ->
  team_chain inputs 0 (initial_team_size inputs) (team_size_total o)
  /\ forall month size,
       month <= 0 \/ month mod 6 <> 0 ->
       grow_team inputs month size = Ok size.
Proof.
  intros H. split.
  - apply run_single_simulation_inv in H
      as (g0 & st0 & g1 & st' & Hi & Hl & ->).
    apply initial_state_inv in Hi as (_ & _ & Ht & _ & Ho).
    assert (Hinv : exists m, team_upto inputs m st').
    { apply (month_loop_rule inputs params (team_upto inputs)
               (fun st => exists m, team_upto inputs m st))
        with (5 := Hl); eauto using team_upto_step.
      unfold team_upto. rewrite Ho, Ht. simpl. auto. }
    destruct Hinv as (m & _ & _ & Hchain). exact Hchain.
  - intros month size Hm. unfold grow_team.
    destruct (Z.gtb_spec month 0) as [Hpos|Hnon]; simpl; [|reflexivity].
    destruct (Z.eqb_spec (month mod 6) 0) as [Hz|Hnz]; [|reflexivity].
    exfalso. destruct Hm; [lia | contradiction].
Qed.

(** ** The driver, trial by trial *)

Lemma run_trials_inv n i acc g results g' :
  run_trials inputs params n i acc g = Ok (results, g') ->
  exists new,
    results = acc ++ new
    /\ List.length new = n
    /\ forall j o g0,
         nth_error new j = Some o ->
         outcome (run_single_simulation inputs params
                    (Some (i + Z.of_nat j)) g0) = Ok o.
Proof.
  revert i acc g.
  induction n as [|n IH]; intros i acc g H; simpl in H.
  - apply ret_ok in H as [-> _]. exists []. rewrite app_nil_r.
    repeat split. intros [|j]; discriminate.
  - apply bind_ok in H as (o & g1 & Ho & H).
    apply IH in H as (new & -> & Hlen & Hnth).
    exists (o :: new). rewrite <- app_assoc. simpl.
    repeat split; auto.
    intros [|j] o' g0 Hj; simpl in Hj.
    + injection Hj as <-. rewrite Z.add_0_r.
      rewrite (seeded_trial_ignores_state inputs params i g0 g), Ho.
      reflexivity.
    + replace (i + Z.of_nat (S j)) with (i + 1 + Z.of_nat j) by lia. eauto.
Qed.

(** X15 (driver): a batch the driver returns holds exactly
    [num_simulations] outputs (none when that is zero or negative), and
    its i-th output is what the trial seeded with [i] returns on its own,
    from any generator state: no trial is affected by the trials run
    before it or by the size of the batch. *)
Theorem batch_is_independent_trials num_simulations g results g' :
  run_monte_carlo inputs params num_simulations g = Ok (results, g') ->
  List.length results = Z.to_nat num_simulations
  /\ forall i o g0,
       nth_error results i = Some o ->
       outcome (run_single_simulation inputs params (Some (Z.of_nat i)) g0)
       = Ok o.
Proof.
  unfold run_monte_carlo. intros H.
  apply run_trials_inv in H as (new & -> & Hlen & Hnth).
  simpl. split; [exact Hlen|].
  intros i o g0 Hi. exact (Hnth i o g0 Hi).
Qed.

(** ** Operating cost *)

Lemma get_architecture_costs_opex arch num_cables g capex opex g' :
  get_architecture_costs params arch num_cables g = Ok ((capex, opex), g') ->
  opex = match arch with
         | OPTION_A_GPU_EDGE => 10800 * num_cables + 0 + 4000 * num_cables
         | OPTION_B_REGIONAL_DC =>
             2500 * num_cables + (if num_cables >=? 8 then 16700 else 0)
             + 4000 * num_cables
         | OPTION_C_CLOUD_ONLY => 2500 * num_cables + 0 + 15000 * num_cables
         end.
Proof.
  unfold get_architecture_costs. intros H.
  destruct arch;
    apply bind_ok in H as (v & g1 & _ & H);
    apply ret_ok in H as [H _];
    apply (f_equal snd) in H; cbn [snd] in H; exact H.
Qed.

(** X16 (operating cost): the monthly opex [get_architecture_costs]
    returns does not depend on its random draw; for a non-negative cable
    count it is non-negative and never decreases when cables are added;
    and at an equal cable count the regional-datacenter option costs no
    more than the GPU-edge option, which costs no more than cloud-only. *)
Theorem opex_grows_with_cables arch n n' g1 g2 capex1 opex1 g1' capex2 opex2 g2' :
  0 <= n <= n' ->
  get_architecture_costs params arch n g1 = Ok ((capex1, opex1), g1') ->
  get_architecture_costs params arch n' g2 = Ok ((capex2, opex2), g2') ->
  0 <= opex1 <= opex2
  /\ (n = n' -> opex1 = opex2)
  /\ forall ga gb gc ca oa ga' cb ob gb' cc oc gc',
       get_architecture_costs params OPTION_A_GPU_EDGE n ga
       = Ok ((ca, oa), ga') ->
       get_architecture_costs params OPTION_B_REGIONAL_DC n gb
       = Ok ((cb, ob), gb') ->
       get_architecture_costs params OPTION_C_CLOUD_ONLY n gc
       = Ok ((cc, oc), gc') ->
       ob <= oa <= oc.
Proof.
  intros Hn H1 H2.
  apply get_architecture_costs_opex in H1, H2. subst opex1 opex2.
  split; [|split].
  - destruct arch; try lia.
    destruct (Z.geb_spec n 8), (Z.geb_spec n' 8); lia.
  - intros <-. reflexivity.
  - intros ga gb gc ca oa ga' cb ob gb' cc oc gc' Ha Hb Hc.
    apply get_architecture_costs_opex in Ha, Hb, Hc. subst oa ob oc.
    destruct (Z.geb_spec n 8); lia.
Qed.

(** ** The aggregator at its edges *)

(** X17 (empty batch): with a trial count of zero or less the driver
    returns the empty batch without touching the generator, and the
    aggregator raises ZeroDivisionError on the empty batch (its first
    division is by the number of trials). *)
Theorem empty_batch_is_not_analyzed {NS : NumpyStats} num_simulations g :
  num_simulations <= 0 ->
  run_monte_carlo inputs params num_simulations g = Ok ([], g)
  /\ analyze_results [] = Raise ZeroDivisionError.
Proof.
  intros Hn. unfold run_monte_carlo.
  replace (Z.to_nat num_simulations) with 0%nat by lia.
  split; reflexivity.
Qed.

End MoreEngineFacts.

Lemma sum_profitability_month_missing sims acc r :
  In r sims -> profitability_month r = None ->
  sum_profitability_month sims acc = Raise TypeError.
Proof.
  revert acc. induction sims as [|s sims IH]; intros acc Hin Hnone;
    [contradiction|].
  simpl. destruct (profitability_month s) as [m|] eqn:Em; [|reflexivity].
  destruct Hin as [-> | Hin]; [congruence | auto].
Qed.

(** X18 (profitable trial without a month): on a batch in which some
    output has [profitability_achieved] set and no [profitability_month],
    the average raises TypeError, and so [analyze_results] returns no
    analysis. *)
Theorem avg_months_needs_the_month {NS : NumpyStats} results r :
  In r results ->
  profitability_achieved r = true ->
  profitability_month r = None ->
  avg_months_to_profit results = Raise TypeError
  /\ forall analysis, analyze_results results <> Ok analysis.
Proof.
  intros Hin Hp Hnone.
  assert (Havg : avg_months_to_profit results = Raise TypeError).
  { unfold avg_months_to_profit.
    assert (Hf : In r (filter profitability_achieved results))
      by (apply filter_In; auto).
    destruct (filter profitability_achieved results) as [|s sims] eqn:Ef;
      [contradiction|].
    now rewrite (sum_profitability_month_missing _ 0 r Hf Hnone). }
  split; [exact Havg|].
  intros analysis. unfold analyze_results. rewrite Havg.
  destruct (Py.int_truediv _ _); simpl; [|discriminate].
  destruct (Py.int_truediv _ _); simpl; [|discriminate].
  destruct (Py.int_truediv _ _); simpl; discriminate.
Qed.

Lemma final_values_none {A : Type} (field : SimulationOutputs -> list A) results :
  Forall (fun r => field r = []) results -> final_values field results = [].
Proof.
  induction 1 as [|r rest Hr _ IH]; simpl; [reflexivity|].
  rewrite Hr. exact IH.
Qed.

(** X23 (final metrics): a batch none of whose trials recorded a month,
    such as the batch a zero or negative horizon gives, is not analysed:
    its list of final cable counts is empty, the mean and the median of
    that list are NaN, and its 10th percentile raises IndexError. *)
Theorem month_less_batch_is_not_analyzed {NS : NumpyStats} results :
  Forall (fun r => cables_deployed r = []) results ->
  final_values cables_deployed results = []
  /\ summarize (int_array (final_values cables_deployed results))
     = Raise IndexError
  /\ forall analysis, analyze_results results <> Ok analysis.
Proof.
  intros Hnone.
  pose proof (final_values_none cables_deployed results Hnone) as Hfinal.
  assert (Hsum : summarize (int_array (final_values cables_deployed results))
                 = Raise IndexError).
  { rewrite Hfinal. unfold summarize.
    rewrite np_mean_empty, np_median_empty by reflexivity. simpl.
    rewrite np_percentile_empty by (simpl; auto; lia). reflexivity. }
  split; [exact Hfinal|]. split; [exact Hsum|].
  intros analysis. unfold analyze_results.
  destruct (Py.int_truediv _ _); simpl; [|discriminate].
  destruct (Py.int_truediv _ _); simpl; [|discriminate].
  destruct (Py.int_truediv _ _); simpl; [|discriminate].
  destruct (avg_months_to_profit results); simpl; [|discriminate].
  rewrite Hsum. simpl. discriminate.
Qed.

(** ** Bounded checks *)

Lemma forall_below (P : Z -> bool) (n : nat) :
  forallb P (map Z.of_nat (seq 0 n)) = true ->
  forall z, 0 <= z < Z.of_nat n -> P z = true.
Proof.
  intros Hall z Hz.
  rewrite forallb_forall in Hall. apply Hall.
  apply in_map_iff. exists (Z.to_nat z). split; [lia|].
  apply in_seq. lia.
Qed.

(** X19 (role headcount): for every team size from 0 to 5000 the role
    breakdown is defined, no role has a negative headcount, and the five
    truncated headcounts add up to the team size or to at most four less:
    the remainder of the truncation is dropped, never over-allocated. *)
Theorem role_headcount_within_team team_size :
  0 <= team_size <= 5000 ->
  exists roles,
    team_roles team_size role_fractions = Ok roles
    /\ map fst roles = role_keys
    /\ Forall (fun c => 0 <= c) (map snd roles)
    /\ team_size - 4 <= sum_Z (map snd roles) <= team_size.
Proof.
  intros Hts.
  assert (Hall : forallb headcount_ok (map Z.of_nat (seq 0 (Z.to_nat 5001)))
                 = true) by (vm_compute; reflexivity).
  pose proof (forall_below _ _ Hall team_size ltac:(lia)) as Hok.
  clear Hall. unfold headcount_ok in Hok.
  destruct (team_roles team_size role_fractions) as [roles|] eqn:Er;
    [|discriminate].
  apply andb_true_iff in Hok as [Hok Hhi].
  apply andb_true_iff in Hok as [Hnn Hlo].
  exists roles. split; [reflexivity|].
  split; [exact (team_roles_keys _ _ _ Er)|]. split.
  - apply Forall_forall. intros c Hc.
    rewrite forallb_forall in Hnn. apply Hnn in Hc. lia.
  - lia.
Qed.

(** X20 (sales ramp): for every month from 0 to 1200 the sales-ramp
    factor is defined; it is strictly below 1 and strictly increasing
    from month to month before month 12, and it is 1 from month 12 on. *)
Theorem sales_ramp_reaches_one_at_12 month :
  0 <= month <= 1200 ->
  exists r r',
    sales_effectiveness month = Ok r
    /\ sales_effectiveness (month + 1) = Ok r'
    /\ (month < 12 -> PrimFloat.ltb r r' = true /\ PrimFloat.ltb r 1 = true)
    /\ (12 <= month -> PrimFloat.eqb r 1 = true /\ PrimFloat.eqb r' 1 = true).
Proof.
  intros Hm.
  assert (Hall : forallb ramp_ok (map Z.of_nat (seq 0 (Z.to_nat 1201))) = true)
    by (vm_compute; reflexivity).
  pose proof (forall_below _ _ Hall month ltac:(lia)) as Hok.
  clear Hall. unfold ramp_ok in Hok.
  destruct (sales_effectiveness month) as [r|]; [|discriminate].
  destruct (sales_effectiveness (month + 1)) as [r'|]; [|discriminate].
  exists r, r'. split; [reflexivity|]. split; [reflexivity|].
  destruct (Z.ltb_spec month 12); apply andb_true_iff in Hok;
    split; intros; auto; lia.
Qed.

(** ** The API layer *)

(** X21 (architecture decoding): decoding the value of an architecture
    option gives the option back, and every string other than "A" and
    "B" decodes to the cloud-only option, the unknown ones included. *)
Theorem arch_map_decodes :
  (forall a, arch_map_get (architecture_value a) = a)
  /\ forall s, s <> "A"%string -> s <> "B"%string ->
              arch_map_get s = OPTION_C_CLOUD_ONLY.
Proof.
  split.
  - intros []; reflexivity.
  - intros s Ha Hb. unfold arch_map_get, dict_get.
    destruct (String.eqb_spec s "A"); [contradiction|].
    destruct (String.eqb_spec s "B"); [contradiction|].
    destruct (String.eqb s "C"); reflexivity.
Qed.

(** X22 (sample trajectories): for every batch of 1 to 5000 results the
    three sample positions (10th percentile, median, 90th percentile) are
    all kept, are in range and are in that order. *)
Theorem three_samples_in_range n :
  1 <= n <= 5000 ->
  exists p10 median p90,
    sample_positions n = Ok [p10; median; p90]
    /\ 0 <= p10 <= median /\ median <= p90 < n.
Proof.
  intros Hn.
  assert (Hall : forallb samples_ok (map Z.of_nat (seq 0 (Z.to_nat 5000)))
                 = true) by (vm_compute; reflexivity).
  pose proof (forall_below _ _ Hall (n - 1) ltac:(lia)) as Hok.
  clear Hall.
  unfold samples_ok in Hok. replace (n - 1 + 1) with n in Hok by lia.
  destruct (sample_positions n) as [[|p10 [|median [|p90 [|? ?]]]]|];
    try discriminate.
  exists p10, median, p90. split; [reflexivity|].
  repeat (apply andb_true_iff in Hok as [Hok ?]). lia.
Qed.

(** ** The further properties at the concrete runs *)

Lemma planning_pays_upfront_witness :
  plan_deployments (NR := sample_random) eight_months steady_price_params
    2 6 [] 8000000 [0.5; -1; 1; 2]%float
  = Ok (([(8, 212500%float); (8, 325000%float)], 7462500%float), [])
  /\ firstn 0 [(8, 212500%float); (8, 325000%float)] = []
  /\ List.length [(8, 212500%float); (8, 325000%float)] = (0 + 2)%nat
  /\ 7462500%float
     = fold_left (fun c e => (c - snd e)%float)
         (skipn 0 [(8, 212500%float); (8, 325000%float)]) 8000000%float.
Proof.
  assert (H : plan_deployments (NR := sample_random) eight_months
                steady_price_params 2 6 [] 8000000 [0.5; -1; 1; 2]%float
              = Ok (([(8, 212500%float); (8, 325000%float)], 7462500%float), []))
    by (vm_compute; reflexivity).
  split; [exact H|].
  exact (planning_pays_upfront (NR := sample_random) eight_months
           steady_price_params 2 6 [] 8000000 [0.5; -1; 1; 2]%float _ _ _ H).
Defined.

Lemma pipeline_tracks_target_witness :
  month_six = Ok (month_six_state, false, [])
  /\ st_cables_deployed qualified_state <= st_cables_deployed month_six_state
  /\ st_cables_deployed month_six_state
     + Z.of_nat (List.length (deployment_queue month_six_state))
     = Z.max (st_cables_deployed qualified_state
              + Z.of_nat (List.length (deployment_queue qualified_state)))
             (target_cables eight_months 6)
  /\ target_cables eight_months 6 = 5
  /\ deployment_queue month_six_state = [(8, 212500%float); (8, 325000%float)].
Proof.
  assert (H : month_six = Ok (month_six_state, false, []))
    by (vm_compute; reflexivity).
  destruct (pipeline_tracks_target (NR := sample_random) eight_months
              steady_price_params 6 qualified_state _ _ _ _ H) as [Hmono Hpipe].
  split; [exact H|]. split; [exact Hmono|]. split; [exact Hpipe|].
  split; reflexivity.
Defined.

Lemma cables_monotone_bounded_witness :
  trial_of two_years
  = Ok (two_years_outputs, two_years_tape)
  /\ nondecreasing (cables_deployed two_years_outputs)
  /\ Forall (fun c => 3 <= c <= 30) (cables_deployed two_years_outputs)
  /\ cables_deployed two_years_outputs
     = [3; 3; 3; 3; 3; 3; 3; 3; 5; 5; 5; 5; 5; 5; 15; 15; 15; 15; 15; 15;
        30; 30; 30; 30].
Proof.
  assert (H : trial_of two_years
              = Ok (two_years_outputs, two_years_tape))
    by (vm_compute; reflexivity).
  destruct (cables_monotone_bounded (NR := sample_random) two_years
              steady_price_params (Some 0) [] _ _ H) as [Hsorted Hbounds].
  split; [exact H|]. split; [exact Hsorted|]. split; [exact Hbounds|].
  reflexivity.
Defined.

Lemma churn_never_adds_witness :
  NoDup (map fst sample_ledger)
  /\ sample_churn
     = Ok ([("port"%string, 36); ("naval"%string, 3);
            ("environmental"%string, 23); ("shipping"%string, 0);
            ("insurance"%string, 9)], [])
  /\ Forall2 (fun old new : string * Z => 0 <= snd new <= snd old)
       sample_ledger
       [("port"%string, 36); ("naval"%string, 3);
        ("environmental"%string, 23); ("shipping"%string, 0);
        ("insurance"%string, 9)].
Proof.
  assert (Hnd : NoDup (map fst sample_ledger)).
  { simpl. repeat constructor; simpl; intuition discriminate. }
  assert (H : sample_churn
              = Ok ([("port"%string, 36); ("naval"%string, 3);
                     ("environmental"%string, 23); ("shipping"%string, 0);
                     ("insurance"%string, 9)], []))
    by (vm_compute; reflexivity).
  split; [exact Hnd|]. split; [exact H|].
  exact (proj2 (churn_never_adds (NR := sample_random) steady_price_params
                  sample_ledger [300]%float _ _ Hnd H)).
Defined.

Lemma ledgers_well_formed_witness :
  trial_of eight_months
  = Ok (eight_months_outputs, eight_months_tape)
  /\ Forall (fun l => map fst l = segment_keys
                      /\ Forall (fun c => 0 <= c) (map snd l))
       (customers_by_segment eight_months_outputs)
  /\ total_customers eight_months_outputs = [0; 0; 0; 0; 1; 2; 4; 6]
  /\ Forall (fun t => 0 <= t) (total_customers eight_months_outputs).
Proof.
  assert (H : trial_of eight_months
              = Ok (eight_months_outputs, eight_months_tape))
    by (vm_compute; reflexivity).
  destruct (ledgers_well_formed (NR := sample_random) eight_months
              steady_price_params (Some 0) [] _ _ H) as (Hl & _ & Ht).
  split; [exact H|]. split; [exact Hl|]. split; [reflexivity | exact Ht].
Defined.

Lemma detections_nonnegative_witness :
  trial_of eight_months
  = Ok (eight_months_outputs, eight_months_tape)
  /\ detections_per_day eight_months_outputs
     = [165; 145; 145; 145; 145; 145; 145; 145]
  /\ Forall (fun d => 0 <= d) (detections_per_day eight_months_outputs).
Proof.
  assert (H : trial_of eight_months
              = Ok (eight_months_outputs, eight_months_tape))
    by (vm_compute; reflexivity).
  split; [exact H|]. split; [reflexivity|].
  exact (detections_nonnegative (NR := sample_random) eight_months
           steady_price_params (Some 0) [] _ _ H).
Defined.

Lemma datacenters_follow_cables_witness :
  trial_of regional_two_years
  = Ok (regional_two_years_outputs, regional_two_years_tape)
  /\ cables_deployed regional_two_years_outputs
     = [5; 5; 5; 5; 5; 5; 5; 5; 5; 5; 5; 5; 5; 5; 15; 15; 15; 15; 15; 15;
        30; 30; 30; 30]
  /\ regional_datacenters regional_two_years_outputs
     = map (fun cables => if cables >=? 8 then 1 else 0)
         (cables_deployed regional_two_years_outputs).
Proof.
  assert (H : trial_of regional_two_years
              = Ok (regional_two_years_outputs, regional_two_years_tape))
    by (vm_compute; reflexivity).
  split; [exact H|]. split; [reflexivity|].
  exact (datacenters_follow_cables (NR := sample_random) regional_two_years
           steady_price_params (Some 0) [] _ _ H).
Defined.

Lemma series_b_iff_some_month_witness :
  trial_of two_years
  = Ok (two_years_outputs, two_years_tape)
  /\ series_b_qualified two_years_outputs
     = existsb series_b_row (series_b_rows two_years_outputs)
  /\ List.length (series_b_rows two_years_outputs) = 24%nat
  /\ series_b_qualified two_years_outputs = true.
Proof.
  assert (H : trial_of two_years
              = Ok (two_years_outputs, two_years_tape))
    by (vm_compute; reflexivity).
  destruct (series_b_iff_some_month (NR := sample_random) two_years
              steady_price_params (Some 0) [] _ _ H) as [Hsb Hlen].
  split; [exact H|]. split; [exact Hsb|]. split; [exact Hlen | reflexivity].
Defined.

Lemma profitability_is_first_month_witness :
  trial_of two_years
  = Ok (two_years_outputs, two_years_tape)
  /\ profitability_month two_years_outputs = Some (Z.of_nat 11)
  /\ (exists row, nth_error (profit_rows two_years_outputs) 11 = Some row
                  /\ profitable_row row = true)
  /\ forall j row, (j < 11)%nat ->
       nth_error (profit_rows two_years_outputs) j = Some row ->
       profitable_row row = false.
Proof.
  assert (H : trial_of two_years
              = Ok (two_years_outputs, two_years_tape))
    by (vm_compute; reflexivity).
  destruct (profitability_is_first_month (NR := sample_random) two_years
              steady_price_params (Some 0) [] _ _ H) as (_ & _ & Hfirst).
  split; [exact H|]. split; [reflexivity|].
  exact (Hfirst 11%nat eq_refl).
Defined.

Lemma first_negative_cash_ends_trial_witness :
  trial_of tight_funding
  = Ok (tight_funding_outputs, tight_funding_tape)
  /\ cash_remaining tight_funding_outputs
     = [252666.66666666666; 65749.999999999971]%float
       ++ [(-121166.66666666672)%float]
  /\ ran_out_of_cash tight_funding_outputs
     = PrimFloat.ltb (-121166.66666666672) 0
  /\ Forall (fun c => PrimFloat.ltb c 0 = false)
       [252666.66666666666; 65749.999999999971]%float.
Proof.
  assert (H : trial_of tight_funding
              = Ok (tight_funding_outputs, tight_funding_tape))
    by (vm_compute; reflexivity).
  destruct (first_negative_cash_ends_trial (NR := sample_random) tight_funding
              steady_price_params (Some 0) [] _ _ H) as [_ Hlast].
  split; [exact H|]. split; [reflexivity|].
  exact (Hlast [252666.66666666666; 65749.999999999971]%float
           (-121166.66666666672)%float eq_refl).
Defined.

Lemma horizon_respected_witness :
  trial_of eight_months
  = Ok (eight_months_outputs, eight_months_tape)
  /\ ran_out_of_cash eight_months_outputs = false
  /\ months eight_months_outputs = map Z.of_nat (seq 0 8)
  /\ failure_month eight_months_outputs = None.
Proof.
  assert (H : trial_of eight_months
              = Ok (eight_months_outputs, eight_months_tape))
    by (vm_compute; reflexivity).
  destruct (horizon_respected (NR := sample_random) eight_months
              steady_price_params (Some 0) [] _ _ H) as [_ Hfull].
  split; [exact H|]. split; [reflexivity|].
  exact (Hfull eq_refl).
Defined.

Lemma derived_sequences_consistent_witness :
  trial_of eight_months
  = Ok (eight_months_outputs, eight_months_tape)
  /\ arr eight_months_outputs
     = map (fun revenue => (revenue * 12)%float)
         (revenue_monthly eight_months_outputs)
  /\ map breakdown_total (costs_breakdown eight_months_outputs)
     = map Some (costs_monthly eight_months_outputs)
  /\ Forall (fun b => map fst b = role_keys)
       (team_by_role eight_months_outputs).
Proof.
  assert (H : trial_of eight_months
              = Ok (eight_months_outputs, eight_months_tape))
    by (vm_compute; reflexivity).
  split; [exact H|].
  exact (derived_sequences_consistent (NR := sample_random) eight_months
           steady_price_params (Some 0) [] _ _ H).
Defined.

Lemma team_changes_every_sixth_month_witness :
  trial_of two_years
  = Ok (two_years_outputs, two_years_tape)
  /\ team_size_total two_years_outputs
     = [5; 5; 5; 5; 5; 5; 7; 7; 7; 7; 7; 7; 10; 10; 10; 10; 10; 10; 15; 15;
        15; 15; 15; 15]
  /\ team_chain two_years 0 5 (team_size_total two_years_outputs).
Proof.
  assert (H : trial_of two_years
              = Ok (two_years_outputs, two_years_tape))
    by (vm_compute; reflexivity).
  split; [exact H|]. split; [reflexivity|].
  exact (proj1 (team_changes_every_sixth_month (NR := sample_random) two_years
                  steady_price_params (Some 0) [] _ _ H)).
Defined.

Lemma batch_is_independent_trials_witness :
  tight_batch = Ok ([tight_funding_outputs; tight_funding_outputs], [])
  /\ List.length [tight_funding_outputs; tight_funding_outputs]
     = Z.to_nat 2
  /\ outcome (run_single_simulation (NR := sample_random) tight_funding
                steady_price_params (Some (Z.of_nat 1)) [5; -5]%float)
     = Ok tight_funding_outputs.
Proof.
  assert (H : tight_batch
              = Ok ([tight_funding_outputs; tight_funding_outputs], []))
    by (vm_compute; reflexivity).
  destruct (batch_is_independent_trials (NR := sample_random) tight_funding
              steady_price_params 2 [] _ _ H) as [Hlen Hnth].
  split; [exact H|]. split; [exact Hlen|].
  exact (Hnth 1%nat tight_funding_outputs [5; -5]%float eq_refl).
Defined.

Lemma opex_grows_with_cables_witness :
  0 <= 7 <= 8
  /\ get_architecture_costs (NR := sample_random) steady_price_params
       OPTION_B_REGIONAL_DC 7 [1]%float
     = Ok ((402499.99999999994%float, 45500), [])
  /\ get_architecture_costs (NR := sample_random) steady_price_params
       OPTION_B_REGIONAL_DC 8 [-1]%float
     = Ok ((297500%float, 68700), [])
  /\ 0 <= 45500 <= 68700.
Proof.
  assert (Hn : 0 <= 7 <= 8) by lia.
  assert (H1 : get_architecture_costs (NR := sample_random)
                 steady_price_params OPTION_B_REGIONAL_DC 7 [1]%float
               = Ok ((402499.99999999994%float, 45500), []))
    by (vm_compute; reflexivity).
  assert (H2 : get_architecture_costs (NR := sample_random)
                 steady_price_params OPTION_B_REGIONAL_DC 8 [-1]%float
               = Ok ((297500%float, 68700), []))
    by (vm_compute; reflexivity).
  split; [exact Hn|]. split; [exact H1|]. split; [exact H2|].
  exact (proj1 (opex_grows_with_cables (NR := sample_random)
                  steady_price_params OPTION_B_REGIONAL_DC 7 8 _ _ _ _ _ _ _ _
                  Hn H1 H2)).
Defined.

Lemma empty_batch_is_not_analyzed_witness :
  -3 <= 0
  /\ run_monte_carlo (NR := sample_random) eight_months steady_price_params
       (-3) [1; 2]%float
     = Ok ([], [1; 2]%float)
  /\ analyze_results (NS := ShortArrays.stats) [] = Raise ZeroDivisionError.
Proof.
  assert (Hn : -3 <= 0) by lia.
  split; [exact Hn|].
  exact (empty_batch_is_not_analyzed (NR := sample_random)
           (NS := ShortArrays.stats) eight_months
           steady_price_params (-3) [1; 2]%float Hn).
Defined.

Lemma avg_months_needs_the_month_witness :
  In (with_flags empty_outputs true None false false None) inconsistent_batch
  /\ avg_months_to_profit inconsistent_batch = Raise TypeError
  /\ forall analysis,
       analyze_results (NS := ShortArrays.stats) inconsistent_batch
       <> Ok analysis.
Proof.
  assert (Hin : In (with_flags empty_outputs true None false false None)
                  inconsistent_batch) by (right; left; reflexivity).
  split; [exact Hin|].
  exact (avg_months_needs_the_month (NS := ShortArrays.stats)
           inconsistent_batch _ Hin eq_refl eq_refl).
Defined.

Lemma month_less_batch_is_not_analyzed_witness :
  outcome (run_monte_carlo (NR := sample_random) negative_horizon
             default_params 2 [])
  = Ok (repeat empty_outputs 2)
  /\ Forall (fun r => cables_deployed r = []) (repeat empty_outputs 2)
  /\ analyze_results (NS := ShortArrays.stats) (repeat empty_outputs 2)
     = Raise IndexError
  /\ forall analysis,
       analyze_results (NS := ShortArrays.stats) (repeat empty_outputs 2)
       <> Ok analysis.
Proof.
  assert (Hnone : Forall (fun r => cables_deployed r = [])
                    (repeat empty_outputs 2))
    by (repeat constructor).
  split; [vm_compute; reflexivity|]. split; [exact Hnone|].
  split; [vm_compute; reflexivity|].
  exact (proj2 (proj2 (month_less_batch_is_not_analyzed
                         (NS := ShortArrays.stats) _ Hnone))).
Defined.

Lemma role_headcount_within_team_witness :
  0 <= 5 <= 5000
  /\ team_roles 5 role_fractions
     = Ok [("signal_processing_ml"%string, 1); ("data_engineering"%string, 1);
           ("cloud_devops"%string, 1); ("edge_hardware"%string, 0);
           ("product_engineering"%string, 1)]
  /\ exists roles,
       team_roles 5 role_fractions = Ok roles
       /\ map fst roles = role_keys
       /\ Forall (fun c => 0 <= c) (map snd roles)
       /\ 5 - 4 <= sum_Z (map snd roles) <= 5.
Proof.
  assert (Hts : 0 <= 5 <= 5000) by lia.
  split; [exact Hts|]. split; [reflexivity|].
  exact (role_headcount_within_team 5 Hts).
Defined.

Lemma sales_ramp_reaches_one_at_12_witness :
  0 <= 6 <= 1200
  /\ sales_effectiveness 6 = Ok 0.5%float
  /\ exists r r',
       sales_effectiveness 6 = Ok r
       /\ sales_effectiveness (6 + 1) = Ok r'
       /\ (6 < 12 -> PrimFloat.ltb r r' = true /\ PrimFloat.ltb r 1 = true)
       /\ (12 <= 6 -> PrimFloat.eqb r 1 = true /\ PrimFloat.eqb r' 1 = true).
Proof.
  assert (Hm : 0 <= 6 <= 1200) by lia.
  split; [exact Hm|]. split; [reflexivity|].
  exact (sales_ramp_reaches_one_at_12 6 Hm).
Defined.

Lemma arch_map_decodes_witness :
  "Z"%string <> "A"%string
  /\ "Z"%string <> "B"%string
  /\ arch_map_get "Z" = OPTION_C_CLOUD_ONLY
  /\ arch_map_get (architecture_value OPTION_B_REGIONAL_DC)
     = OPTION_B_REGIONAL_DC.
Proof.
  assert (Ha : "Z"%string <> "A"%string) by discriminate.
  assert (Hb : "Z"%string <> "B"%string) by discriminate.
  split; [exact Ha|]. split; [exact Hb|]. split.
  - exact (proj2 arch_map_decodes "Z"%string Ha Hb).
  - exact (proj1 arch_map_decodes OPTION_B_REGIONAL_DC).
Defined.

Lemma three_samples_in_range_witness :
  1 <= 1000 <= 5000
  /\ sample_positions 1000 = Ok [100; 500; 900]
  /\ exists p10 median p90,
       sample_positions 1000 = Ok [p10; median; p90]
       /\ 0 <= p10 <= median /\ median <= p90 < 1000.
Proof.
  assert (Hn : 1 <= 1000 <= 5000) by lia.
  split; [exact Hn|]. split; [reflexivity|].
  exact (three_samples_in_range 1000 Hn).
Defined.
